(** * zotero-kbase: batch PDF conversion and annotation rendering

    A shallow embedding of [convert_pdf_files.py], [convert_annotations.py]
    and [config.py], with the path resolution of
    [extract_zotero_metadata.py].  Python strings are Rocq strings, the file
    system the scripts work on is an explicit store threaded through every
    operation, [print] appends to a console log, and Python exceptions are
    the [Raise] results of a small state-and-error monad. *)

From Stdlib Require Import ZArith String Ascii DecimalString DecimalZ DecimalPos List Lia.
From stdpp Require Import gmap strings list sorting.

Open Scope string_scope.
Open Scope list_scope.

(** ** Python string operations *)

Module Py.

Definition ascii_eqb (a b : ascii) : bool := Ascii.eqb a b.

(** [str(n)] for a Python [int]. *)
Definition str_int (z : Z) : string := NilZero.string_of_int (Z.to_int z).

Definition str_nat (n : nat) : string := str_int (Z.of_nat n).

(** [s.startswith(p)] *)
Definition startswith (p s : string) : bool := String.prefix p s.

(** [s.endswith(suffix)] *)
Fixpoint endswith (suffix s : string) : bool :=
  String.eqb s suffix ||
  match s with
  | EmptyString => false
  | String _ s' => endswith suffix s'
  end.

(** [s.endswith((t1, ..., tn))] with a tuple of suffixes. *)
Definition endswith_any (suffixes : list string) (s : string) : bool :=
  existsb (fun suffix => endswith suffix s) suffixes.

Definition lower_ascii (c : ascii) : ascii :=
  let n := nat_of_ascii c in
  if (65 <=? n)%nat && (n <=? 90)%nat then ascii_of_nat (n + 32) else c.

Definition upper_ascii (c : ascii) : ascii :=
  let n := nat_of_ascii c in
  if (97 <=? n)%nat && (n <=? 122)%nat then ascii_of_nat (n - 32) else c.

Definition is_lower (c : ascii) : bool :=
  let n := nat_of_ascii c in (97 <=? n)%nat && (n <=? 122)%nat.

Definition is_upper (c : ascii) : bool :=
  let n := nat_of_ascii c in (65 <=? n)%nat && (n <=? 90)%nat.

(** [s.lower()] on the ASCII range. *)
Fixpoint lower (s : string) : string :=
  match s with
  | EmptyString => EmptyString
  | String c s' => String (lower_ascii c) (lower s')
  end.

(** [s.title()] on the ASCII range: the first letter of every run of letters
    is upper-cased, the other letters of the run are lower-cased. *)
Fixpoint title_from (previous_is_cased : bool) (s : string) : string :=
  match s with
  | EmptyString => EmptyString
  | String c s' =>
      if is_lower c then
        String (if previous_is_cased then c else upper_ascii c) (title_from true s')
      else if is_upper c then
        String (if previous_is_cased then lower_ascii c else c) (title_from true s')
      else String c (title_from false s')
  end.

Definition title (s : string) : string := title_from false s.

(** [c in s] for a one-character [c]. *)
Fixpoint contains_char (c : ascii) (s : string) : bool :=
  match s with
  | EmptyString => false
  | String a s' => ascii_eqb a c || contains_char c s'
  end.

(** [s[n:]] *)
Fixpoint drop (n : nat) (s : string) : string :=
  match n, s with
  | O, _ => s
  | S _, EmptyString => EmptyString
  | S n', String _ s' => drop n' s'
  end.

(** [s[:n]] *)
Fixpoint take (n : nat) (s : string) : string :=
  match n, s with
  | O, _ => EmptyString
  | S _, EmptyString => EmptyString
  | S n', String c s' => String c (take n' s')
  end.

(** [s.rfind(c)] for a one-character [c]: the index of the last occurrence,
    [-1] when there is none. *)
Fixpoint rfind (c : ascii) (s : string) : Z :=
  match s with
  | EmptyString => (-1)%Z
  | String a s' =>
      let r := rfind c s' in
      if (0 <=? r)%Z then (r + 1)%Z
      else if ascii_eqb a c then 0%Z else (-1)%Z
  end.

(** [s.replace(old, new)]: the non-overlapping occurrences of [old] are
    replaced from left to right.  [skip] counts the characters of an
    occurrence that was just replaced and are still to be passed over.  With
    an empty [old] Python inserts [new] before every character and at the
    end. *)
Fixpoint replace_from (old new : string) (skip : nat) (s : string) : string :=
  match s with
  | EmptyString => EmptyString
  | String c s' =>
      match skip with
      | S k => replace_from old new k s'
      | O =>
          if String.prefix old s
          then new +:+ replace_from old new (String.length old - 1) s'
          else String c (replace_from old new 0 s')
      end
  end.

Fixpoint intersperse_before (new s : string) : string :=
  match s with
  | EmptyString => new
  | String c s' => new +:+ String c (intersperse_before new s')
  end.

Definition replace (old new s : string) : string :=
  match old with
  | EmptyString => intersperse_before new s
  | _ => replace_from old new 0 s
  end.

(** ["".join(parts)] *)
Definition concat (parts : list string) : string :=
  fold_right String.append EmptyString parts.

(** [c * n] *)
Fixpoint repeat_char (c : ascii) (n : nat) : string :=
  match n with
  | O => EmptyString
  | S n' => String c (repeat_char c n')
  end.

End Py.

(** ** [os.path] (the POSIX flavour, [posixpath]) *)

Module os_path.

Definition sep : ascii := "/"%char.

Definition has_sep (s : string) : bool := Py.contains_char sep s.

(** The directory part with which the entries of [d] start: what
    [join d name] puts before a relative [name]. *)
Definition dir_prefix (d : string) : string :=
  if String.eqb d "" || Py.endswith "/" d then d else d +:+ "/".

Definition isabs (p : string) : bool := Py.startswith "/" p.

(** [os.path.join(a, b)] *)
Definition join (a b : string) : string :=
  if Py.startswith "/" b then b else dir_prefix a +:+ b.

(** [os.path.basename(p)]: what follows the last separator. *)
Definition basename (p : string) : string :=
  Py.drop (Z.to_nat (Py.rfind sep p + 1)) p.

(** [os.path.splitext(p)]: the extension starts at the last dot of the last
    component, unless that component has only dots before it. *)
Definition splitext (p : string) : string * string :=
  let sepIndex := Py.rfind sep p in
  let dotIndex := Py.rfind "."%char p in
  if (sepIndex <? dotIndex)%Z then
    let filenameIndex := Z.to_nat (sepIndex + 1) in
    let leading := Py.take (Z.to_nat dotIndex - filenameIndex) (Py.drop filenameIndex p) in
    if String.eqb leading (Py.repeat_char "."%char (String.length leading))
    then (p, EmptyString)
    else (Py.take (Z.to_nat dotIndex) p, Py.drop (Z.to_nat dotIndex) p)
  else (p, EmptyString).

End os_path.

(** ** The file system

    Regular files are a finite map from path to content, directories a finite
    set of paths.  Paths are compared as the strings the program builds: no
    symbolic links, no [..] resolution.  Permissions, disk faults and paths
    that are used both as a file and as a directory are outside the model. *)

Record filesystem := FileSystem {
  files : gmap string string;
  dirs : gset string
}.

(** ** Exceptions and the I/O monad

    A computation reads and updates the file system and either returns a
    value or raises; [Raise msg] carries [str(e)].  The store survives a
    raise, as it does in Python. *)

Inductive result (A : Type) : Type :=
| Return (a : A)
| Raise (msg : string).
Arguments Return {A} a.
Arguments Raise {A} msg.

Definition io (A : Type) : Type := filesystem -> result A * filesystem.

Definition io_return {A} (a : A) : io A := fun fs => (Return a, fs).

Definition io_raise {A} (msg : string) : io A := fun fs => (Raise msg, fs).

Definition io_bind {A B} (m : io A) (k : A -> io B) : io B :=
  fun fs =>
    match m fs with
    | (Return a, fs') => k a fs'
    | (Raise msg, fs') => (Raise msg, fs')
    end.

Notation "x <- m ;; k" := (io_bind m (fun x => k))
  (at level 100, m at next level, right associativity).
Notation "m >> k" := (io_bind m (fun _ => k))
  (at level 100, right associativity).

(** [for x in l: body(x)] *)
Fixpoint for_each {A} (l : list A) (body : A -> io unit) : io unit :=
  match l with
  | [] => io_return tt
  | x :: l' => body x >> for_each l' body
  end.

Definition file_not_found (p : string) : string :=
  "[Errno 2] No such file or directory: '" +:+ p +:+ "'".

Module os.

(** [p] lies below directory [d]. *)
Definition under (d p : string) : bool := String.prefix (os_path.dir_prefix d) p.

Definition in_tree (d p : string) : bool := String.eqb p d || under d p.

(** [os.path.exists(p)] *)
Definition path_exists (fs : filesystem) (p : string) : bool :=
  bool_decide (is_Some (files fs !! p)) || bool_decide (p ∈ dirs fs).

(** The proper ancestors of [p]: the non-empty prefixes that end just before
    a separator. *)
Fixpoint ancestors_from (seen p : string) : list string :=
  match p with
  | EmptyString => []
  | String c p' =>
      (if Py.ascii_eqb c os_path.sep && negb (String.eqb seen "") then [seen] else [])
      ++ ancestors_from (seen +:+ String c EmptyString) p'
  end.

Definition ancestors (p : string) : list string := ancestors_from EmptyString p.

(** [os.makedirs(p, exist_ok=True)] *)
Definition makedirs (p : string) : io unit := fun fs =>
  if String.eqb p "" then (Raise (file_not_found p), fs)
  else (Return tt, FileSystem (files fs) (dirs fs ∪ {[p]} ∪ list_to_set (ancestors p))).

(** The name of the entry of [d] through which [p] is reached. *)
Fixpoint first_component (s : string) : string :=
  match s with
  | EmptyString => EmptyString
  | String c s' => if Py.ascii_eqb c os_path.sep then EmptyString else String c (first_component s')
  end.

Definition child_name (d p : string) : option string :=
  if under d p then
    let name := first_component (Py.drop (String.length (os_path.dir_prefix d)) p) in
    if String.eqb name "" then None else Some name
  else None.

(** [os.listdir(d)]: the names of the entries of [d], in the order of the
    store (Python promises no order). *)
Definition listdir (d : string) : io (list string) := fun fs =>
  (Return (remove_dups (omap (child_name d) ((map_to_list (files fs)).*1 ++ elements (dirs fs)))), fs).

End os.

Module shutil.

(** [shutil.rmtree(d)] *)
Definition rmtree (d : string) : io unit := fun fs =>
  (Return tt,
   FileSystem (filter (fun kv => os.in_tree d kv.1 = false) (files fs))
              (filter (fun p => os.in_tree d p = false) (dirs fs))).

(** [shutil.move(src, dst)] of a regular file; the destination is
    overwritten.  Moving a directory is outside the model. *)
Definition move (src dst : string) : io unit := fun fs =>
  match files fs !! src with
  | Some data => (Return tt, FileSystem (<[dst := data]> (delete src (files fs))) (dirs fs))
  | None => (Raise (file_not_found src), fs)
  end.

End shutil.

(** [open(p, 'r').read()] *)
Definition read_text (p : string) : io string := fun fs =>
  match files fs !! p with
  | Some data => (Return data, fs)
  | None => (Raise (file_not_found p), fs)
  end.

(** [open(p, 'w').write(data)] *)
Definition write_text (p data : string) : io unit := fun fs =>
  (Return tt, FileSystem (<[p := data]> (files fs)) (dirs fs)).

(** ** [config.py] *)

Module config.

Definition ZOTERO_DATA_DIR := "D:\AppData\ZoteroData\".
Definition ZOTERO_DB_PATH := "D:\AppData\ZoteroData\zotero.sqlite".
Definition STORAGE_DIR_NAME := "storage".
Definition MINERU_DIR := "D:\Files\Coding\Python\mineru".
Definition MAGIC_PDF_CONFIG_FILENAME := "magic-pdf.json".
Definition METADATA_CSV_FILENAME := "zotero_metadata.csv".
Definition ANNOTATIONS_CSV_FILENAME := "zotero_annotations.csv".
Definition DEFAULT_BATCH_OUTPUT_DIR := "fulltexts".
Definition IMAGES_DIR_NAME := "images".
Definition DEFAULT_ANNOTATIONS_OUTPUT_DIR := "annotations".
Definition DEFAULT_ENCODING := "utf-8".
Definition DEFAULT_MAX_PAGES : Z := 100.

Inductive value :=
| Str (s : string)
| Int (z : Z).

(** The module namespace after [config.py] has run: every top-level
    assignment, in source order. *)
Definition namespace : list (string * value) :=
  [ ("ZOTERO_DATA_DIR", Str ZOTERO_DATA_DIR);
    ("ZOTERO_DB_PATH", Str ZOTERO_DB_PATH);
    ("STORAGE_DIR_NAME", Str STORAGE_DIR_NAME);
    ("MINERU_DIR", Str MINERU_DIR);
    ("MAGIC_PDF_CONFIG_FILENAME", Str MAGIC_PDF_CONFIG_FILENAME);
    ("METADATA_CSV_FILENAME", Str METADATA_CSV_FILENAME);
    ("ANNOTATIONS_CSV_FILENAME", Str ANNOTATIONS_CSV_FILENAME);
    ("DEFAULT_BATCH_OUTPUT_DIR", Str DEFAULT_BATCH_OUTPUT_DIR);
    ("IMAGES_DIR_NAME", Str IMAGES_DIR_NAME);
    ("DEFAULT_ANNOTATIONS_OUTPUT_DIR", Str DEFAULT_ANNOTATIONS_OUTPUT_DIR);
    ("DEFAULT_ENCODING", Str DEFAULT_ENCODING);
    ("DEFAULT_MAX_PAGES", Int DEFAULT_MAX_PAGES) ].

Definition attributes : gmap string value := list_to_map namespace.

End config.

(** [from module import (n1, ..., nk)]: the names are looked up in order and
    the first one the module does not define raises [ImportError]. *)
Fixpoint from_import (module_name : string) (module : gmap string config.value)
    (names : list string) : result (list config.value) :=
  match names with
  | [] => Return []
  | name :: names' =>
      match module !! name with
      | None => Raise ("cannot import name '" +:+ name +:+ "' from '" +:+ module_name +:+ "'")
      | Some v =>
          match from_import module_name module names' with
          | Return vs => Return (v :: vs)
          | Raise msg => Raise msg
          end
      end
  end.

(** ** [convert_pdf_files.py] *)

Definition TEMP_DIR_PREFIX := "temp_".
Definition IMAGE_EXTENSIONS := [".png"; ".jpg"; ".jpeg"; ".gif"; ".bmp"].

(** The names [convert_pdf_files.py] imports from [config] (lines 6-14). *)
Definition convert_pdf_files_imports : list string :=
  [ "MINERU_CONFIG_DIR"; "MAGIC_PDF_CONFIG_FILENAME"; "IMAGES_DIR_NAME";
    "METADATA_CSV_FILENAME"; "DEFAULT_BATCH_OUTPUT_DIR"; "DEFAULT_MAX_PAGES";
    "DEFAULT_ENCODING" ].

(** What the document-analysis engine does with the bytes of one PDF:
    markdown text (its image links relative to [IMAGES_DIR_NAME]) and the
    image assets it writes, by name; or an exception, after the assets it
    had written by then. *)
Inductive engine_result :=
| EngineOk (markdown : string) (images : list (string * string))
| EngineError (msg : string) (images : list (string * string)).

Definition engine_images (r : engine_result) : list (string * string) :=
  match r with
  | EngineOk _ images => images
  | EngineError _ images => images
  end.

(** The lines the batch converter prints. *)
Inductive line :=
| ForceRebuildLine (out_dir : string)
| PageCountWarningLine (pdf_path msg : string)
| AlreadyConvertedLine (i n : nat) (output_name : string)
| SkipTooLargeLine (i n : nat) (pdf_path : string) (page_count : nat) (pages_max : Z)
| SkipUndeterminedLine (i n : nat) (pdf_path : string)
| BannerLine
| ConvertingLine (i n : nat) (pdf_path : string) (page_count : option nat) (output_name : string)
| SuccessLine (final_md_path : string)
| ErrorLine (pdf_path msg : string)
| SummaryHeaderLine
| SummaryConvertedLine (count : Z)
| SummaryAlreadyLine (count : nat)
| SummarySkippedLine (count : nat)
| SummaryTotalLine (count : nat).

Definition progress (i n : nat) : string :=
  "[" +:+ Py.str_nat (i + 1) +:+ "/" +:+ Py.str_nat n +:+ "] ".

(** The text of each printed line. *)
Definition show_line (l : line) : string :=
  match l with
  | ForceRebuildLine out_dir =>
      "Force rebuild enabled. Deleting existing directory: " +:+ out_dir
  | PageCountWarningLine pdf_path msg =>
      "Warning: Could not read page count for " +:+ pdf_path +:+ ": " +:+ msg
  | AlreadyConvertedLine i n output_name =>
      progress i n +:+ "Already converted: " +:+ output_name +:+ ".md (skipping)"
  | SkipTooLargeLine i n pdf_path page_count pages_max =>
      progress i n +:+ "Skipping " +:+ pdf_path +:+ " (" +:+ Py.str_nat page_count
      +:+ " pages > " +:+ Py.str_int pages_max +:+ " pages limit)"
  | SkipUndeterminedLine i n pdf_path =>
      progress i n +:+ "Skipping " +:+ pdf_path +:+ " (could not determine page count)"
  | BannerLine => Py.repeat_char "="%char 80
  | ConvertingLine i n pdf_path (Some page_count) output_name =>
      progress i n +:+ "Converting " +:+ pdf_path +:+ " (" +:+ Py.str_nat page_count
      +:+ " pages) to " +:+ output_name +:+ ".md..."
  | ConvertingLine i n pdf_path None output_name =>
      progress i n +:+ "Converting " +:+ pdf_path +:+ " to " +:+ output_name +:+ ".md..."
  | SuccessLine final_md_path => "Successfully converted to " +:+ final_md_path
  | ErrorLine pdf_path msg => "Error converting " +:+ pdf_path +:+ ": " +:+ msg
  | SummaryHeaderLine => String (ascii_of_nat 10) "Conversion complete:"
  | SummaryConvertedLine count =>
      "  Successfully converted: " +:+ Py.str_int count +:+ " files"
  | SummaryAlreadyLine count =>
      "  Already converted (skipped): " +:+ Py.str_nat count +:+ " files"
  | SummarySkippedLine count =>
      "  Skipped (too many pages): " +:+ Py.str_nat count +:+ " files"
  | SummaryTotalLine count =>
      "  Total output files: " +:+ Py.str_nat count +:+ " files"
  end.

(** The local variables of [convert_multiple_pdfs_to_md] that the loop
    updates, with the file system and the console. *)
Record state := State {
  disk : filesystem;
  generated_files : list string;
  skipped_files : list string;
  already_converted_files : list string;
  console : list line
}.

Section Converter.

(** [len(PdfReader(...).pages)] on the bytes of a file, or the exception the
    reader raises. *)
Variable pdf_pages : string -> result nat.

(** The engine: [PymuDocDataset], [doc_analyze] and the pipe, taken together. *)
Variable doc_analyze : string -> engine_result.

Definition create_images_dir (base_dir : string) : io string :=
  let images_path := os_path.join base_dir config.IMAGES_DIR_NAME in
  os.makedirs images_path >>
  io_return images_path.

Definition create_temp_dir (base_dir : string) (index : nat) : io string :=
  let temp_path := os_path.join base_dir (TEMP_DIR_PREFIX +:+ Py.str_nat index) in
  os.makedirs temp_path >>
  io_return temp_path.

(** [FileBasedDataWriter(parent_dir).write(path, data)] *)
Definition writer_write (parent_dir path data : string) : io unit :=
  write_text (os_path.join parent_dir path) data.

(** [FileBasedDataReader("").read(path)] *)
Definition reader_read (path : string) : io string := read_text path.

Definition write_images (local_image_dir : string) (images : list (string * string)) : io unit :=
  for_each images (fun image => writer_write local_image_dir image.1 image.2).

Definition convert_single_pdf_to_md (pdf_path output_dir : string)
    (output_name : option string) : io string :=
  let output_name :=
    match output_name with
    | None => (os_path.splitext (os_path.basename pdf_path)).1
    | Some name => name
    end in
  let local_image_dir := os_path.join output_dir config.IMAGES_DIR_NAME in
  os.makedirs local_image_dir >>
  os.makedirs output_dir >>
  pdf_bytes <- reader_read pdf_path ;;
  match doc_analyze pdf_bytes with
  | EngineError msg images =>
      write_images local_image_dir images >>
      io_raise msg
  | EngineOk md_content images =>
      write_images local_image_dir images >>
      let md_filename := output_name +:+ ".md" in
      writer_write output_dir md_filename md_content >>
      io_return (os_path.join output_dir md_filename)
  end.

(** The nested [get_pdf_page_count]: the count, and the warning it prints
    when the reader raises. *)
Definition get_pdf_page_count (pdf_path : string) (fs : filesystem) : nat * list line :=
  match read_text pdf_path fs with
  | (Raise msg, _) => (0, [PageCountWarningLine pdf_path msg])
  | (Return pdf_bytes, _) =>
      match pdf_pages pdf_bytes with
      | Return n => (n, [])
      | Raise msg => (0, [PageCountWarningLine pdf_path msg])
      end
  end.

Definition has_image_extension (image_file : string) : bool :=
  Py.endswith_any IMAGE_EXTENSIONS (Py.lower image_file).

Definition image_reference (name : string) : string :=
  config.IMAGES_DIR_NAME +:+ "/" +:+ name.

(** The body of the loop over [os.listdir(temp_images_dir)] (lines 182-194). *)
Definition relocate_image (images_dir temp_images_dir final_md_path image_prefix
    image_file : string) : io unit :=
  if has_image_extension image_file then
    let new_image_name := image_prefix +:+ "_" +:+ image_file in
    let src_path := os_path.join temp_images_dir image_file in
    let dst_path := os_path.join images_dir new_image_name in
    shutil.move src_path dst_path >>
    content <- read_text final_md_path ;;
    write_text final_md_path
      (Py.replace (image_reference image_file) (image_reference new_image_name) content)
  else io_return tt.

(** Lines 179-194: the images of the temporary directory are moved and the
    markdown is rewritten after each move. *)
Definition relocate_images (images_dir temp_images_dir final_md_path image_prefix : string)
    : io unit := fun fs =>
  if os.path_exists fs temp_images_dir then
    (image_files <- os.listdir temp_images_dir ;;
     for_each image_files
       (relocate_image images_dir temp_images_dir final_md_path image_prefix)) fs
  else (Return tt, fs).

(** The [try] block (lines 172-196), up to the bookkeeping of its success. *)
Definition convert_and_relocate (pdf_path out_dir images_dir temp_dir output_name
    image_prefix : string) : io string :=
  md_file <- convert_single_pdf_to_md pdf_path temp_dir (Some output_name) ;;
  let final_md_path := os_path.join out_dir (output_name +:+ ".md") in
  shutil.move md_file final_md_path >>
  let temp_images_dir := os_path.join temp_dir config.IMAGES_DIR_NAME in
  relocate_images images_dir temp_images_dir final_md_path image_prefix >>
  io_return final_md_path.

(** The [finally] block (lines 202-205). *)
Definition cleanup (temp_dir : string) (fs : filesystem) : filesystem :=
  if os.path_exists fs temp_dir then (shutil.rmtree temp_dir fs).2 else fs.

Definition output_name_of (pdf_path : string) (pdf_id : Z) : string :=
  let filename_without_ext := (os_path.splitext (os_path.basename pdf_path)).1 in
  Py.str_int pdf_id +:+ "_" +:+ filename_without_ext.

Definition final_md_path_of (out_dir pdf_path : string) (pdf_id : Z) : string :=
  os_path.join out_dir (output_name_of pdf_path pdf_id +:+ ".md").

(** Lines 168-205: the temporary directory, [try], [except], [finally]. *)
Definition convert_request (out_dir images_dir : string) (i : nat) (pdf_path : string)
    (pdf_id : Z) (st : state) : state :=
  let output_name := output_name_of pdf_path pdf_id in
  let image_prefix := Py.str_int pdf_id in
  let temp_dir := os_path.join out_dir (TEMP_DIR_PREFIX +:+ Py.str_nat i) in
  match convert_and_relocate pdf_path out_dir images_dir temp_dir output_name image_prefix
          (disk st) with
  | (Return final_md_path, fs') =>
      State (cleanup temp_dir fs')
            (generated_files st ++ [final_md_path])
            (skipped_files st)
            (already_converted_files st)
            (console st ++ [SuccessLine final_md_path])
  | (Raise msg, fs') =>
      State (cleanup temp_dir fs')
            (generated_files st)
            (skipped_files st)
            (already_converted_files st)
            (console st ++ [ErrorLine pdf_path msg])
  end.

Definition print (l : list line) (st : state) : state :=
  State (disk st) (generated_files st) (skipped_files st) (already_converted_files st)
        (console st ++ l).

(** One iteration of the loop of [convert_multiple_pdfs_to_md] (lines
    136-205); [n] is [len(fullpath_list)]. *)
Definition process_request (n : nat) (out_dir images_dir : string) (pages_max : option Z)
    (force_rebuild : bool) (i : nat) (pdf_path : string) (pdf_id : Z) (st : state) : state :=
  let output_name := output_name_of pdf_path pdf_id in
  let final_md_path := os_path.join out_dir (output_name +:+ ".md") in
  if negb force_rebuild && os.path_exists (disk st) final_md_path then
    State (disk st)
          (generated_files st ++ [final_md_path])
          (skipped_files st)
          (already_converted_files st ++ [final_md_path])
          (console st ++ [AlreadyConvertedLine i n output_name])
  else
    match pages_max with
    | Some pages_max =>
        let (page_count, warning) := get_pdf_page_count pdf_path (disk st) in
        if (pages_max <? Z.of_nat page_count)%Z then
          State (disk st) (generated_files st) (skipped_files st ++ [pdf_path])
                (already_converted_files st)
                (console st ++ warning ++ [SkipTooLargeLine i n pdf_path page_count pages_max])
        else if (page_count =? 0)%nat then
          State (disk st) (generated_files st) (skipped_files st ++ [pdf_path])
                (already_converted_files st)
                (console st ++ warning ++ [SkipUndeterminedLine i n pdf_path])
        else
          convert_request out_dir images_dir i pdf_path pdf_id
            (print (warning ++ [BannerLine; ConvertingLine i n pdf_path (Some page_count) output_name]) st)
    | None =>
        convert_request out_dir images_dir i pdf_path pdf_id
          (print [BannerLine; ConvertingLine i n pdf_path None output_name] st)
    end.

(** [for i, (pdf_path, pdf_id) in enumerate(zip(fullpath_list, id_list))],
    from index [i] on. *)
Fixpoint process_requests (n : nat) (out_dir images_dir : string) (pages_max : option Z)
    (force_rebuild : bool) (i : nat) (requests : list (string * Z)) (st : state) : state :=
  match requests with
  | [] => st
  | (pdf_path, pdf_id) :: requests' =>
      process_requests n out_dir images_dir pages_max force_rebuild (S i) requests'
        (process_request n out_dir images_dir pages_max force_rebuild i pdf_path pdf_id st)
  end.

(** The summary printed after the loop (lines 207-213). *)
Definition summary (pages_max : option Z) (st : state) : list line :=
  [SummaryHeaderLine;
   SummaryConvertedLine
     (Z.of_nat (length (generated_files st)) - Z.of_nat (length (already_converted_files st)))]
  ++ (if bool_decide (already_converted_files st = []) then []
      else [SummaryAlreadyLine (length (already_converted_files st))])
  ++ (if bool_decide (is_Some pages_max) && negb (bool_decide (skipped_files st = []))
      then [SummarySkippedLine (length (skipped_files st))] else [])
  ++ [SummaryTotalLine (length (generated_files st))].

(** Lines 114-121: the forced rebuild and the output directories. *)
Definition prepare_output (out_dir : string) (force_rebuild : bool) (fs : filesystem)
    : result string * filesystem * list line :=
  let (fs1, printed) :=
    if force_rebuild && os.path_exists fs out_dir
    then ((shutil.rmtree out_dir fs).2, [ForceRebuildLine out_dir])
    else (fs, []) in
  let images_dir := os_path.join out_dir config.IMAGES_DIR_NAME in
  match (os.makedirs images_dir >> os.makedirs out_dir) fs1 with
  | (Return _, fs2) => (Return images_dir, fs2, printed)
  | (Raise msg, fs2) => (Raise msg, fs2, printed)
  end.

(** The outcome of a call: what is returned or raised, the file system it
    leaves and what it printed. *)
Record run := Run {
  returned : result (list string);
  final_disk : filesystem;
  printed : list line
}.

Definition convert_multiple_pdfs_to_md (fullpath_list : list string) (id_list : list Z)
    (out_dir : string) (pages_max : option Z) (force_rebuild : bool)
    (fs : filesystem) : run :=
  if negb (length id_list =? length fullpath_list)%nat then
    Run (Raise "Number of IDs must match number of PDF paths") fs []
  else
    match prepare_output out_dir force_rebuild fs with
    | (Raise msg, fs', out) => Run (Raise msg) fs' out
    | (Return images_dir, fs', out) =>
        let st := process_requests (length fullpath_list) out_dir images_dir pages_max
                    force_rebuild 0 (zip fullpath_list id_list) (State fs' [] [] [] out) in
        Run (Return (generated_files st)) (disk st) (console st ++ summary pages_max st)
    end.

(** Loading the module and running it as a script: the imports of lines
    1-14 come before everything else; the requests are the PDF rows of the
    metadata table. *)
Definition convert_pdf_files_script (metadata_pdf : list (string * Z)) (fs : filesystem) : run :=
  match from_import "config" config.attributes convert_pdf_files_imports with
  | Raise msg => Run (Raise msg) fs []
  | Return _ =>
      convert_multiple_pdfs_to_md metadata_pdf.*1 metadata_pdf.*2
        config.DEFAULT_BATCH_OUTPUT_DIR (Some config.DEFAULT_MAX_PAGES) false fs
  end.

End Converter.


(** ** [convert_annotations.py] *)

(** One row of the annotations table.  A cell that [read_csv] reads as NaN
    is [None].  The attachment id is an integer column; the title, the
    paper id and the attachment path are kept as the text an f-string
    prints for them.  [label] is what the [page_label] column holds,
    numbers or strings. *)
Record annotation (label : Type) := Annotation {
  attachment_id : Z;
  page_label : option label;
  annotation_text : option string;
  annotation_comment : option string;
  annotation_type_name : option string;
  annotation_color : option string;
  paper_title : string;
  paper_id : string;
  attachment_path : string
}.
Arguments Annotation {label}.
Arguments attachment_id {label}.
Arguments page_label {label}.
Arguments annotation_text {label}.
Arguments annotation_comment {label}.
Arguments annotation_type_name {label}.
Arguments annotation_color {label}.
Arguments paper_title {label}.
Arguments paper_id {label}.
Arguments attachment_path {label}.

(** What [process_all_attachments] stores for an attachment. *)
Inductive attachment_result :=
| Success (file_path : string) (annotation_count : nat) (title : string)
| Failed (reason : string).

(** The lines the annotation converter prints. *)
Inductive annotation_line :=
| NoAnnotationsLine (attachment_id : Z)
| CreatedLine (output_file : string)
| TotalLine (count : nat)
| NoAnnotationsForLine (attachment_id : Z)
| ConvertingForLine (title : string)
| FoundLine (count : nat)
| CreatedFileLine (file_path : string)
| CsvMissingLine (csv_file : string)
| RunExtractionLine
| ConversionErrorLine (msg : string)
| StartLine (total : nat)
| OutputDirectoryLine (output_path : string)
| RuleLine
| ProcessingLine (i total : nat) (attachment_id : Z)
| ItemNoAnnotationsLine
| ItemDoneLine (count : nat)
| ItemErrorLine (msg : string)
| CompletedLine
| SuccessfulLine (successful total : nat)
| FailedCountLine (failed total : nat)
| FailedHeaderLine
| FailedItemLine (attachment_id : Z) (reason : string).

Definition nl : string := String (ascii_of_nat 10) EmptyString.

Definition show_annotation_line (l : annotation_line) : string :=
  match l with
  | NoAnnotationsLine attachment_id =>
      "No annotations found for attachment_id: " +:+ Py.str_int attachment_id
  | CreatedLine output_file => "✅ Markdown file created: " +:+ output_file
  | TotalLine count => "📊 Total annotations: " +:+ Py.str_nat count
  | NoAnnotationsForLine attachment_id =>
      "❌ No annotations found for attachment_id: " +:+ Py.str_int attachment_id
  | ConvertingForLine title => "🔄 Converting annotations for: " +:+ title
  | FoundLine count => "📊 Found " +:+ Py.str_nat count +:+ " annotations"
  | CreatedFileLine file_path => "✅ Successfully created: " +:+ file_path
  | CsvMissingLine csv_file => "❌ Annotations CSV file not found: " +:+ csv_file
  | RunExtractionLine =>
      "💡 Run extract_zotero_annotations.py first to generate the annotations CSV."
  | ConversionErrorLine msg => "❌ Error during conversion: " +:+ msg
  | StartLine total =>
      "🚀 Starting batch processing of " +:+ Py.str_nat total +:+ " attachments..."
  | OutputDirectoryLine output_path => "📁 Output directory: " +:+ output_path
  | RuleLine => Py.repeat_char "="%char 80
  | ProcessingLine i total attachment_id =>
      "Processing " +:+ Py.str_nat i +:+ "/" +:+ Py.str_nat total +:+ ": Attachment ID "
      +:+ Py.str_int attachment_id +:+ "..."
  | ItemNoAnnotationsLine => "❌ No annotations found"
  | ItemDoneLine count => "✅ (" +:+ Py.str_nat count +:+ " annotations)"
  | ItemErrorLine msg => "❌ Error: " +:+ msg
  | CompletedLine => "🎉 Batch processing completed!"
  | SuccessfulLine successful total =>
      "✅ Successful: " +:+ Py.str_nat successful +:+ "/" +:+ Py.str_nat total
  | FailedCountLine failed total =>
      "❌ Failed: " +:+ Py.str_nat failed +:+ "/" +:+ Py.str_nat total
  | FailedHeaderLine => nl +:+ "❌ Failed attachments:"
  | FailedItemLine attachment_id reason =>
      "  - ID " +:+ Py.str_int attachment_id +:+ ": " +:+ reason
  end.

(** Truth value of a cell: NaN is a float other than zero, a string is true
    when it is not empty. *)
Definition truthy (cell : option string) : bool :=
  match cell with
  | None => true
  | Some s => negb (String.eqb s "")
  end.

(** [pd.notna(cell)] *)
Definition notna {A} (cell : option A) : bool :=
  match cell with
  | None => false
  | Some _ => true
  end.

(** What an f-string prints for a cell. *)
Definition str_cell (cell : option string) : string :=
  match cell with
  | None => "nan"
  | Some s => s
  end.

(** The outcome of a call of the annotation converter: what it returns or
    raises, the file system it leaves and what it printed. *)
Record annotation_run (A : Type) := AnnotationRun {
  outcome : result A;
  disk_after : filesystem;
  output : list annotation_line
}.
Arguments AnnotationRun {A}.
Arguments outcome {A}.
Arguments disk_after {A}.
Arguments output {A}.

(** The loop variables of [process_all_attachments]. *)
Record batch_state := BatchState {
  batch_disk : filesystem;
  results : list (Z * attachment_result);
  successful : nat;
  failed : nat;
  batch_output : list annotation_line
}.

Section Annotations.

Context {label : Type}.

(** [==] on two page labels and the text an f-string prints for one. *)
Variable label_eqb : label -> label -> bool.
Variable str_label : label -> string.

(** [numpy.argsort(values, kind='quicksort')], to which pandas hands the
    labels that are not NaN: the indices of [values] in an order that sorts
    them.  The call does not ask for a stable kind. *)
Variable argsort : list label -> list nat.

(** The table [pd.read_csv] makes of the content of a file. *)
Variable parse_csv : string -> list (annotation label).

(** [pd.read_csv(csv_file, header=0)] *)
Definition read_csv (csv_file : string) (fs : filesystem) : result (list (annotation label)) :=
  match files fs !! csv_file with
  | Some content => Return (parse_csv content)
  | None => Raise (file_not_found csv_file)
  end.

(** [annot.query(f"attachment_id == {attachment_id}")] *)
Definition query_attachment (annot : list (annotation label)) (id : Z) : list (annotation label) :=
  List.filter (fun row => Z.eqb (attachment_id row) id) annot.

(** [rows.sort_values('page_label', na_position='last')]: pandas sorts the
    rows whose label is not NaN with [argsort] and puts the NaN rows after
    them, in the order they had. *)
Definition sort_values (rows : list (annotation label)) : list (annotation label) :=
  let labelled := List.filter (fun row => notna (page_label row)) rows in
  let missing := List.filter (fun row => negb (notna (page_label row))) rows in
  omap (fun i => labelled !! i) (argsort (omap page_label labelled)) ++ missing.

(** [page != current_page]: [current_page] is Python's [None] before the
    first row; NaN differs from everything, itself included. *)
Definition page_differs (page : option label) (current_page : option (option label)) : bool :=
  match current_page with
  | None => true
  | Some current =>
      match page, current with
      | Some a, Some b => negb (label_eqb a b)
      | _, _ => true
      end
  end.

Definition str_page (page : option label) : string :=
  match page with
  | None => "nan"
  | Some l => str_label l
  end.

(** Lines 71-83: the block of one annotation. *)
Definition render_annotation (row : annotation label) : result (list string) :=
  match annotation_type_name row with
  | None => Raise "'float' object has no attribute 'title'"
  | Some annotation_type =>
      Return
        (["### " +:+ Py.title annotation_type]
         ++ (if truthy (annotation_color row)
             then [" `" +:+ str_cell (annotation_color row) +:+ "`"] else [])
         ++ [nl +:+ nl]
         ++ (if truthy (annotation_text row) && notna (annotation_text row)
             then ["**Text:** " +:+ str_cell (annotation_text row) +:+ nl +:+ nl] else [])
         ++ (if truthy (annotation_comment row) && notna (annotation_comment row)
             then ["**Comment:** " +:+ str_cell (annotation_comment row) +:+ nl +:+ nl] else [])
         ++ ["---" +:+ nl +:+ nl])
  end.

(** Lines 64-69: the page header, when the page changes. *)
Definition page_header (page : option label) (current_page : option (option label)) : list string :=
  if page_differs page current_page then
    (if notna current_page then [nl] else [])
    ++ ["## Page " +:+ str_page page +:+ nl +:+ nl]
  else [].

(** The loop over [annot_sel.iterrows()] (lines 56-83). *)
Fixpoint render_rows (current_page : option (option label)) (rows : list (annotation label))
    : result (list string) :=
  match rows with
  | [] => Return []
  | row :: rows' =>
      let page := page_label row in
      let current_page' :=
        if page_differs page current_page then Some page else current_page in
      match render_annotation row with
      | Raise msg => Raise msg
      | Return block =>
          match render_rows current_page' rows' with
          | Raise msg => Raise msg
          | Return rest => Return (page_header page current_page ++ block ++ rest)
          end
      end
  end.

(** Lines 47-83 (and again 153-189): the markdown of the selected rows,
    sorted; [paper_info] is the first of them before the sort. *)
Definition render_markdown (attachment_id : Z) (paper_info : annotation label)
    (annot_sel : list (annotation label)) : result string :=
  match render_rows None annot_sel with
  | Raise msg => Raise msg
  | Return body =>
      Return (Py.concat
        (["# " +:+ paper_title paper_info +:+ nl +:+ nl;
          "**Attachment ID:** " +:+ Py.str_int attachment_id +:+ "  " +:+ nl;
          "**Paper ID:** " +:+ paper_id paper_info +:+ "  " +:+ nl;
          "**File Path:** " +:+ attachment_path paper_info +:+ "  " +:+ nl +:+ nl;
          "---" +:+ nl +:+ nl] ++ body))
  end.

(** [Path(p).mkdir(parents=True, exist_ok=True)] *)
Definition path_mkdir (p : string) (fs : filesystem) : filesystem :=
  FileSystem (files fs) (dirs fs ∪ {[p]} ∪ list_to_set (os.ancestors p)).

Definition annotations_to_markdown (attachment_id : Z) (output_path csv_file : string)
    (fs : filesystem) : annotation_run (option string) :=
  match read_csv csv_file fs with
  | Raise _ => AnnotationRun (Raise ("CSV file '" +:+ csv_file +:+ "' not found.")) fs []
  | Return annot =>
      let annot_sel := query_attachment annot attachment_id in
      match annot_sel with
      | [] => AnnotationRun (Return None) fs [NoAnnotationsLine attachment_id]
      | paper_info :: _ =>
          let annot_sel := sort_values annot_sel in
          match render_markdown attachment_id paper_info annot_sel with
          | Raise msg => AnnotationRun (Raise msg) fs []
          | Return markdown =>
              let output_dir := output_path in
              let fs1 := path_mkdir output_dir fs in
              let output_file := os_path.join output_dir (Py.str_int attachment_id +:+ ".md") in
              let fs2 := (write_text output_file markdown fs1).2 in
              AnnotationRun (Return (Some output_file)) fs2
                [CreatedLine output_file; TotalLine (length annot_sel)]
          end
      end
  end.

(** One iteration of the loop of [process_all_attachments] (lines 134-208):
    attachment [attachment_id] at position [i] of [total]. *)
Definition process_attachment (annot : list (annotation label)) (output_dir : string)
    (total i : nat) (attachment_id : Z) (st : batch_state) : batch_state :=
  let annot_sel := query_attachment annot attachment_id in
  match annot_sel with
  | [] =>
      BatchState (batch_disk st)
        (results st ++ [(attachment_id, Failed "No annotations found")])
        (successful st) (S (failed st))
        (batch_output st ++ [ProcessingLine i total attachment_id; ItemNoAnnotationsLine])
  | paper_info :: _ =>
      let annot_sel := sort_values annot_sel in
      match render_markdown attachment_id paper_info annot_sel with
      | Raise msg =>
          BatchState (batch_disk st)
            (results st ++ [(attachment_id, Failed msg)])
            (successful st) (S (failed st))
            (batch_output st ++ [ProcessingLine i total attachment_id; ItemErrorLine msg])
      | Return markdown =>
          let output_file := os_path.join output_dir (Py.str_int attachment_id +:+ ".md") in
          BatchState (write_text output_file markdown (batch_disk st)).2
            (results st ++ [(attachment_id,
                             Success output_file (length annot_sel) (paper_title paper_info))])
            (S (successful st)) (failed st)
            (batch_output st ++ [ProcessingLine i total attachment_id;
                                 ItemDoneLine (length annot_sel)])
      end
  end.

Fixpoint process_attachments (annot : list (annotation label)) (output_dir : string)
    (total i : nat) (attachment_ids : list Z) (st : batch_state) : batch_state :=
  match attachment_ids with
  | [] => st
  | attachment_id :: attachment_ids' =>
      process_attachments annot output_dir total (S i) attachment_ids'
        (process_attachment annot output_dir total i attachment_id st)
  end.

(** [sorted(annot['attachment_id'].unique())] *)
Definition sorted_attachment_ids (annot : list (annotation label)) : list Z :=
  merge_sort Z.le (remove_dups (attachment_id <$> annot)).

Definition failed_items (results : list (Z * attachment_result)) : list annotation_line :=
  omap (fun item =>
          match item.2 with
          | Failed reason => Some (FailedItemLine item.1 reason)
          | Success _ _ _ => None
          end) results.

Definition process_all_attachments (output_path csv_file : string) (fs : filesystem)
    : annotation_run (list (Z * attachment_result)) :=
  match read_csv csv_file fs with
  | Raise _ => AnnotationRun (Raise ("CSV file '" +:+ csv_file +:+ "' not found.")) fs []
  | Return annot =>
      let attachment_ids := sorted_attachment_ids annot in
      let total_attachments := length attachment_ids in
      let output_dir := output_path in
      let st := process_attachments annot output_dir total_attachments 1 attachment_ids
                  (BatchState (path_mkdir output_dir fs) [] 0 0
                     [StartLine total_attachments; OutputDirectoryLine output_path; RuleLine]) in
      AnnotationRun (Return (results st)) (batch_disk st)
        (batch_output st
         ++ [RuleLine; CompletedLine;
             SuccessfulLine (successful st) total_attachments;
             FailedCountLine (failed st) total_attachments]
         ++ (if (0 <? failed st)%nat then FailedHeaderLine :: failed_items (results st) else []))
  end.

(** The entry point for one attachment: every exception ends as [None]. *)
Definition convert_single_annotation_by_id (attachment_id : Z) (output_path csv_file : string)
    (fs : filesystem) : annotation_run (option string) :=
  match read_csv csv_file fs with
  | Raise _ => AnnotationRun (Return None) fs [CsvMissingLine csv_file; RunExtractionLine]
  | Return annot =>
      match query_attachment annot attachment_id with
      | [] => AnnotationRun (Return None) fs [NoAnnotationsForLine attachment_id]
      | (paper_info :: _) as annot_sel =>
          let announced :=
            [ConvertingForLine (paper_title paper_info); FoundLine (length annot_sel)] in
          let r := annotations_to_markdown attachment_id output_path csv_file fs in
          match outcome r with
          | Raise msg =>
              AnnotationRun (Return None) (disk_after r)
                (announced ++ output r ++ [ConversionErrorLine msg])
          | Return (Some file_path) =>
              AnnotationRun (Return (Some file_path)) (disk_after r)
                (announced ++ output r ++ [CreatedFileLine file_path])
          | Return None =>
              AnnotationRun (Return None) (disk_after r) (announced ++ output r)
          end
      end
  end.

End Annotations.

(** * Specification vocabulary

    The notions in which the properties below are stated. *)

(** ** Paths *)

(** The characters [str(n)] may start with. *)
Definition sign_or_digit (c : ascii) : bool := Py.contains_char c "-0123456789".

(** [p] is in the tree of the temporary directory of the request at
    position [i]. *)
Definition in_temp_dir (out_dir : string) (i : nat) (p : string) : Prop :=
  os.in_tree (os_path.join out_dir (TEMP_DIR_PREFIX +:+ Py.str_nat i)) p = true.

(** The output markdown path of a request. *)
Definition final_of (out_dir : string) (request : string * Z) : string :=
  final_md_path_of out_dir request.1 request.2.

(** The engine names its image assets relative to the images directory it
    is given. *)
Definition engine_names_relative (doc_analyze : string -> engine_result) : Prop :=
  forall pdf_bytes name data,
    (name, data) ∈ engine_images (doc_analyze pdf_bytes) -> os_path.isabs name = false.

(** Where the image [image_file] of request [pdf_id] is moved to. *)
Definition relocated_image (out_dir : string) (pdf_id : Z) (image_file : string) : string :=
  os_path.join (os_path.join out_dir config.IMAGES_DIR_NAME)
    (Py.str_int pdf_id +:+ "_" +:+ image_file).

(** The files a batch may create: what lies in a temporary directory, the
    output markdown files and the relocated images of its requests. *)
Definition batch_creates (out_dir : string) (requests : list (string * Z)) (p : string) : Prop :=
  (exists i, os.in_tree (os_path.join out_dir (TEMP_DIR_PREFIX +:+ Py.str_nat i)) p = true) \/
  exists pdf_path pdf_id, (pdf_path, pdf_id) ∈ requests /\
    (p = final_md_path_of out_dir pdf_path pdf_id \/
     exists image_file, os_path.has_sep image_file = false /\
       p = relocated_image out_dir pdf_id image_file).

(** The markdown after the loop over the listing [image_files]: one
    [str.replace] for every listed file with an image extension. *)
Definition rewrite_references (pdf_id : Z) (image_files : list string) (content : string) : string :=
  fold_left
    (fun content image_file =>
       if has_image_extension image_file then
         Py.replace (image_reference image_file)
           (image_reference (Py.str_int pdf_id +:+ "_" +:+ image_file)) content
       else content)
    image_files content.

(** ** Footprints of file-system computations *)

(** [touches D W fs fs']: from [fs] to [fs'] only paths in [D] were deleted
    and only files in [W] were created. *)
Definition touches (D W : string -> Prop) (fs fs' : filesystem) : Prop :=
  (forall p, is_Some (files fs !! p) -> is_Some (files fs' !! p) \/ D p) /\
  (forall p, p ∈ dirs fs -> p ∈ dirs fs' \/ D p) /\
  (forall p, is_Some (files fs' !! p) -> is_Some (files fs !! p) \/ W p).

Definition footprint {A} (D W : string -> Prop) (m : io A) : Prop :=
  forall fs, touches D W fs (m fs).2.

(** ** Reading the console *)

Definition is_converting (l : line) : bool :=
  match l with ConvertingLine _ _ _ _ _ => true | _ => false end.

Definition is_too_large (l : line) : bool :=
  match l with SkipTooLargeLine _ _ _ _ _ => true | _ => false end.

Definition is_undetermined (l : line) : bool :=
  match l with SkipUndeterminedLine _ _ _ => true | _ => false end.

Definition is_error (l : line) : bool :=
  match l with ErrorLine _ _ => true | _ => false end.

Definition is_summary (l : line) : bool :=
  match l with
  | SummaryHeaderLine | SummaryConvertedLine _ | SummaryAlreadyLine _
  | SummarySkippedLine _ | SummaryTotalLine _ => true
  | _ => false
  end.

(** How many printed lines satisfy [f]. *)
Definition count_lines (f : line -> bool) (out : list line) : nat :=
  length (List.filter f out).

(** The number of conversions a run started: one [Converting] line each. *)
Definition conversions (out : list line) : nat := count_lines is_converting out.

(** The progress lines of requests that are all already converted. *)
Fixpoint already_lines (n i : nat) (requests : list (string * Z)) : list line :=
  match requests with
  | [] => []
  | (pdf_path, pdf_id) :: requests' =>
      AlreadyConvertedLine i n (output_name_of pdf_path pdf_id) :: already_lines n (S i) requests'
  end.

(** ** The page probe *)

(** The probe has no page count to report: the file cannot be read, the
    reader raises, or it finds no page. *)
Definition probe_undetermined (pdf_pages : string -> result nat) (pdf_path : string)
    (st : state) : Prop :=
  match files (disk st) !! pdf_path with
  | None => True
  | Some pdf_bytes =>
      match pdf_pages pdf_bytes with
      | Raise _ => True
      | Return page_count => page_count = 0%nat
      end
  end.

(** The probe reports [page_count] pages. *)
Definition probe_counts (pdf_pages : string -> result nat) (pdf_path : string) (st : state)
    (page_count : nat) : Prop :=
  exists pdf_bytes, files (disk st) !! pdf_path = Some pdf_bytes /\
                    pdf_pages pdf_bytes = Return page_count.

(** The request is not resolved by the already-converted branch. *)
Definition not_already_done (out_dir : string) (force_rebuild : bool) (pdf_path : string)
    (pdf_id : Z) (st : state) : Prop :=
  negb force_rebuild && os.path_exists (disk st) (final_md_path_of out_dir pdf_path pdf_id) = false.

(** The state after a skip for the page limit or for an undetermined count. *)
Definition skipped_with (pdf_path : string) (st : state) (lines : list line) : state :=
  State (disk st) (generated_files st) (skipped_files st ++ [pdf_path])
        (already_converted_files st) (console st ++ lines).

(** The page count lets the request through to the conversion. *)
Definition within_page_limit (pdf_pages : string -> result nat) (pages_max : option Z)
    (pdf_path : string) (fs : filesystem) : Prop :=
  match pages_max with
  | None => True
  | Some pages_max =>
      let page_count := (get_pdf_page_count pdf_pages pdf_path fs).1 in
      (pages_max <? Z.of_nat page_count)%Z = false /\ (page_count =? 0)%nat = false
  end.

(** ** The order of the annotations *)

(** What [numpy.argsort] promises for the default kind: the result holds
    every index once and the values taken in that order ascend.  Nothing is
    promised on the order of equal values (only the kinds 'stable' and
    'mergesort' keep it). *)
Definition argsort_sorts {label} (label_le : relation label)
    (argsort : list label -> list nat) : Prop :=
  forall values,
    argsort values ≡ₚ seq 0 (length values) /\
    Sorted label_le (omap (fun i => values !! i) (argsort values)).

Definition has_label {label} (row : annotation label) : bool := notna (page_label row).

(** The page headers among the pieces of a rendering. *)
Definition page_headers (pieces : list string) : list string :=
  List.filter (Py.startswith "## Page ") pieces.

(** * Sample data *)

(** ** A sample library

    Five source documents, a page counter and an engine for the concrete
    runs below.  [A] converts with two images, one of them a [.webp];
    [B] makes the engine raise after it has written an image; [C] has 101
    pages; [D] cannot be read by the page counter; [E] has no page. *)

Module Sample.

Definition pdf_pages (pdf_bytes : string) : result nat :=
  if String.eqb pdf_bytes "A" then Return 3%nat
  else if String.eqb pdf_bytes "B" then Return 100%nat
  else if String.eqb pdf_bytes "C" then Return 101%nat
  else if String.eqb pdf_bytes "E" then Return 0%nat
  else Raise "EOF marker not found".

Definition doc_analyze (pdf_bytes : string) : engine_result :=
  if String.eqb pdf_bytes "A" then
    EngineOk "# A ![](images/f1.jpg) ![](images/f2.webp)" [("f1.jpg", "JPG"); ("f2.webp", "WEBP")]
  else if String.eqb pdf_bytes "B" then EngineError "boom" [("p.png", "PNG")]
  else EngineOk "text" [].

Definition library : filesystem :=
  FileSystem
    (list_to_map [("/src/doc_A.pdf", "A"); ("/src/doc_B.pdf", "B"); ("/src/c.pdf", "C");
                  ("/src/d.pdf", "D"); ("/src/e.pdf", "E")])
    ∅.

Definition convert := convert_multiple_pdfs_to_md pdf_pages doc_analyze.

End Sample.

(** An output directory left by an earlier batch. *)
Definition stale_library : filesystem :=
  FileSystem
    (<["out/1_old.md" := "old"]> (<["out/images/1_fig.png" := "PNG"]> (files Sample.library)))
    {["out"; "out/images"]}.

Definition fresh : state := State Sample.library [] [] [] [].

(** ** Sample annotations

    Four annotations of attachment 42 with the page labels 3, 1, NaN and 1,
    and an [argsort] that keeps the promise of the default kind while it
    puts equal values in the reverse of their order. *)

Module Pages.

Definition row (page : option Z) (text : string) : annotation Z :=
  Annotation 42 page (Some text) None (Some "highlight") (Some "#ffd400")
    "A paper" "7" "storage:paper.pdf".

Definition r0 := row (Some 3%Z) "on page three".
Definition r1 := row (Some 1%Z) "first on page one".
Definition r2 := row None "without page".
Definition r3 := row (Some 1%Z) "second on page one".

Definition rows : list (annotation Z) := [r0; r1; r2; r3].

Definition key (values : list Z) (i : nat) : Z := default 0%Z (values !! i).

Definition before_b (values : list Z) (i j : nat) : bool :=
  (key values i <? key values j)%Z || ((key values i =? key values j)%Z && (j <=? i)%nat).

Definition before (values : list Z) : relation nat := fun i j => before_b values i j = true.

#[global] Instance before_dec values : RelDecision (before values) :=
  fun i j => decide (before_b values i j = true).

Definition argsort_ties_reversed (values : list Z) : list nat :=
  merge_sort (before values) (seq 0 (length values)).

Definition library : filesystem :=
  FileSystem {["zotero_annotations.csv" := "csv"]} ∅.

Definition parse_csv (content : string) : list (annotation Z) := rows.

(** The header block of the markdown of attachment 42. *)
Definition header : list string :=
  [ "# A paper" +:+ nl +:+ nl;
    "**Attachment ID:** 42  " +:+ nl;
    "**Paper ID:** 7  " +:+ nl;
    "**File Path:** storage:paper.pdf  " +:+ nl +:+ nl;
    "---" +:+ nl +:+ nl ].

End Pages.

(** * The other entry points

    The functions of [convert_annotations.py] and
    [extract_zotero_metadata.py] around the ones above, and the [config]
    imports of the other scripts. *)

(** ** [str.split] and the substring test *)

Module PyStr.

(** [sub in s] *)
Fixpoint contains (sub s : string) : bool :=
  String.prefix sub s ||
  match s with
  | EmptyString => false
  | String _ s' => contains sub s'
  end.

(** [s.split(sep)] for a non-empty [sep]: the pieces between the
    non-overlapping occurrences of [sep], from left to right, as the first
    piece and the others.  [skip] counts the characters of an occurrence that
    was just found and are still to be passed over. *)
Fixpoint split_from (sep : string) (skip : nat) (s : string) : string * list string :=
  match s with
  | EmptyString => (EmptyString, [])
  | String c s' =>
      match skip with
      | S k => split_from sep k s'
      | O =>
          if String.prefix sep s then
            let (piece, pieces) := split_from sep (String.length sep - 1) s' in
            (EmptyString, piece :: pieces)
          else
            let (piece, pieces) := split_from sep 0 s' in
            (String c piece, pieces)
      end
  end.

Definition split (sep s : string) : list string :=
  let (piece, pieces) := split_from sep 0 s in piece :: pieces.

End PyStr.

(** ** [extract_zotero_metadata.py]: the full path of an attachment *)

(** [path.split('storage:')[1]] raises [IndexError] when the list has one
    element. *)
Definition get_fullpath_from_zotero_path (path key : string) : result string :=
  if PyStr.contains "storage:" path then
    match PyStr.split "storage:" path with
    | _ :: name :: _ =>
        Return (config.ZOTERO_DATA_DIR +:+ "\" +:+ config.STORAGE_DIR_NAME +:+ "\" +:+ key
                +:+ "\" +:+ name)
    | _ => Raise "list index out of range"
    end
  else Return path.

Definition get_fullpath (path prefix key : string) : result string :=
  get_fullpath_from_zotero_path path key.

(** ** The [config] imports of the other scripts *)

(** [extract_zotero_metadata.py], lines 18-25. *)
Definition extract_zotero_metadata_imports : list string :=
  [ "ZOTERO_DATA_DIR"; "ZOTERO_DB_PATH"; "STORAGE_DIR_NAME"; "METADATA_CSV_FILENAME";
    "DEFAULT_ENCODING" ].

(** [extract_zotero_annotations.py], lines 18-22. *)
Definition extract_zotero_annotations_imports : list string :=
  [ "ZOTERO_DB_PATH"; "DEFAULT_ENCODING"; "ANNOTATIONS_CSV_FILENAME" ].

(** [convert_annotations.py], lines 8-12. *)
Definition convert_annotations_imports : list string :=
  [ "ANNOTATIONS_CSV_FILENAME"; "DEFAULT_ANNOTATIONS_OUTPUT_DIR"; "DEFAULT_ENCODING" ].

(** [test_config.py], lines 9-13. *)
Definition test_config_imports : list string :=
  [ "ZOTERO_DATA_DIR"; "ZOTERO_DB_PATH"; "MINERU_DIR"; "MAGIC_PDF_CONFIG_FILENAME";
    "DEFAULT_ENCODING"; "STORAGE_DIR_NAME" ].

(** [download_models_hf.py], line 58. *)
Definition download_models_hf_imports : list string := [ "MINERU_DIR" ].

(** ** [convert_annotations.py]: [convert_all_annotations] and the script *)

(** The lines printed around those of the functions above.
    [BatchErrorLine] is what the handler of [Exception] in
    [convert_all_annotations] prints. *)
Inductive script_line :=
| ConverterLine (l : annotation_line)
| NoAttachmentsLine
| FoundAttachmentsLine (total : nat)
| BatchErrorLine (msg : string)
| TitleLine
| BatchDoneLine
| CreatedCountLine (successful_count total_annotations : nat)
| FilesSavedLine.

Definition show_script_line (l : script_line) : string :=
  match l with
  | ConverterLine l => show_annotation_line l
  | NoAttachmentsLine => "❌ No attachments found in annotations CSV"
  | FoundAttachmentsLine total =>
      "🚀 Found " +:+ Py.str_nat total +:+ " attachments with annotations to convert"
  | BatchErrorLine msg => "❌ Error during batch conversion: " +:+ msg
  | TitleLine => "🚀 Zotero Annotations to Markdown Converter"
  | BatchDoneLine => nl +:+ "🎉 Batch conversion completed!"
  | CreatedCountLine successful_count total_annotations =>
      "📊 " +:+ Py.str_nat successful_count +:+ " markdown files created with "
      +:+ Py.str_nat total_annotations +:+ " total annotations"
  | FilesSavedLine => "📁 Files saved to: all_annotations_output"
  end.

(** What a call of [convert_all_annotations] leaves: the dictionary it
    returns, in insertion order, the file system and what was printed. *)
Record conversion := Conversion {
  converted : list (Z * attachment_result);
  disk_left : filesystem;
  lines : list script_line
}.

(** [r["status"] == "success"] *)
Definition is_success (r : attachment_result) : bool :=
  match r with
  | Success _ _ _ => true
  | Failed _ => false
  end.

(** [sum(1 for r in results.values() if r["status"] == "success")] *)
Definition successful_count (results : list (Z * attachment_result)) : nat :=
  length (List.filter (fun item => is_success item.2) results).

(** [sum(r.get("annotation_count", 0) for r in results.values()
         if r["status"] == "success")] *)
Definition total_annotations (results : list (Z * attachment_result)) : nat :=
  fold_right Nat.add 0%nat
    (omap (fun item =>
             match item.2 with
             | Success _ annotation_count _ => Some annotation_count
             | Failed _ => None
             end) results).

Section AnnotationScript.

Context {label : Type}.
Variable label_eqb : label -> label -> bool.
Variable str_label : label -> string.
Variable argsort : list label -> list nat.
Variable parse_csv : string -> list (annotation label).

(** Lines 301-325.  Of [annot['attachment_id'].unique()] only the length is
    used.  The one exception [process_all_attachments] raises is the
    [FileNotFoundError] of its own [read_csv]. *)
Definition convert_all_annotations (output_path csv_file : string) (fs : filesystem)
    : conversion :=
  match read_csv parse_csv csv_file fs with
  | Raise _ =>
      Conversion [] fs [ConverterLine (CsvMissingLine csv_file); ConverterLine RunExtractionLine]
  | Return annot =>
      let attachment_ids := remove_dups (attachment_id <$> annot) in
      let total_attachments := length attachment_ids in
      if (total_attachments =? 0)%nat then Conversion [] fs [NoAttachmentsLine]
      else
        let announced :=
          [FoundAttachmentsLine total_attachments;
           ConverterLine (OutputDirectoryLine output_path)] in
        let r := process_all_attachments label_eqb str_label argsort parse_csv
                   output_path csv_file fs in
        match outcome r with
        | Return results =>
            Conversion results (disk_after r) (announced ++ (ConverterLine <$> output r))
        | Raise _ =>
            Conversion [] (disk_after r)
              (announced ++ (ConverterLine <$> output r)
               ++ [ConverterLine (CsvMissingLine csv_file); ConverterLine RunExtractionLine])
        end
  end.

(** Loading [convert_annotations.py] and running it as a script (lines
    8-12 and 328-352). *)
Definition convert_annotations_script (fs : filesystem) : result conversion :=
  match from_import "config" config.attributes convert_annotations_imports with
  | Raise msg => Raise msg
  | Return _ =>
      let r := convert_all_annotations config.DEFAULT_ANNOTATIONS_OUTPUT_DIR
                 config.ANNOTATIONS_CSV_FILENAME fs in
      let results := converted r in
      Return
        (Conversion results (disk_left r)
           ([TitleLine; ConverterLine RuleLine] ++ lines r
            ++ match results with
               | [] => []
               | _ :: _ =>
                   [BatchDoneLine;
                    CreatedCountLine (successful_count results) (total_annotations results);
                    FilesSavedLine]
               end))
  end.

End AnnotationScript.

(** * More vocabulary *)

(** ** Reading the console of the batch converter *)

Definition is_already (l : line) : bool :=
  match l with AlreadyConvertedLine _ _ _ => true | _ => false end.

Definition is_success_line (l : line) : bool :=
  match l with SuccessLine _ => true | _ => false end.

(** ** What a computation leaves alone *)

(** From [fs] to [fs'] every file outside [T] has kept its content, or its
    absence, and every directory outside [T] is still there. *)
Definition unchanged_outside (T : string -> bool) (fs fs' : filesystem) : Prop :=
  (forall p, T p = false -> files fs' !! p = files fs !! p) /\
  (forall p, T p = false -> p ∈ dirs fs -> p ∈ dirs fs').

Definition leaves_outside {A} (T : string -> bool) (m : io A) : Prop :=
  forall fs, unchanged_outside T fs (m fs).2.

(** The computation removes no directory. *)
Definition keeps_dirs {A} (m : io A) : Prop :=
  forall fs p, p ∈ dirs fs -> p ∈ dirs (m fs).2.

(** ** Reading the results of the annotation batch *)

Definition is_failed (r : attachment_result) : bool := negb (is_success r).

(** A row of the table without annotation type. *)
Definition lacks_type {label} (row : annotation label) : bool :=
  negb (notna (annotation_type_name row)).

(** The file the annotations of [attachment_id] are written to. *)
Definition annotation_file (output_path : string) (attachment_id : Z) : string :=
  os_path.join output_path (Py.str_int attachment_id +:+ ".md").

(** * More sample data *)

(** ** A table with two attachments

    The four annotations of attachment 42 above and one annotation of
    attachment 7 whose type is missing. *)

Module Notes.

Definition untyped : annotation Z :=
  Annotation 7 (Some 2%Z) (Some "no type") None None None "B paper" "9" "storage:b.pdf".

Definition table : list (annotation Z) := Pages.rows ++ [untyped].

Definition parse_csv (content : string) : list (annotation Z) := table.

Definition batch :=
  process_all_attachments Z.eqb Py.str_int Pages.argsort_ties_reversed parse_csv
    "annotations" "zotero_annotations.csv" Pages.library.

Definition results : list (Z * attachment_result) :=
  [ (7%Z, Failed "'float' object has no attribute 'title'");
    (42%Z, Success "annotations/42.md" 4 "A paper") ].

End Notes.

(** * Properties *)

#[local] Arguments String.append !_ _ / : simpl nomatch.

(** ** The Python operations on samples *)

Example str_int_samples :
  (Py.str_int 0, Py.str_int (-5), Py.str_int 120) = ("0", "-5", "120").
Proof. reflexivity. Qed.

Example replace_samples :
  (Py.replace "ab" "X" "cababab-ab", Py.replace "aa" "b" "aaa", Py.replace "" "-" "abc")
  = ("cXXX-X", "ba", "-a-b-c-").
Proof. reflexivity. Qed.

Example title_samples :
  (Py.title "highlight", Py.title "free text", Py.title "aBC d3f")
  = ("Highlight", "Free Text", "Abc D3F").
Proof. reflexivity. Qed.

Example basename_samples :
  (os_path.basename "/a/b/doc_A.pdf", os_path.basename "doc.pdf", os_path.basename "a/")
  = ("doc_A.pdf", "doc.pdf", "").
Proof. reflexivity. Qed.

Example splitext_samples :
  (os_path.splitext "doc_A.pdf", os_path.splitext "a.b/c", os_path.splitext ".bashrc",
   os_path.splitext "x.tar.gz", os_path.splitext "..x")
  = (("doc_A", ".pdf"), ("a.b/c", ""), (".bashrc", ""), ("x.tar", ".gz"), ("..x", "")).
Proof. reflexivity. Qed.

Example join_samples :
  (os_path.join "out" "images", os_path.join "out/" "images", os_path.join "" "images",
   os_path.join "out" "/abs")
  = ("out/images", "out/images", "images", "/abs").
Proof. reflexivity. Qed.

(** ** Strings and paths *)

Section StringFacts.

Implicit Types (s t u p d : string) (c : ascii).

Lemma append_nil_r s : s +:+ "" = s.
Proof. induction s as [|c s IH]; simpl; [reflexivity | now rewrite IH]. Qed.

Lemma append_assoc s t u : (s +:+ t) +:+ u = s +:+ (t +:+ u).
Proof. induction s as [|c s IH]; simpl; [reflexivity | now rewrite IH]. Qed.

Lemma append_inv_head s t u : s +:+ t = s +:+ u -> t = u.
Proof. induction s as [|c s IH]; simpl; intros H; [assumption | inversion H; auto]. Qed.

Lemma prefix_nil s : String.prefix "" s = true.
Proof. destruct s; reflexivity. Qed.

Lemma prefix_app_cancel s t u : String.prefix (s +:+ t) (s +:+ u) = String.prefix t u.
Proof.
  induction s as [|c s IH]; cbn [String.append String.prefix]; [reflexivity |].
  destruct (ascii_dec c c) as [_ | Hne]; [exact IH | congruence].
Qed.

Lemma prefix_app_self s t : String.prefix s (s +:+ t) = true.
Proof.
  induction s as [|c s IH]; cbn [String.append String.prefix]; [apply prefix_nil |].
  destruct (ascii_dec c c) as [_ | Hne]; [exact IH | congruence].
Qed.

Lemma prefix_cons c1 c2 s t :
  String.prefix (String c1 s) (String c2 t) = true -> c1 = c2 /\ String.prefix s t = true.
Proof. cbn [String.prefix]. destruct (ascii_dec c1 c2); [auto | discriminate]. Qed.

Lemma has_sep_app s t : os_path.has_sep (s +:+ t) = os_path.has_sep s || os_path.has_sep t.
Proof.
  unfold os_path.has_sep.
  induction s as [|c s IH]; simpl; [reflexivity |].
  rewrite IH. now rewrite orb_assoc.
Qed.

(** A string that starts with a string holding a separator holds one. *)
Lemma prefix_has_sep s t :
  String.prefix s t = true -> os_path.has_sep s = true -> os_path.has_sep t = true.
Proof.
  unfold os_path.has_sep. revert t.
  induction s as [|c s IH]; intros t Hp Hs; [discriminate |].
  destruct t as [|c' t]; [discriminate |].
  apply prefix_cons in Hp as [-> Hp]. simpl in *.
  destruct (Py.ascii_eqb c' os_path.sep); [reflexivity |]. simpl in *. eauto.
Qed.

Lemma no_sep_not_abs s : os_path.has_sep s = false -> Py.startswith "/" s = false.
Proof.
  destruct s as [|c s]; [reflexivity |].
  unfold os_path.has_sep, Py.startswith. intros H. cbn [String.prefix].
  destruct (ascii_dec "/" c) as [<- | Hne]; [discriminate H | reflexivity].
Qed.

Lemma join_relative d s : Py.startswith "/" s = false -> os_path.join d s = os_path.dir_prefix d +:+ s.
Proof. unfold os_path.join. now intros ->. Qed.

Lemma join_no_sep d s : os_path.has_sep s = false -> os_path.join d s = os_path.dir_prefix d +:+ s.
Proof. intros H. apply join_relative, no_sep_not_abs, H. Qed.

Lemma uint_no_sep (u : Decimal.uint) : os_path.has_sep (NilEmpty.string_of_uint u) = false.
Proof. induction u; simpl; auto. Qed.

Lemma nilzero_uint_no_sep (u : Decimal.uint) :
  os_path.has_sep (NilZero.string_of_uint u) = false.
Proof. destruct u; [reflexivity | apply (uint_no_sep (_ u)) ..]. Qed.

Lemma str_int_no_sep z : os_path.has_sep (Py.str_int z) = false.
Proof.
  unfold Py.str_int. destruct (Z.to_int z) as [u | u]; cbn [NilZero.string_of_int].
  - apply nilzero_uint_no_sep.
  - apply (nilzero_uint_no_sep u).
Qed.

Lemma str_nat_no_sep n : os_path.has_sep (Py.str_nat n) = false.
Proof. apply str_int_no_sep. Qed.

(** [str(n)] starts with a digit or a minus sign. *)
Lemma str_int_head z : exists c s, Py.str_int z = String c s /\ sign_or_digit c = true.
Proof.
  unfold Py.str_int. destruct (Z.to_int z) as [u | u]; cbn [NilZero.string_of_int].
  - destruct u; eexists _, _; (split; [reflexivity | reflexivity]).
  - eexists _, _; (split; [reflexivity | reflexivity]).
Qed.

Lemma drop_no_sep n s : os_path.has_sep s = false -> os_path.has_sep (Py.drop n s) = false.
Proof.
  unfold os_path.has_sep. revert s.
  induction n as [|n IH]; intros [|c s]; simpl; auto.
  intros H. apply orb_false_elim in H as [_ H]. auto.
Qed.

Lemma take_no_sep n s : os_path.has_sep s = false -> os_path.has_sep (Py.take n s) = false.
Proof.
  unfold os_path.has_sep. revert s.
  induction n as [|n IH]; intros [|c s]; simpl; auto.
  intros H. apply orb_false_elim in H as [-> H]. simpl. auto.
Qed.

(** Past the last separator there is none. *)
Lemma rfind_drop_no_sep s :
  os_path.has_sep (Py.drop (Z.to_nat (Py.rfind os_path.sep s + 1)) s) = false.
Proof.
  unfold os_path.has_sep.
  induction s as [|c s IH]; [reflexivity |].
  cbn [Py.rfind].
  destruct (Z.leb_spec 0 (Py.rfind os_path.sep s)) as [Hr | Hr].
  - replace (Z.to_nat (Py.rfind os_path.sep s + 1 + 1))
      with (S (Z.to_nat (Py.rfind os_path.sep s + 1))) by lia.
    exact IH.
  - replace (Z.to_nat (Py.rfind os_path.sep s + 1)) with 0%nat in IH by lia.
    simpl in IH.
    destruct (Py.ascii_eqb c os_path.sep) eqn:Hc; simpl.
    + exact IH.
    + rewrite Hc. exact IH.
Qed.

Lemma basename_no_sep p : os_path.has_sep (os_path.basename p) = false.
Proof. apply rfind_drop_no_sep. Qed.

Lemma splitext_no_sep p :
  os_path.has_sep p = false -> os_path.has_sep (os_path.splitext p).1 = false.
Proof.
  intros H. unfold os_path.splitext.
  repeat match goal with |- context [if ?b then _ else _] => destruct b end;
    simpl; auto using take_no_sep.
Qed.

Lemma output_name_no_sep pdf_path pdf_id :
  os_path.has_sep (output_name_of pdf_path pdf_id +:+ ".md") = false.
Proof.
  unfold output_name_of.
  rewrite !has_sep_app, str_int_no_sep, splitext_no_sep by apply basename_no_sep.
  reflexivity.
Qed.

Lemma endswith_sep_has_sep s : Py.endswith "/" s = true -> os_path.has_sep s = true.
Proof.
  unfold os_path.has_sep.
  induction s as [|c s IH]; cbn [Py.endswith Py.contains_char]; [discriminate |].
  intros H. apply orb_true_iff in H as [H | H].
  - apply String.eqb_eq in H. injection H as -> ->. reflexivity.
  - rewrite IH by assumption. apply orb_true_r.
Qed.

Lemma endswith_app_no_sep s t :
  t <> "" -> os_path.has_sep t = false -> Py.endswith "/" (s +:+ t) = false.
Proof.
  intros Hne Ht.
  induction s as [|c s IH]; cbn [String.append Py.endswith].
  - destruct (Py.endswith "/" t) eqn:E; [|reflexivity].
    apply endswith_sep_has_sep in E. congruence.
  - rewrite IH, orb_false_r.
    apply String.eqb_neq. intros H. injection H as -> H.
    destruct s; cbn [String.append] in H; [|discriminate]. congruence.
Qed.

(** The entries of the sub-directory [name] of [d] start with the prefix of
    [d], [name] and a separator. *)
Lemma dir_prefix_join d name :
  name <> "" -> os_path.has_sep name = false ->
  os_path.dir_prefix (os_path.join d name) = os_path.dir_prefix d +:+ name +:+ "/".
Proof.
  intros Hne Hs. rewrite join_no_sep by assumption.
  unfold os_path.dir_prefix at 1.
  rewrite endswith_app_no_sep, orb_false_r by assumption.
  replace (os_path.dir_prefix d +:+ name =? "")%string with false.
  - now rewrite append_assoc.
  - symmetry. apply String.eqb_neq.
    destruct (os_path.dir_prefix d), name; simpl; congruence.
Qed.

Lemma under_join d name : Py.startswith "/" name = false -> os.under d (os_path.join d name) = true.
Proof.
  intros H. unfold os.under. rewrite join_relative by assumption. apply prefix_app_self.
Qed.

(** Nothing directly inside [d] lies in the tree of a sub-directory of [d]. *)
Lemma entry_not_under_subdir d name entry :
  name <> "" -> os_path.has_sep name = false -> os_path.has_sep entry = false ->
  os.under (os_path.join d name) (os_path.join d entry) = false.
Proof.
  intros Hne Hname Hentry. unfold os.under.
  rewrite dir_prefix_join, (join_no_sep d entry) by assumption.
  rewrite prefix_app_cancel.
  destruct (String.prefix (name +:+ "/") entry) eqn:E; [|reflexivity].
  apply prefix_has_sep in E; [congruence |].
  rewrite has_sep_app. apply orb_true_r.
Qed.

Lemma temp_name_facts i :
  TEMP_DIR_PREFIX +:+ Py.str_nat i <> "" /\
  os_path.has_sep (TEMP_DIR_PREFIX +:+ Py.str_nat i) = false.
Proof.
  split; [discriminate |]. rewrite has_sep_app, str_nat_no_sep. reflexivity.
Qed.

(** An output markdown file is not in the tree of any temporary directory. *)
Lemma output_not_in_temp out_dir i pdf_path pdf_id :
  os.in_tree (os_path.join out_dir (TEMP_DIR_PREFIX +:+ Py.str_nat i))
             (final_md_path_of out_dir pdf_path pdf_id) = false.
Proof.
  destruct (temp_name_facts i) as [Hne Hs].
  unfold os.in_tree, final_md_path_of.
  rewrite entry_not_under_subdir by auto using output_name_no_sep.
  rewrite orb_false_r. apply String.eqb_neq.
  rewrite !join_no_sep by auto using output_name_no_sep.
  intros H. apply append_inv_head in H.
  unfold output_name_of in H.
  destruct (str_int_head pdf_id) as (c & s & Hc & Hct). rewrite Hc in H.
  cbn [String.append TEMP_DIR_PREFIX] in H. injection H as -> _. discriminate Hct.
Qed.

End StringFacts.

(** ** Footprints of file-system computations *)

Section Footprint.

Context (D W : string -> Prop).

Lemma touches_refl fs : touches D W fs fs.
Proof. unfold touches. auto. Qed.

Lemma touches_trans fs1 fs2 fs3 :
  touches D W fs1 fs2 -> touches D W fs2 fs3 -> touches D W fs1 fs3.
Proof.
  intros (Hf & Hd & Hc) (Hf' & Hd' & Hc'). repeat split; intros p Hp.
  - destruct (Hf p Hp); auto.
  - destruct (Hd p Hp); auto.
  - destruct (Hc' p Hp) as [H | H]; auto.
Qed.

Lemma touches_exists fs fs' p :
  touches D W fs fs' -> ~ D p -> os.path_exists fs p = true -> os.path_exists fs' p = true.
Proof.
  intros (Hf & Hd & _) HD. unfold os.path_exists.
  rewrite !orb_true_iff, !bool_decide_eq_true.
  intros [H | H]; [destruct (Hf p H) | destruct (Hd p H)]; tauto.
Qed.

Lemma footprint_return {A} (a : A) : footprint D W (io_return a).
Proof. intros fs. apply touches_refl. Qed.

Lemma footprint_raise {A} msg : footprint D W (@io_raise A msg).
Proof. intros fs. apply touches_refl. Qed.

Lemma footprint_bind {A B} (m : io A) (k : A -> io B) :
  footprint D W m ->
  (forall fs a, (m fs).1 = Return a -> footprint D W (k a)) ->
  footprint D W (io_bind m k).
Proof.
  intros Hm Hk fs. unfold io_bind.
  specialize (Hm fs). specialize (Hk fs).
  destruct (m fs) as [[a | msg] fs1]; [|exact Hm].
  eapply touches_trans; [exact Hm | apply (Hk a eq_refl)].
Qed.

Lemma footprint_for_each {A} (l : list A) (body : A -> io unit) :
  (forall x, x ∈ l -> footprint D W (body x)) -> footprint D W (for_each l body).
Proof.
  induction l as [|x l IH]; intros H; cbn [for_each].
  - apply footprint_return.
  - apply footprint_bind.
    + apply H. left.
    + intros _ _ _. apply IH. intros y Hy. apply H. now right.
Qed.

Lemma footprint_makedirs p : footprint D W (os.makedirs p).
Proof.
  intros fs. unfold os.makedirs. destruct (String.eqb p ""); [apply touches_refl |].
  repeat split; cbn; auto. intros q Hq. left. set_solver.
Qed.

Lemma footprint_read_text p : footprint D W (read_text p).
Proof.
  intros fs. unfold read_text. destruct (files fs !! p); apply touches_refl.
Qed.

Lemma footprint_listdir d : footprint D W (os.listdir d).
Proof. intros fs. apply touches_refl. Qed.

Lemma footprint_write_text p data : W p -> footprint D W (write_text p data).
Proof.
  intros HW fs. repeat split; cbn; auto; intros q Hq.
  - left. destruct (decide (p = q)) as [-> | Hne].
    + rewrite lookup_insert_eq. eauto.
    + now rewrite lookup_insert_ne.
  - destruct (decide (p = q)) as [-> | Hne]; [auto |].
    rewrite lookup_insert_ne in Hq by assumption. auto.
Qed.

Lemma footprint_move src dst : D src -> W dst -> footprint D W (shutil.move src dst).
Proof.
  intros HD HW fs. unfold shutil.move.
  destruct (files fs !! src) as [data |] eqn:E; [|apply touches_refl].
  repeat split; cbn; auto; intros q Hq.
  - destruct (decide (src = q)) as [-> | Hs]; [auto |]. left.
    destruct (decide (dst = q)) as [-> | Hd].
    + rewrite lookup_insert_eq. eauto.
    + now rewrite lookup_insert_ne, lookup_delete_ne.
  - destruct (decide (dst = q)) as [-> | Hd]; [auto |].
    rewrite lookup_insert_ne in Hq by assumption.
    destruct (decide (src = q)) as [-> | Hs].
    + rewrite lookup_delete_eq in Hq. destruct Hq; discriminate.
    + rewrite lookup_delete_ne in Hq by assumption. auto.
Qed.

Lemma footprint_rmtree d :
  (forall p, os.in_tree d p = true -> D p) -> footprint D W (shutil.rmtree d).
Proof.
  intros HD fs. repeat split; cbn; intros q Hq.
  - destruct (os.in_tree d q) eqn:E; [auto |]. left.
    destruct Hq as [v Hv]. exists v. now apply map_lookup_filter_Some.
  - destruct (os.in_tree d q) eqn:E; [auto |]. left.
    now apply elem_of_filter.
  - left. destruct Hq as [v Hv]. apply map_lookup_filter_Some in Hv as [Hv _]. eauto.
Qed.

End Footprint.

Lemma touches_weaken (D W D' W' : string -> Prop) fs fs' :
  (forall p, D p -> D' p) -> (forall p, W p -> W' p) ->
  touches D W fs fs' -> touches D' W' fs fs'.
Proof.
  intros HD HW (Hf & Hd & Hc). repeat split; intros p Hp.
  - destruct (Hf p Hp); auto.
  - destruct (Hd p Hp); auto.
  - destruct (Hc p Hp); auto.
Qed.

(** After [rmtree d] nothing is left in the tree of [d]. *)
Lemma rmtree_clears d fs p :
  os.in_tree d p = true -> files (shutil.rmtree d fs).2 !! p = None.
Proof.
  intros H. cbn. apply map_lookup_filter_None. right. intros v _. cbn. congruence.
Qed.

Lemma rmtree_outside d fs p :
  os.in_tree d p = false -> files (shutil.rmtree d fs).2 !! p = files fs !! p.
Proof.
  intros H. cbn. destruct (files fs !! p) as [v |] eqn:E.
  - now apply map_lookup_filter_Some.
  - apply map_lookup_filter_None. left. exact E.
Qed.

(** ** Directory listings *)

Lemma first_component_no_sep s : os_path.has_sep (os.first_component s) = false.
Proof.
  unfold os_path.has_sep.
  induction s as [|c s IH]; cbn [os.first_component]; [reflexivity |].
  destruct (Py.ascii_eqb c os_path.sep) eqn:E; [reflexivity |].
  cbn [Py.contains_char]. now rewrite E, IH.
Qed.

Lemma first_component_id s : os_path.has_sep s = false -> os.first_component s = s.
Proof.
  unfold os_path.has_sep.
  induction s as [|c s IH]; cbn [os.first_component Py.contains_char]; [reflexivity |].
  intros H. apply orb_false_elim in H as [-> H]. now rewrite IH.
Qed.

Lemma drop_app s t : Py.drop (String.length s) (s +:+ t) = t.
Proof. induction s as [|c s IH]; [now destruct t | exact IH]. Qed.

Lemma child_name_no_sep d p name : os.child_name d p = Some name -> os_path.has_sep name = false.
Proof.
  unfold os.child_name. destruct (os.under d p); [|discriminate].
  destruct (String.eqb _ ""); [discriminate |].
  intros [= <-]. apply first_component_no_sep.
Qed.

Lemma child_name_entry d name :
  name <> "" -> os_path.has_sep name = false ->
  os.child_name d (os_path.join d name) = Some name.
Proof.
  intros Hne Hs. unfold os.child_name.
  rewrite under_join by now apply no_sep_not_abs.
  rewrite join_no_sep, drop_app, first_component_id by assumption.
  destruct (String.eqb_spec name ""); congruence.
Qed.

Lemma listdir_spec d fs :
  exists l, os.listdir d fs = (Return l, fs) /\ NoDup l /\
    (forall name, name ∈ l -> os_path.has_sep name = false) /\
    (forall name, name <> "" -> os_path.has_sep name = false ->
       is_Some (files fs !! os_path.join d name) -> name ∈ l).
Proof.
  eexists. split; [reflexivity |]. split; [apply NoDup_remove_dups |]. split.
  - intros name H. apply elem_of_remove_dups, list_elem_of_omap in H as (p & _ & H).
    eapply child_name_no_sep, H.
  - intros name Hne Hs [v Hv]. apply elem_of_remove_dups, list_elem_of_omap.
    exists (os_path.join d name). split; [|now apply child_name_entry].
    apply elem_of_app. left. apply list_elem_of_fmap.
    exists (os_path.join d name, v). split; [reflexivity |].
    now apply elem_of_map_to_list.
Qed.

(** ** One request *)

Lemma under_join_join d a f :
  a <> "" -> os_path.has_sep a = false -> Py.startswith "/" f = false ->
  os.under d (os_path.join (os_path.join d a) f) = true.
Proof.
  intros Hne Hs Hf. unfold os.under.
  rewrite (join_relative _ f), dir_prefix_join, !append_assoc by assumption.
  apply prefix_app_self.
Qed.

Lemma in_tree_under d p : os.under d p = true -> os.in_tree d p = true.
Proof. unfold os.in_tree. intros ->. apply orb_true_r. Qed.

Lemma images_name_facts :
  config.IMAGES_DIR_NAME <> "" /\ os_path.has_sep config.IMAGES_DIR_NAME = false.
Proof. split; [discriminate | reflexivity]. Qed.

Section Request.

Context (pdf_pages : string -> result nat) (doc_analyze : string -> engine_result).

(** The paths of one request. *)
Context (out_dir : string) (i : nat) (pdf_path : string) (pdf_id : Z).

Let images_dir := os_path.join out_dir config.IMAGES_DIR_NAME.
Let temp_dir := os_path.join out_dir (TEMP_DIR_PREFIX +:+ Py.str_nat i).
Let temp_images_dir := os_path.join temp_dir config.IMAGES_DIR_NAME.
Let output_name := output_name_of pdf_path pdf_id.
Let final_md_path := final_md_path_of out_dir pdf_path pdf_id.
Let md_file := os_path.join temp_dir (output_name +:+ ".md").

Lemma md_file_in_temp : (in_temp_dir out_dir i) md_file.
Proof.
  apply in_tree_under, under_join, no_sep_not_abs, output_name_no_sep.
Qed.

Lemma temp_image_in_temp name : Py.startswith "/" name = false ->
  (in_temp_dir out_dir i) (os_path.join temp_images_dir name).
Proof.
  intros H. destruct images_name_facts.
  now apply in_tree_under, under_join_join.
Qed.

Lemma final_not_in_temp : ~ (in_temp_dir out_dir i) final_md_path.
Proof.
  unfold in_temp_dir, final_md_path, temp_dir.
  rewrite output_not_in_temp. discriminate.
Qed.

Section Footprints.

(** What the request may create: [W] holds of every path written. *)
Context (W : string -> Prop).
Hypothesis W_engine : forall pdf_bytes name data,
  (name, data) ∈ engine_images (doc_analyze pdf_bytes) ->
  W (os_path.join temp_images_dir name).
Hypothesis W_md_file : W md_file.
Hypothesis W_final : W final_md_path.
Hypothesis W_image : forall image_file,
  os_path.has_sep image_file = false ->
  W (os_path.join images_dir (Py.str_int pdf_id +:+ "_" +:+ image_file)).

Lemma footprint_write_images (images : list (string * string)) :
  (forall name data, (name, data) ∈ images -> W (os_path.join temp_images_dir name)) ->
  footprint (in_temp_dir out_dir i) W (write_images temp_images_dir images).
Proof.
  intros H. apply footprint_for_each. intros [name data] Hin.
  apply footprint_write_text, (H name data Hin).
Qed.

Lemma footprint_convert_single :
  footprint (in_temp_dir out_dir i) W
    (convert_single_pdf_to_md doc_analyze pdf_path temp_dir (Some output_name)).
Proof.
  unfold convert_single_pdf_to_md.
  apply footprint_bind; [apply footprint_makedirs | intros _ _ _].
  apply footprint_bind; [apply footprint_makedirs | intros _ _ _].
  apply footprint_bind; [apply footprint_read_text | intros _ pdf_bytes _].
  pose proof (W_engine pdf_bytes) as HW.
  destruct (doc_analyze pdf_bytes) as [md images | msg images]; cbn [engine_images] in HW.
  - apply footprint_bind; [now apply footprint_write_images | intros _ _ _].
    apply footprint_bind; [apply footprint_write_text, W_md_file | intros _ _ _].
    apply footprint_return.
  - apply footprint_bind; [now apply footprint_write_images | intros _ _ _].
    apply footprint_raise.
Qed.

Lemma footprint_relocate_image image_file :
  os_path.has_sep image_file = false ->
  footprint (in_temp_dir out_dir i) W
    (relocate_image images_dir temp_images_dir final_md_path (Py.str_int pdf_id) image_file).
Proof.
  intros Hs. unfold relocate_image.
  destruct (has_image_extension image_file); [|apply footprint_return].
  apply footprint_bind; [|intros _ _ _].
  { apply footprint_move; [apply temp_image_in_temp, no_sep_not_abs, Hs | now apply W_image]. }
  apply footprint_bind; [apply footprint_read_text | intros _ content _].
  apply footprint_write_text, W_final.
Qed.

Lemma footprint_relocate_images :
  footprint (in_temp_dir out_dir i) W
    (relocate_images images_dir temp_images_dir final_md_path (Py.str_int pdf_id)).
Proof.
  intros fs. unfold relocate_images.
  destruct (os.path_exists fs temp_images_dir); [|apply touches_refl].
  apply footprint_bind; [apply footprint_listdir |].
  intros fs0 l Hl. apply footprint_for_each. intros name Hname.
  apply footprint_relocate_image.
  destruct (listdir_spec temp_images_dir fs0) as (l' & E & _ & Hsep & _).
  rewrite E in Hl. injection Hl as ->. auto.
Qed.

Lemma footprint_convert_and_relocate :
  footprint (in_temp_dir out_dir i) W
    (convert_and_relocate doc_analyze pdf_path out_dir images_dir temp_dir output_name
       (Py.str_int pdf_id)).
Proof.
  unfold convert_and_relocate.
  apply footprint_bind; [apply footprint_convert_single | intros fs md Hmd].
  apply footprint_bind; [|intros _ _ _].
  { apply footprint_move; [|apply W_final].
    unfold convert_single_pdf_to_md, io_bind in Hmd.
    repeat match type of Hmd with
    | context [match ?x with _ => _ end] => destruct x; try discriminate Hmd
    end.
    cbn in Hmd. injection Hmd as <-. apply md_file_in_temp. }
  apply footprint_bind; [apply footprint_relocate_images | intros _ _ _].
  apply footprint_return.
Qed.

Lemma touches_cleanup fs : touches (in_temp_dir out_dir i) W fs (cleanup temp_dir fs).
Proof.
  unfold cleanup. destruct (os.path_exists fs temp_dir); [|apply touches_refl].
  apply (footprint_rmtree (in_temp_dir out_dir i) W temp_dir). auto.
Qed.

Lemma touches_convert_request st :
  touches (in_temp_dir out_dir i) W (disk st)
    (disk (convert_request doc_analyze out_dir images_dir i pdf_path pdf_id st)).
Proof.
  unfold convert_request.
  pose proof (footprint_convert_and_relocate (disk st)) as H.
  fold output_name temp_dir.
  destruct (convert_and_relocate _ _ _ _ _ _ _ _) as [[p | msg] fs']; cbn [disk];
    (eapply touches_trans; [exact H | apply touches_cleanup]).
Qed.

Lemma touches_process_request n pages_max force_rebuild st :
  touches (in_temp_dir out_dir i) W (disk st)
    (disk (process_request pdf_pages doc_analyze n out_dir images_dir pages_max
             force_rebuild i pdf_path pdf_id st)).
Proof.
  unfold process_request.
  destruct (negb force_rebuild && _); [apply touches_refl |].
  destruct pages_max as [m |]; [|apply (touches_convert_request (print _ st))].
  destruct (get_pdf_page_count _ _ _) as [page_count warning].
  destruct (m <? _)%Z; [apply touches_refl |].
  destruct (page_count =? 0)%nat; [apply touches_refl |].
  apply (touches_convert_request (print _ st)).
Qed.

End Footprints.

(** A successful [try] block returns the output path and leaves the
    markdown file there. *)
Lemma convert_and_relocate_success fs p fs' :
  convert_and_relocate doc_analyze pdf_path out_dir images_dir temp_dir output_name
    (Py.str_int pdf_id) fs = (Return p, fs') ->
  p = final_md_path /\ is_Some (files fs' !! final_md_path).
Proof.
  unfold convert_and_relocate. unfold io_bind at 1.
  destruct (convert_single_pdf_to_md _ _ _ _ fs) as [[md | msg] fs1]; [|discriminate].
  unfold io_bind at 1.
  change (os_path.join out_dir (output_name +:+ ".md")) with final_md_path.
  destruct (shutil.move md final_md_path fs1) as [[[] | msg] fs2] eqn:Emove; [|discriminate].
  assert (Hfinal : is_Some (files fs2 !! final_md_path)).
  { unfold shutil.move in Emove. destruct (files fs1 !! md); [|discriminate].
    injection Emove as <-. cbn. rewrite lookup_insert_eq. eauto. }
  unfold io_bind at 1.
  change (os_path.join temp_dir config.IMAGES_DIR_NAME) with temp_images_dir.
  pose proof (footprint_relocate_images (fun _ => True) I (fun _ _ => I) fs2) as (Hkeep & _).
  destruct (relocate_images _ _ _ _ fs2) as [[[] | msg] fs3]; [|discriminate].
  unfold io_return. intros [= <- <-]. split; [reflexivity |].
  destruct (Hkeep _ Hfinal) as [H | H]; [exact H | now apply final_not_in_temp in H].
Qed.

End Request.

(** ** The loop over the requests *)

Section Batch.

Context (pdf_pages : string -> result nat) (doc_analyze : string -> engine_result).
Context (n : nat) (out_dir : string) (pages_max : option Z) (force_rebuild : bool).

Let images_dir := os_path.join out_dir config.IMAGES_DIR_NAME.

#[local] Abbreviation step :=
  (process_request pdf_pages doc_analyze n out_dir images_dir pages_max force_rebuild).
#[local] Abbreviation loop :=
  (process_requests pdf_pages doc_analyze n out_dir images_dir pages_max force_rebuild).
#[local] Abbreviation temp_of i := (os_path.join out_dir (TEMP_DIR_PREFIX +:+ Py.str_nat i)).

(** The two ways [convert_request] ends. *)
Lemma convert_request_cases i pdf_path pdf_id st :
  let final_md_path := final_md_path_of out_dir pdf_path pdf_id in
  let st' := convert_request doc_analyze out_dir images_dir i pdf_path pdf_id st in
  (exists fs1,
      convert_and_relocate doc_analyze pdf_path out_dir images_dir (temp_of i)
        (output_name_of pdf_path pdf_id) (Py.str_int pdf_id) (disk st)
      = (Return final_md_path, fs1) /\
      is_Some (files fs1 !! final_md_path) /\
      st' = State (cleanup (temp_of i) fs1) (generated_files st ++ [final_md_path])
              (skipped_files st) (already_converted_files st)
              (console st ++ [SuccessLine final_md_path])) \/
  (exists msg fs1,
      convert_and_relocate doc_analyze pdf_path out_dir images_dir (temp_of i)
        (output_name_of pdf_path pdf_id) (Py.str_int pdf_id) (disk st)
      = (Raise msg, fs1) /\
      st' = State (cleanup (temp_of i) fs1) (generated_files st)
              (skipped_files st) (already_converted_files st)
              (console st ++ [ErrorLine pdf_path msg])).
Proof.
  intros final_md_path st'. subst st'. unfold convert_request.
  destruct (convert_and_relocate _ _ _ _ _ _ _ _) as [[p | msg] fs1] eqn:E.
  - left. apply convert_and_relocate_success in E as Hs. destruct Hs as [-> Hs].
    exists fs1. auto.
  - right. eauto.
Qed.

(** A request appends nothing to [generated_files], or its own output path,
    which exists when the request is done. *)
Lemma step_generated i pdf_path pdf_id st :
  let st' := step i pdf_path pdf_id st in
  generated_files st' = generated_files st \/
  (generated_files st' = generated_files st ++ [final_md_path_of out_dir pdf_path pdf_id] /\
   os.path_exists (disk st') (final_md_path_of out_dir pdf_path pdf_id) = true).
Proof.
  cbn zeta. unfold process_request.
  change (os_path.join out_dir (output_name_of pdf_path pdf_id +:+ ".md"))
    with (final_md_path_of out_dir pdf_path pdf_id).
  assert (Hc : forall st0, generated_files st0 = generated_files st ->
    let st' := convert_request doc_analyze out_dir images_dir i pdf_path pdf_id st0 in
    generated_files st' = generated_files st \/
    (generated_files st' = generated_files st ++ [final_md_path_of out_dir pdf_path pdf_id] /\
     os.path_exists (disk st') (final_md_path_of out_dir pdf_path pdf_id) = true)).
  { intros st0 Hg.
    destruct (convert_request_cases i pdf_path pdf_id st0)
      as [(fs1 & _ & Hf & ->) | (msg & fs1 & _ & ->)]; cbn; rewrite Hg; [right | now left].
    split; [reflexivity |].
    destruct (touches_cleanup out_dir i (fun _ => True) fs1) as (Hkeep & _).
    destruct (Hkeep _ Hf) as [H | H].
    - unfold os.path_exists. now rewrite bool_decide_eq_true_2.
    - now apply final_not_in_temp in H. }
  destruct (negb force_rebuild && _) eqn:E.
  - right. cbn. split; [reflexivity |]. now apply andb_true_iff in E as [_ E].
  - destruct pages_max as [m |]; [|now apply Hc].
    destruct (get_pdf_page_count _ _ _) as [page_count warning].
    destruct (m <? _)%Z; [now left |].
    destruct (page_count =? 0)%nat; [now left |]. now apply Hc.
Qed.

(** Whatever exists outside the temporary directory of a request survives
    the request. *)
Lemma step_exists i pdf_path pdf_id st p :
  os.in_tree (temp_of i) p = false ->
  os.path_exists (disk st) p = true ->
  os.path_exists (disk (step i pdf_path pdf_id st)) p = true.
Proof.
  intros Hp. eapply touches_exists.
  - apply (touches_process_request pdf_pages doc_analyze out_dir i pdf_path pdf_id
             (fun _ => True)); auto.
  - unfold in_temp_dir. congruence.
Qed.

Lemma loop_exists requests i st pdf_path pdf_id :
  os.path_exists (disk st) (final_md_path_of out_dir pdf_path pdf_id) = true ->
  os.path_exists (disk (loop i requests st)) (final_md_path_of out_dir pdf_path pdf_id) = true.
Proof.
  revert i st. induction requests as [|[pdf id] requests IH]; intros i st H; [exact H |].
  cbn [process_requests]. apply IH, step_exists; [apply output_not_in_temp | exact H].
Qed.

(** After the loop, [generated_files] has grown by output paths of the
    requests, in order, all of which exist; when every request has produced
    one, by all of them. *)
Lemma loop_generated requests i st :
  exists g,
    generated_files (loop i requests st) = generated_files st ++ g /\
    g `sublist_of` (final_of out_dir <$> requests) /\
    (forall p, p ∈ g -> os.path_exists (disk (loop i requests st)) p = true).
Proof.
  revert i st. induction requests as [|[pdf id] requests IH]; intros i st.
  - exists []. cbn. rewrite app_nil_r. split; [reflexivity |]. split; [constructor |].
    intros p Hp. inversion Hp.
  - cbn [process_requests fmap list_fmap].
    destruct (IH (S i) (step i pdf id st)) as (g & Hg & Hsub & Hex).
    destruct (step_generated i pdf id st) as [E | [E Hf]]; rewrite Hg, E.
    + exists g. split; [reflexivity |]. split; [now apply sublist_cons | exact Hex].
    + exists (final_md_path_of out_dir pdf id :: g). rewrite <- app_assoc.
      split; [reflexivity |]. split; [now apply sublist_skip |].
      intros p Hp. apply elem_of_cons in Hp as [-> | Hp]; [|now apply Hex].
      now apply loop_exists.
Qed.

End Batch.

Lemma count_lines_app f out1 out2 :
  count_lines f (out1 ++ out2) = (count_lines f out1 + count_lines f out2)%nat.
Proof. unfold count_lines. now rewrite List.filter_app, length_app. Qed.

Lemma conversions_already_lines n i requests : conversions (already_lines n i requests) = 0%nat.
Proof.
  revert i. induction requests as [|[pdf id] requests IH]; intros i; [reflexivity |].
  apply (IH (S i)).
Qed.

Lemma conversions_summary pages_max st : conversions (summary pages_max st) = 0%nat.
Proof.
  unfold summary.
  repeat match goal with |- context [if ?b then _ else _] => destruct b end; reflexivity.
Qed.

Lemma makedirs_return p fs :
  p <> "" ->
  os.makedirs p fs = (Return tt, FileSystem (files fs) (dirs fs ∪ {[p]} ∪ list_to_set (os.ancestors p))).
Proof. intros H. unfold os.makedirs. now destruct (String.eqb_spec p ""). Qed.

Lemma makedirs_raise fs : os.makedirs "" fs = (Raise (file_not_found ""), fs).
Proof. reflexivity. Qed.

Lemma images_dir_nonempty out_dir : os_path.join out_dir config.IMAGES_DIR_NAME <> "".
Proof.
  rewrite join_no_sep by reflexivity.
  destruct (os_path.dir_prefix out_dir); discriminate.
Qed.

(** The preparation succeeds exactly for a non-empty output directory, and
    returns the images directory. *)
Lemma prepare_output_return out_dir force_rebuild fs images_dir fs' out :
  prepare_output out_dir force_rebuild fs = (Return images_dir, fs', out) ->
  out_dir <> "" /\ images_dir = os_path.join out_dir config.IMAGES_DIR_NAME.
Proof.
  unfold prepare_output.
  destruct (if force_rebuild && _ then _ else _) as [fs1 printed].
  unfold io_bind. rewrite makedirs_return by apply images_dir_nonempty.
  destruct (String.eqb_spec out_dir "") as [-> | Hne].
  - rewrite makedirs_raise. discriminate.
  - rewrite makedirs_return by assumption. now intros [= <- _ _].
Qed.

Lemma prepare_output_keep out_dir fs :
  out_dir <> "" ->
  exists fs', prepare_output out_dir false fs
              = (Return (os_path.join out_dir config.IMAGES_DIR_NAME), fs', []) /\
    files fs' = files fs /\
    (forall p, os.path_exists fs p = true -> os.path_exists fs' p = true).
Proof.
  intros Hne. unfold prepare_output. cbn [andb]. unfold io_bind.
  rewrite makedirs_return by apply images_dir_nonempty.
  rewrite makedirs_return by assumption.
  eexists. split; [reflexivity |]. split; [reflexivity |].
  intros p. unfold os.path_exists. cbn [files dirs].
  rewrite !orb_true_iff, !bool_decide_eq_true. intros [H | H]; [now left | right].
  set_solver.
Qed.

Section Rerun.

Context (pdf_pages : string -> result nat) (doc_analyze : string -> engine_result).

(** A request whose output exists is resolved by the existence check alone:
    the file system is not touched, nothing is probed or converted. *)
Lemma step_already n out_dir images_dir pages_max i pdf_path pdf_id st :
  os.path_exists (disk st) (final_md_path_of out_dir pdf_path pdf_id) = true ->
  process_request pdf_pages doc_analyze n out_dir images_dir pages_max false i pdf_path pdf_id st
  = State (disk st)
      (generated_files st ++ [final_md_path_of out_dir pdf_path pdf_id])
      (skipped_files st)
      (already_converted_files st ++ [final_md_path_of out_dir pdf_path pdf_id])
      (console st ++ [AlreadyConvertedLine i n (output_name_of pdf_path pdf_id)]).
Proof.
  intros H. unfold process_request.
  change (os_path.join out_dir (output_name_of pdf_path pdf_id +:+ ".md"))
    with (final_md_path_of out_dir pdf_path pdf_id).
  now rewrite H.
Qed.

Lemma loop_all_already n out_dir images_dir pages_max requests i st :
  (forall r, r ∈ requests -> os.path_exists (disk st) (final_of out_dir r) = true) ->
  process_requests pdf_pages doc_analyze n out_dir images_dir pages_max false i requests st
  = State (disk st)
      (generated_files st ++ (final_of out_dir <$> requests))
      (skipped_files st)
      (already_converted_files st ++ (final_of out_dir <$> requests))
      (console st ++ already_lines n i requests).
Proof.
  revert i st. induction requests as [|[pdf id] requests IH]; intros i st H.
  - cbn. rewrite !app_nil_r. now destruct st.
  - cbn [process_requests]. rewrite step_already by (apply (H (pdf, id)); left).
    rewrite IH.
    + cbn. now rewrite <- !app_assoc.
    + intros r Hr. cbn. apply H. now right.
Qed.

End Rerun.

Lemma sublist_full {A} (l1 l2 : list A) :
  l1 `sublist_of` l2 -> length l1 = length l2 -> l1 = l2.
Proof.
  induction 1 as [|x l1 l2 _ IH | x l1 l2 Hs IH]; cbn; intros Hl.
  - reflexivity.
  - f_equal. apply IH. lia.
  - apply sublist_length in Hs. lia.
Qed.

Section RerunTheorem.

Context (pdf_pages : string -> result nat) (doc_analyze : string -> engine_result).

(** What a call that returns has done: the lengths matched, the preparation
    succeeded, and the result is read off the state after the loop. *)
Lemma convert_multiple_return fullpath_list id_list out_dir pages_max force_rebuild fs gen :
  returned (convert_multiple_pdfs_to_md pdf_pages doc_analyze fullpath_list id_list out_dir
              pages_max force_rebuild fs) = Return gen ->
  let images_dir := os_path.join out_dir config.IMAGES_DIR_NAME in
  exists fs1 out1,
    length id_list = length fullpath_list /\ out_dir <> "" /\
    prepare_output out_dir force_rebuild fs = (Return images_dir, fs1, out1) /\
    let st := process_requests pdf_pages doc_analyze (length fullpath_list) out_dir images_dir
                pages_max force_rebuild 0 (zip fullpath_list id_list)
                (State fs1 [] [] [] out1) in
    convert_multiple_pdfs_to_md pdf_pages doc_analyze fullpath_list id_list out_dir
      pages_max force_rebuild fs
    = Run (Return (generated_files st)) (disk st) (console st ++ summary pages_max st) /\
    gen = generated_files st.
Proof.
  unfold convert_multiple_pdfs_to_md.
  destruct (Nat.eqb_spec (length id_list) (length fullpath_list)) as [Hlen | Hlen];
    cbn [negb]; [|discriminate].
  destruct (prepare_output out_dir force_rebuild fs) as [[[images_dir | msg] fs1] out1] eqn:E;
    [|discriminate].
  apply prepare_output_return in E as Hp. destruct Hp as [Hne ->].
  cbn [returned]. intros [= <-]. exists fs1, out1. auto.
Qed.

(** C1, as amended: a second run with force_rebuild=false resolves every
    request that produced an output in the first run (newly converted or
    already converted) through the already-converted branch, by the
    existence check of its markdown file alone: the file system is not
    touched, nothing is probed or converted.  When every request of the first
    run produced an output, the second run starts no conversion, returns the
    same list and leaves every file as it was. *)
Theorem rerun_resolves_existing_outputs fullpath_list id_list out_dir pages_max force_rebuild
    pages_max' fs gen1 :
  let n := length fullpath_list in
  let images_dir := os_path.join out_dir config.IMAGES_DIR_NAME in
  let r1 := convert_multiple_pdfs_to_md pdf_pages doc_analyze fullpath_list id_list out_dir
              pages_max force_rebuild fs in
  let r2 := convert_multiple_pdfs_to_md pdf_pages doc_analyze fullpath_list id_list out_dir
              pages_max' false (final_disk r1) in
  returned r1 = Return gen1 ->
  exists fs2,
    prepare_output out_dir false (final_disk r1) = (Return images_dir, fs2, []) /\
    (forall l1 pdf_path pdf_id l2,
       zip fullpath_list id_list = l1 ++ (pdf_path, pdf_id) :: l2 ->
       final_md_path_of out_dir pdf_path pdf_id ∈ gen1 ->
       let st := process_requests pdf_pages doc_analyze n out_dir images_dir pages_max' false
                   0 l1 (State fs2 [] [] [] []) in
       process_request pdf_pages doc_analyze n out_dir images_dir pages_max' false
         (length l1) pdf_path pdf_id st
       = State (disk st)
           (generated_files st ++ [final_md_path_of out_dir pdf_path pdf_id])
           (skipped_files st)
           (already_converted_files st ++ [final_md_path_of out_dir pdf_path pdf_id])
           (console st ++ [AlreadyConvertedLine (length l1) n (output_name_of pdf_path pdf_id)])) /\
    (length gen1 = length fullpath_list ->
       returned r2 = Return gen1 /\
       files (final_disk r2) = files (final_disk r1) /\
       conversions (printed r2) = 0%nat /\
       printed r2
       = already_lines n 0 (zip fullpath_list id_list)
         ++ summary pages_max'
              (State fs2 gen1 [] gen1 (already_lines n 0 (zip fullpath_list id_list)))).
Proof.
  intros n images_dir r1 r2 Hret.
  apply convert_multiple_return in Hret as (fs1 & out1 & Hlen & Hne & Hprep & Hrun & Hgen).
  cbn zeta in Hrun, Hgen. fold images_dir n in Hrun, Hgen.
  destruct (loop_generated pdf_pages doc_analyze n out_dir pages_max force_rebuild
              (zip fullpath_list id_list) 0 (State fs1 [] [] [] out1)) as (g & Hg & Hsub & Hex).
  fold images_dir in Hg, Hex. cbn [generated_files app] in Hg. rewrite Hg in Hgen. subst g.
  assert (Hdisk : final_disk r1 = disk (process_requests pdf_pages doc_analyze n out_dir
            images_dir pages_max force_rebuild 0 (zip fullpath_list id_list)
            (State fs1 [] [] [] out1))).
  { subst r1. now rewrite Hrun. }
  rewrite <- Hdisk in Hex. clear Hrun Hg.
  destruct (prepare_output_keep out_dir (final_disk r1) Hne) as (fs2 & Hprep2 & Hfiles & Hkeep).
  exists fs2. split; [exact Hprep2 |]. split.
  - intros l1 pdf_path pdf_id l2 _ Hin st. apply step_already.
    apply (loop_exists pdf_pages doc_analyze n out_dir pages_max' false l1 0
             (State fs2 [] [] [] [])), Hkeep, Hex, Hin.
  - intros Hfull.
    assert (Hall : gen1 = final_of out_dir <$> zip fullpath_list id_list).
    { apply sublist_full; [exact Hsub |].
      rewrite length_fmap, length_zip. lia. }
    assert (E2 : r2 = Run (Return gen1) fs2
                       (already_lines n 0 (zip fullpath_list id_list)
                        ++ summary pages_max'
                             (State fs2 gen1 [] gen1 (already_lines n 0 (zip fullpath_list id_list))))).
    { subst r2. unfold convert_multiple_pdfs_to_md.
      destruct (Nat.eqb_spec (length id_list) (length fullpath_list)); [|congruence].
      cbn [negb]. rewrite Hprep2. fold images_dir n.
      rewrite loop_all_already.
      - cbn [generated_files disk console app]. now rewrite <- Hall.
      - intros r Hr. cbn [disk]. apply Hkeep, Hex. rewrite Hall.
        now apply list_elem_of_fmap_2. }
    rewrite E2. cbn [returned final_disk printed].
    repeat split; [exact Hfiles |].
    unfold conversions. now rewrite count_lines_app, conversions_already_lines,
      conversions_summary.
Qed.

End RerunTheorem.

(** ** Names of the outputs *)

Lemma rfind_no_sep s : os_path.has_sep s = false -> Py.rfind os_path.sep s = (-1)%Z.
Proof.
  unfold os_path.has_sep.
  induction s as [|c s IH]; cbn [Py.rfind Py.contains_char]; [reflexivity |].
  intros H. apply orb_false_elim in H as [-> H]. now rewrite IH.
Qed.

Lemma rfind_app_no_sep s t :
  os_path.has_sep t = false -> Py.rfind os_path.sep (s +:+ t) = Py.rfind os_path.sep s.
Proof.
  intros Ht. induction s as [|c s IH]; cbn [String.append Py.rfind].
  - now apply rfind_no_sep.
  - now rewrite IH.
Qed.

Lemma rfind_endswith s :
  Py.endswith "/" s = true -> Py.rfind os_path.sep s = (Z.of_nat (String.length s) - 1)%Z.
Proof.
  induction s as [|c s IH]; cbn [Py.endswith Py.rfind String.length]; [discriminate |].
  intros H. apply orb_true_iff in H as [H | H].
  - apply String.eqb_eq in H. injection H as -> ->. reflexivity.
  - specialize (IH H). rewrite IH.
    destruct s as [|c' s]; [discriminate H |]. cbn [String.length] in *.
    destruct (Z.leb_spec 0 (Z.of_nat (S (String.length s)) - 1)); lia.
Qed.

Lemma endswith_app_self s t : Py.endswith t (s +:+ t) = true.
Proof.
  induction s as [|c s IH]; cbn [String.append].
  - destruct t; cbn [Py.endswith]; now rewrite String.eqb_refl.
  - cbn [Py.endswith]. rewrite IH. apply orb_true_r.
Qed.

Lemma dir_prefix_shape d :
  os_path.dir_prefix d = "" \/ Py.endswith "/" (os_path.dir_prefix d) = true.
Proof.
  unfold os_path.dir_prefix.
  destruct (String.eqb_spec d "") as [-> | Hne]; [now left |]. right. cbn [orb].
  destruct (Py.endswith "/" d) eqn:E; [exact E | apply endswith_app_self].
Qed.

(** The base name of an entry of [d] is the entry's name. *)
Lemma basename_join d name :
  os_path.has_sep name = false -> os_path.basename (os_path.join d name) = name.
Proof.
  intros Hs. rewrite join_no_sep by assumption. unfold os_path.basename.
  rewrite rfind_app_no_sep by assumption.
  destruct (dir_prefix_shape d) as [-> | H].
  - reflexivity.
  - rewrite rfind_endswith by assumption.
    replace (Z.to_nat _) with (String.length (os_path.dir_prefix d)) by lia.
    apply drop_app.
Qed.

Lemma prefixed_image_no_sep pdf_id image_file :
  os_path.has_sep image_file = false ->
  os_path.has_sep (Py.str_int pdf_id +:+ "_" +:+ image_file) = false.
Proof. intros H. now rewrite !has_sep_app, str_int_no_sep, H. Qed.

Lemma prefix_split s p : String.prefix s p = true -> exists rest, p = s +:+ rest.
Proof.
  revert p. induction s as [|c s IH]; intros p H.
  - now exists p.
  - destruct p as [|c' p]; [discriminate H |].
    apply prefix_cons in H as [-> H]. destruct (IH p H) as [rest ->]. now exists rest.
Qed.

(** Nothing in the tree of a temporary directory lies below the shared
    images directory. *)
Lemma temp_not_under_images out_dir i p :
  os.in_tree (os_path.join out_dir (TEMP_DIR_PREFIX +:+ Py.str_nat i)) p = true ->
  os.under (os_path.join out_dir config.IMAGES_DIR_NAME) p = true -> False.
Proof.
  destruct (temp_name_facts i) as [Hne Hs], images_name_facts as [Hne' Hs'].
  unfold os.in_tree, os.under. rewrite !dir_prefix_join by assumption.
  intros Ht Hi. apply prefix_split in Hi as [rest ->].
  apply orb_true_iff in Ht as [Ht | Ht].
  - apply String.eqb_eq in Ht. rewrite join_no_sep, !append_assoc in Ht by assumption.
    apply append_inv_head in Ht. discriminate Ht.
  - rewrite !append_assoc, prefix_app_cancel in Ht. discriminate Ht.
Qed.

Lemma output_not_under_images out_dir pdf_path pdf_id :
  os.under (os_path.join out_dir config.IMAGES_DIR_NAME)
           (final_md_path_of out_dir pdf_path pdf_id) = false.
Proof.
  destruct images_name_facts. apply entry_not_under_subdir; auto using output_name_no_sep.
Qed.

Section Names.

Context (pdf_pages : string -> result nat) (doc_analyze : string -> engine_result).
Context (n : nat) (out_dir : string) (pages_max : option Z) (force_rebuild : bool).
Hypothesis relative : engine_names_relative doc_analyze.

Let images_dir := os_path.join out_dir config.IMAGES_DIR_NAME.

Lemma step_creates requests i pdf_path pdf_id st :
  (pdf_path, pdf_id) ∈ requests ->
  touches (fun _ => True) (batch_creates out_dir requests) (disk st)
    (disk (process_request pdf_pages doc_analyze n out_dir images_dir pages_max force_rebuild
             i pdf_path pdf_id st)).
Proof.
  intros Hin.
  eapply touches_weaken; [| |apply (touches_process_request pdf_pages doc_analyze out_dir i
    pdf_path pdf_id (fun p => batch_creates out_dir requests p))]; auto.
  - intros pdf_bytes name data H. left. exists i.
    apply temp_image_in_temp. exact (relative _ _ _ H).
  - left. exists i. apply md_file_in_temp.
  - right. exists pdf_path, pdf_id. auto.
  - intros image_file Hs. right. exists pdf_path, pdf_id. split; [exact Hin |]. right.
    now exists image_file.
Qed.

Lemma loop_creates requests' requests i st :
  (forall r, r ∈ requests' -> r ∈ requests) ->
  touches (fun _ => True) (batch_creates out_dir requests) (disk st)
    (disk (process_requests pdf_pages doc_analyze n out_dir images_dir pages_max force_rebuild
             i requests' st)).
Proof.
  revert i st. induction requests' as [|[pdf id] requests' IH]; intros i st Hsub.
  - apply touches_refl.
  - cbn [process_requests]. eapply touches_trans.
    + apply step_creates, Hsub. left.
    + apply IH. intros r Hr. apply Hsub. now right.
Qed.

End Names.

Lemma prepare_output_creates out_dir force_rebuild fs r fs' out :
  prepare_output out_dir force_rebuild fs = (r, fs', out) ->
  forall p, is_Some (files fs' !! p) -> is_Some (files fs !! p).
Proof.
  unfold prepare_output.
  destruct (force_rebuild && os.path_exists fs out_dir).
  - intros H p Hp.
    assert (Hfiles : files fs' = files (shutil.rmtree out_dir fs).2).
    { revert H. unfold io_bind, os.makedirs.
      repeat match goal with |- context [if ?b then _ else _] => destruct b end;
        now intros [= _ <- _]. }
    rewrite Hfiles in Hp. destruct Hp as [v Hv].
    cbn in Hv. apply map_lookup_filter_Some in Hv as [Hv _]. eauto.
  - intros H p Hp.
    assert (Hfiles : files fs' = files fs).
    { revert H. unfold io_bind, os.makedirs.
      repeat match goal with |- context [if ?b then _ else _] => destruct b end;
        now intros [= _ <- _]. }
    now rewrite Hfiles in Hp.
Qed.

Section NamesTheorem.

Context (pdf_pages : string -> result nat) (doc_analyze : string -> engine_result).


End NamesTheorem.

(** ** Concrete runs *)

Lemma sample_names_relative : engine_names_relative Sample.doc_analyze.
Proof.
  intros pdf_bytes name data. unfold Sample.doc_analyze.
  repeat match goal with |- context [if ?b then _ else _] => destruct b end;
    cbn [engine_images]; intros H;
    repeat (apply elem_of_cons in H as [[= -> ->] | H]; [reflexivity |]);
    inversion H.
Qed.

Example sample_run :
  let r := Sample.convert ["/src/doc_A.pdf"; "/src/doc_B.pdf"; "/src/c.pdf"; "/src/d.pdf"]
             [5; 6; 7; 8]%Z "out" (Some 100%Z) false Sample.library in
  returned r = Return ["out/5_doc_A.md"] /\
  show_line <$> printed r =
    [ "================================================================================";
      "[1/4] Converting /src/doc_A.pdf (3 pages) to 5_doc_A.md...";
      "Successfully converted to out/5_doc_A.md";
      "================================================================================";
      "[2/4] Converting /src/doc_B.pdf (100 pages) to 6_doc_B.md...";
      "Error converting /src/doc_B.pdf: boom";
      "[3/4] Skipping /src/c.pdf (101 pages > 100 pages limit)";
      "Warning: Could not read page count for /src/d.pdf: EOF marker not found";
      "[4/4] Skipping /src/d.pdf (could not determine page count)";
      String (ascii_of_nat 10) "Conversion complete:";
      "  Successfully converted: 1 files";
      "  Skipped (too many pages): 2 files";
      "  Total output files: 1 files" ] /\
  files (final_disk r) =
    <["out/5_doc_A.md" := "# A ![](images/5_f1.jpg) ![](images/f2.webp)"]>
      (<["out/images/5_f1.jpg" := "JPG"]> (files Sample.library)).
Proof. vm_compute. repeat split. Qed.

(** ** The forced rebuild *)

Lemma under_subdir d name p :
  name <> "" -> os_path.has_sep name = false ->
  os.under (os_path.join d name) p = true -> os.under d p = true.
Proof.
  intros Hne Hs. unfold os.under. rewrite dir_prefix_join by assumption.
  intros H. apply prefix_split in H as [rest ->]. rewrite !append_assoc.
  apply prefix_app_self.
Qed.

Section ForceRebuild.

Context (pdf_pages : string -> result nat) (doc_analyze : string -> engine_result).

(** C10: with force_rebuild and an existing output directory, the whole
    tree of the output directory is deleted before the first request is
    processed: no file is left in it, whether in the shared images directory
    or a markdown file of an earlier batch; files outside it are kept. *)
Theorem force_rebuild_deletes_output_tree fullpath_list id_list out_dir pages_max fs :
  length id_list = length fullpath_list ->
  out_dir <> "" ->
  os.path_exists fs out_dir = true ->
  let images_dir := os_path.join out_dir config.IMAGES_DIR_NAME in
  exists fs1,
    prepare_output out_dir true fs = (Return images_dir, fs1, [ForceRebuildLine out_dir]) /\
    (forall p, os.in_tree out_dir p = true -> files fs1 !! p = None) /\
    (forall p, os.under images_dir p = true -> files fs1 !! p = None) /\
    (forall p, os.in_tree out_dir p = false -> files fs1 !! p = files fs !! p) /\
    convert_multiple_pdfs_to_md pdf_pages doc_analyze fullpath_list id_list out_dir
      pages_max true fs
    = let st := process_requests pdf_pages doc_analyze (length fullpath_list) out_dir
                  images_dir pages_max true 0 (zip fullpath_list id_list)
                  (State fs1 [] [] [] [ForceRebuildLine out_dir]) in
      Run (Return (generated_files st)) (disk st) (console st ++ summary pages_max st).
Proof.
  intros Hlen Hne Hex images_dir.
  assert (Hprep : exists fs1,
    prepare_output out_dir true fs = (Return images_dir, fs1, [ForceRebuildLine out_dir]) /\
    files fs1 = files (shutil.rmtree out_dir fs).2).
  { unfold prepare_output. cbn [andb]. rewrite Hex. unfold io_bind.
    rewrite makedirs_return by apply images_dir_nonempty.
    rewrite makedirs_return by assumption. eauto. }
  destruct Hprep as (fs1 & Hprep & Hfiles). exists fs1.
  assert (Hclear : forall p, os.in_tree out_dir p = true -> files fs1 !! p = None).
  { intros p Hp. rewrite Hfiles. now apply rmtree_clears. }
  split; [exact Hprep |]. split; [exact Hclear |]. split; [|split].
  - intros p Hp. apply Hclear, in_tree_under.
    destruct images_name_facts. eapply under_subdir; eauto.
  - intros p Hp. rewrite Hfiles. now apply rmtree_outside.
  - unfold convert_multiple_pdfs_to_md.
    destruct (Nat.eqb_spec (length id_list) (length fullpath_list)); [|congruence].
    cbn [negb]. now rewrite Hprep.
Qed.

(** C9: the import of [MINERU_CONFIG_DIR], a name [config.py] does not
    define (it defines [MINERU_DIR]), raises when the module is loaded:
    the script ends there, with the file system untouched and no request
    processed. *)
Theorem convert_pdf_files_import_fails metadata_pdf fs :
  config.attributes !! "MINERU_CONFIG_DIR" = None /\
  config.attributes !! "MINERU_DIR" = Some (config.Str config.MINERU_DIR) /\
  from_import "config" config.attributes convert_pdf_files_imports
  = Raise "cannot import name 'MINERU_CONFIG_DIR' from 'config'" /\
  convert_pdf_files_script pdf_pages doc_analyze metadata_pdf fs
  = Run (Raise "cannot import name 'MINERU_CONFIG_DIR' from 'config'") fs [].
Proof.
  assert (H : from_import "config" config.attributes convert_pdf_files_imports
              = Raise "cannot import name 'MINERU_CONFIG_DIR' from 'config'")
    by (vm_compute; reflexivity).
  split; [vm_compute; reflexivity |]. split; [vm_compute; reflexivity |].
  split; [exact H |]. unfold convert_pdf_files_script. now rewrite H.
Qed.

End ForceRebuild.

(** ** The page limit *)

(** The two skip messages never read the same. *)
Lemma skip_lines_differ i n pdf_path page_count pages_max :
  show_line (SkipUndeterminedLine i n pdf_path)
  <> show_line (SkipTooLargeLine i n pdf_path page_count pages_max).
Proof.
  cbn [show_line]. intros H.
  do 3 apply append_inv_head in H.
  destruct (str_int_head (Z.of_nat page_count)) as (c & s & Hc & Hd).
  unfold Py.str_nat in H. rewrite Hc in H. cbn [String.append] in H.
  injection H as <- _. discriminate Hd.
Qed.

Section PageLimit.

Context (pdf_pages : string -> result nat) (doc_analyze : string -> engine_result).
Context (n : nat) (out_dir images_dir : string) (force_rebuild : bool).
Context (i : nat) (pdf_path : string) (pdf_id : Z) (st : state).

Lemma probe_undetermined_count :
  probe_undetermined pdf_pages pdf_path st ->
  exists warning, get_pdf_page_count pdf_pages pdf_path (disk st) = (0%nat, warning).
Proof.
  unfold probe_undetermined, get_pdf_page_count, read_text.
  destruct (files (disk st) !! pdf_path) as [pdf_bytes |]; [|eauto].
  destruct (pdf_pages pdf_bytes) as [k | msg]; [intros -> |]; eauto.
Qed.

Lemma probe_counts_count page_count :
  probe_counts pdf_pages pdf_path st page_count ->
  get_pdf_page_count pdf_pages pdf_path (disk st) = (page_count, []).
Proof.
  intros (pdf_bytes & Hf & Hp). unfold get_pdf_page_count, read_text. now rewrite Hf, Hp.
Qed.

Lemma step_limit pages_max :
  not_already_done out_dir force_rebuild pdf_path pdf_id st ->
  process_request pdf_pages doc_analyze n out_dir images_dir (Some pages_max) force_rebuild
    i pdf_path pdf_id st
  = let (page_count, warning) := get_pdf_page_count pdf_pages pdf_path (disk st) in
    if (pages_max <? Z.of_nat page_count)%Z then
      skipped_with pdf_path st (warning ++ [SkipTooLargeLine i n pdf_path page_count pages_max])
    else if (page_count =? 0)%nat then
      skipped_with pdf_path st (warning ++ [SkipUndeterminedLine i n pdf_path])
    else
      convert_request doc_analyze out_dir images_dir i pdf_path pdf_id
        (print (warning ++ [BannerLine; ConvertingLine i n pdf_path (Some page_count)
                                          (output_name_of pdf_path pdf_id)]) st).
Proof.
  unfold not_already_done, process_request, final_md_path_of. now intros ->.
Qed.

(** C6, as amended: with a positive max_pages, a document of exactly
    max_pages pages goes to the conversion (its output is generated when the
    conversion raises nothing), and a document of max_pages + 1 pages is
    skipped as too large, without being converted. *)
Theorem page_limit_boundary (pages_max : Z) (page_count : nat) :
  not_already_done out_dir force_rebuild pdf_path pdf_id st ->
  probe_counts pdf_pages pdf_path st page_count ->
  (Z.of_nat page_count = pages_max -> (0 < pages_max)%Z ->
     let converting :=
       print [BannerLine; ConvertingLine i n pdf_path (Some page_count)
                            (output_name_of pdf_path pdf_id)] st in
     process_request pdf_pages doc_analyze n out_dir images_dir (Some pages_max) force_rebuild
       i pdf_path pdf_id st
     = convert_request doc_analyze out_dir images_dir i pdf_path pdf_id converting /\
     forall p fs',
       convert_and_relocate doc_analyze pdf_path out_dir images_dir
         (os_path.join out_dir (TEMP_DIR_PREFIX +:+ Py.str_nat i))
         (output_name_of pdf_path pdf_id) (Py.str_int pdf_id) (disk st) = (Return p, fs') ->
       generated_files (process_request pdf_pages doc_analyze n out_dir images_dir
                          (Some pages_max) force_rebuild i pdf_path pdf_id st)
       = generated_files st ++ [p]) /\
  (Z.of_nat page_count = (pages_max + 1)%Z ->
     process_request pdf_pages doc_analyze n out_dir images_dir (Some pages_max) force_rebuild
       i pdf_path pdf_id st
     = skipped_with pdf_path st [SkipTooLargeLine i n pdf_path page_count pages_max]).
Proof.
  intros Hnot Hprobe. rewrite (step_limit pages_max Hnot).
  rewrite (probe_counts_count page_count Hprobe). split.
  - intros Hc Hpos.
    destruct (Z.ltb_spec pages_max (Z.of_nat page_count)); [lia |].
    destruct (Nat.eqb_spec page_count 0); [lia |]. cbn [app].
    split; [reflexivity |]. intros p fs' Hconv.
    unfold convert_request. cbn [print disk]. now rewrite Hconv.
  - intros Hc. destruct (Z.ltb_spec pages_max (Z.of_nat page_count)); [reflexivity | lia].
Qed.

(** C3, as amended: with a max_pages that is not negative, a request whose
    probe fails or finds no page is skipped with the message "could not
    determine page count", and one whose page count exceeds max_pages with
    the message "pages > max_pages pages limit"; the two messages differ,
    and in both cases the request is not converted: the file system and the
    generated files are as before and the path joins [skipped_files]. *)
Theorem page_probe_skips (pages_max : Z) :
  not_already_done out_dir force_rebuild pdf_path pdf_id st ->
  (0 <= pages_max)%Z ->
  (probe_undetermined pdf_pages pdf_path st ->
     exists warning,
       process_request pdf_pages doc_analyze n out_dir images_dir (Some pages_max)
         force_rebuild i pdf_path pdf_id st
       = skipped_with pdf_path st (warning ++ [SkipUndeterminedLine i n pdf_path])) /\
  (forall page_count,
     probe_counts pdf_pages pdf_path st page_count -> (pages_max < Z.of_nat page_count)%Z ->
     process_request pdf_pages doc_analyze n out_dir images_dir (Some pages_max)
       force_rebuild i pdf_path pdf_id st
     = skipped_with pdf_path st [SkipTooLargeLine i n pdf_path page_count pages_max]) /\
  (forall page_count,
     show_line (SkipUndeterminedLine i n pdf_path)
     <> show_line (SkipTooLargeLine i n pdf_path page_count pages_max)).
Proof.
  intros Hnot Hmax. rewrite (step_limit pages_max Hnot). split; [|split].
  - intros Hu. destruct (probe_undetermined_count Hu) as [warning ->].
    exists warning. destruct (Z.ltb_spec pages_max (Z.of_nat 0)); [lia | reflexivity].
  - intros page_count Hp Hlt. rewrite (probe_counts_count page_count Hp).
    destruct (Z.ltb_spec pages_max (Z.of_nat page_count)); [reflexivity | lia].
  - intros page_count. apply skip_lines_differ.
Qed.

End PageLimit.

(** ** Failures *)

Section Failures.

Context (pdf_pages : string -> result nat) (doc_analyze : string -> engine_result).

(** Once the lengths match and the output directory has a name, the call
    returns: no exception of a request leaves the loop. *)
Lemma convert_multiple_returns fullpath_list id_list out_dir pages_max force_rebuild fs :
  length id_list = length fullpath_list -> out_dir <> "" ->
  exists gen,
    returned (convert_multiple_pdfs_to_md pdf_pages doc_analyze fullpath_list id_list out_dir
                pages_max force_rebuild fs) = Return gen.
Proof.
  intros Hlen Hne. unfold convert_multiple_pdfs_to_md.
  destruct (Nat.eqb_spec (length id_list) (length fullpath_list)); [|congruence].
  cbn [negb]. unfold prepare_output.
  destruct (if force_rebuild && _ then _ else _) as [fs1 out1].
  unfold io_bind. rewrite makedirs_return by apply images_dir_nonempty.
  rewrite makedirs_return by assumption. cbn [returned]. eauto.
Qed.


End Failures.

(** ** Concrete runs of the batch converter *)

(** A second run over a converted document: nothing is converted again. *)
Lemma rerun_resolves_existing_outputs_witness :
  let r1 := Sample.convert ["/src/doc_A.pdf"] [5%Z] "out" (Some 100%Z) false Sample.library in
  let r2 := Sample.convert ["/src/doc_A.pdf"] [5%Z] "out" (Some 100%Z) false (final_disk r1) in
  returned r1 = Return ["out/5_doc_A.md"] /\
  returned r2 = Return ["out/5_doc_A.md"] /\
  files (final_disk r2) = files (final_disk r1) /\
  conversions (printed r2) = 0%nat.
Proof.
  intros r1 r2.
  assert (H1 : returned r1 = Return ["out/5_doc_A.md"]) by (vm_compute; reflexivity).
  split; [exact H1 |].
  destruct (rerun_resolves_existing_outputs Sample.pdf_pages Sample.doc_analyze
              ["/src/doc_A.pdf"] [5%Z] "out" (Some 100%Z) false (Some 100%Z) Sample.library
              ["out/5_doc_A.md"] H1) as (fs2 & _ & _ & HB).
  destruct (HB eq_refl) as (Ha & Hb & Hc & _). auto.
Defined.

(** C1 fails where a request failed in the first run: the second run starts
    its conversion again. *)
Lemma rerun_retries_failed_request :
  let r1 := Sample.convert ["/src/doc_B.pdf"] [6%Z] "out" None false Sample.library in
  let r2 := Sample.convert ["/src/doc_B.pdf"] [6%Z] "out" None false (final_disk r1) in
  returned r1 = Return [] /\
  conversions (printed r2) = 1%nat /\
  show_line <$> printed r2 =
    [ "================================================================================";
      "[1/1] Converting /src/doc_B.pdf to 6_doc_B.md...";
      "Error converting /src/doc_B.pdf: boom";
      String (ascii_of_nat 10) "Conversion complete:";
      "  Successfully converted: 0 files";
      "  Total output files: 0 files" ].
Proof. vm_compute. repeat split. Qed.



(** Document D cannot be read by the page counter and is skipped as
    undetermined. *)
Lemma page_probe_skips_witness :
  (not_already_done "out" false "/src/d.pdf" 8 fresh /\ (0 <= 100)%Z /\
   probe_undetermined Sample.pdf_pages "/src/d.pdf" fresh) /\
  exists warning,
    process_request Sample.pdf_pages Sample.doc_analyze 1 "out" "out/images" (Some 100%Z) false
      0 "/src/d.pdf" 8 fresh
    = skipped_with "/src/d.pdf" fresh (warning ++ [SkipUndeterminedLine 0 1 "/src/d.pdf"]).
Proof.
  assert (H1 : not_already_done "out" false "/src/d.pdf" 8 fresh) by (vm_compute; reflexivity).
  assert (H2 : (0 <= 100)%Z) by lia.
  assert (H3 : probe_undetermined Sample.pdf_pages "/src/d.pdf" fresh) by (vm_compute; exact I).
  split; [auto |].
  destruct (page_probe_skips Sample.pdf_pages Sample.doc_analyze 1 "out" "out/images" false
              0 "/src/d.pdf" 8 fresh 100 H1 H2) as (Hu & _ & _).
  exact (Hu H3).
Defined.

(** C3 fails on the summary: a run with one undetermined skip and a run
    with one too-large skip end with the same summary, whose one line counts
    both kinds as "too many pages". *)
Lemma summary_merges_skip_categories :
  let undetermined := Sample.convert ["/src/d.pdf"] [8%Z] "out" (Some 100%Z) false Sample.library in
  let too_large := Sample.convert ["/src/c.pdf"] [7%Z] "out" (Some 100%Z) false Sample.library in
  count_lines is_undetermined (printed undetermined) = 1%nat /\
  count_lines is_too_large (printed undetermined) = 0%nat /\
  count_lines is_undetermined (printed too_large) = 0%nat /\
  count_lines is_too_large (printed too_large) = 1%nat /\
  List.filter is_summary (printed undetermined) = List.filter is_summary (printed too_large) /\
  show_line <$> List.filter is_summary (printed undetermined) =
    [ String (ascii_of_nat 10) "Conversion complete:";
      "  Successfully converted: 0 files";
      "  Skipped (too many pages): 1 files";
      "  Total output files: 0 files" ].
Proof. vm_compute. repeat split. Qed.

(** Document A has three pages: it is converted under a limit of three and
    skipped under a limit of two. *)
Lemma page_limit_boundary_witness :
  (not_already_done "out" false "/src/doc_A.pdf" 5 fresh /\
   probe_counts Sample.pdf_pages "/src/doc_A.pdf" fresh 3) /\
  generated_files
    (process_request Sample.pdf_pages Sample.doc_analyze 1 "out" "out/images" (Some 3%Z) false
       0 "/src/doc_A.pdf" 5 fresh) = ["out/5_doc_A.md"] /\
  process_request Sample.pdf_pages Sample.doc_analyze 1 "out" "out/images" (Some 2%Z) false
    0 "/src/doc_A.pdf" 5 fresh
  = skipped_with "/src/doc_A.pdf" fresh [SkipTooLargeLine 0 1 "/src/doc_A.pdf" 3 2].
Proof.
  assert (H1 : not_already_done "out" false "/src/doc_A.pdf" 5 fresh) by (vm_compute; reflexivity).
  assert (H2 : probe_counts Sample.pdf_pages "/src/doc_A.pdf" fresh 3)
    by (exists "A"; split; vm_compute; reflexivity).
  split; [auto |]. split.
  - destruct (page_limit_boundary Sample.pdf_pages Sample.doc_analyze 1 "out" "out/images" false
                0 "/src/doc_A.pdf" 5 fresh 3 3 H1 H2) as (Heq & _).
    destruct (Heq eq_refl ltac:(lia)) as (_ & Hgen).
    apply (Hgen "out/5_doc_A.md"
             (convert_and_relocate Sample.doc_analyze "/src/doc_A.pdf" "out" "out/images"
                "out/temp_0" "5_doc_A" "5" Sample.library).2).
    vm_compute. reflexivity.
  - destruct (page_limit_boundary Sample.pdf_pages Sample.doc_analyze 1 "out" "out/images" false
                0 "/src/doc_A.pdf" 5 fresh 2 3 H1 H2) as (_ & Hskip).
    exact (Hskip eq_refl).
Defined.

(** C6 fails for max_pages = 0: a document whose page count is exactly 0
    is not converted but skipped as undetermined. *)
Lemma page_limit_zero_is_not_converted :
  get_pdf_page_count Sample.pdf_pages "/src/e.pdf" Sample.library = (0%nat, []) /\
  process_request Sample.pdf_pages Sample.doc_analyze 1 "out" "out/images" (Some 0%Z) false
    0 "/src/e.pdf" 9 fresh
  = State Sample.library [] ["/src/e.pdf"] [] [SkipUndeterminedLine 0 1 "/src/e.pdf"] /\
  conversions
    (console (process_request Sample.pdf_pages Sample.doc_analyze 1 "out" "out/images"
                (Some 0%Z) false 0 "/src/e.pdf" 9 fresh)) = 0%nat.
Proof. vm_compute. repeat split. Qed.


(** A forced rebuild over the output directory of an earlier batch. *)
Lemma force_rebuild_deletes_output_tree_witness :
  (length [5%Z] = length ["/src/doc_A.pdf"] /\ "out" <> "" /\
   os.path_exists stale_library "out" = true) /\
  exists fs1,
    prepare_output "out" true stale_library
    = (Return "out/images", fs1, [ForceRebuildLine "out"]) /\
    files fs1 !! "out/1_old.md" = None /\
    files fs1 !! "out/images/1_fig.png" = None /\
    files fs1 !! "/src/doc_A.pdf" = Some "A".
Proof.
  assert (H1 : length [5%Z] = length ["/src/doc_A.pdf"]) by reflexivity.
  assert (H2 : "out" <> "") by discriminate.
  assert (H3 : os.path_exists stale_library "out" = true) by (vm_compute; reflexivity).
  split; [auto |].
  destruct (force_rebuild_deletes_output_tree Sample.pdf_pages Sample.doc_analyze
              ["/src/doc_A.pdf"] [5%Z] "out" None stale_library H1 H2 H3)
    as (fs1 & Hprep & Hclear & Himages & Hkeep & _).
  exists fs1. split; [exact Hprep |]. split; [|split].
  - apply Hclear. vm_compute. reflexivity.
  - apply Himages. vm_compute. reflexivity.
  - rewrite Hkeep by (vm_compute; reflexivity). vm_compute. reflexivity.
Defined.

(** ** Relocated images and rewritten references *)

Lemma write_images_spec d images fs :
  exists fs', write_images d images fs = (Return tt, fs') /\
    dirs fs' = dirs fs /\
    (forall p, is_Some (files fs !! p) -> is_Some (files fs' !! p)) /\
    (forall name data, (name, data) ∈ images -> is_Some (files fs' !! os_path.join d name)).
Proof.
  unfold write_images. revert fs.
  induction images as [|[name data] images IH]; intros fs; cbn [for_each].
  - exists fs. repeat split; auto. intros name data H. inversion H.
  - unfold io_bind at 1.
    change (writer_write d (name, data).1 (name, data).2 fs)
      with (Return tt, FileSystem (<[os_path.join d name := data]> (files fs)) (dirs fs)).
    cbv iota.
    destruct (IH (FileSystem (<[os_path.join d name := data]> (files fs)) (dirs fs)))
      as (fs' & -> & Hd & Hkeep & Hnew).
    exists fs'. split; [reflexivity |]. split; [exact Hd |]. split.
    + intros p Hp. apply Hkeep. cbn [files].
      destruct (decide (os_path.join d name = p)) as [<- | Hne].
      * rewrite lookup_insert_eq. eauto.
      * now rewrite lookup_insert_ne.
    + intros name' data' Hin. apply elem_of_cons in Hin as [[= -> ->] | Hin]; [|eauto].
      apply Hkeep. cbn [files]. rewrite lookup_insert_eq. eauto.
Qed.

Section Relocation.

Context (doc_analyze : string -> engine_result).
Context (out_dir : string) (i : nat) (pdf_path : string) (pdf_id : Z).

Let images_dir := os_path.join out_dir config.IMAGES_DIR_NAME.
Let temp_dir := os_path.join out_dir (TEMP_DIR_PREFIX +:+ Py.str_nat i).
Let temp_images_dir := os_path.join temp_dir config.IMAGES_DIR_NAME.
Let output_name := output_name_of pdf_path pdf_id.
Let final_md_path := final_md_path_of out_dir pdf_path pdf_id.
Let md_file := os_path.join temp_dir (output_name +:+ ".md").

Lemma convert_single_ok fs pdf_bytes md images :
  files fs !! pdf_path = Some pdf_bytes ->
  doc_analyze pdf_bytes = EngineOk md images ->
  exists fs1,
    convert_single_pdf_to_md doc_analyze pdf_path temp_dir (Some output_name) fs
    = (Return md_file, fs1) /\
    files fs1 !! md_file = Some md /\
    temp_images_dir ∈ dirs fs1 /\
    (forall name data, (name, data) ∈ images ->
       is_Some (files fs1 !! os_path.join temp_images_dir name)).
Proof.
  intros Hpdf Hengine. unfold convert_single_pdf_to_md, io_bind.
  change (os_path.join temp_dir config.IMAGES_DIR_NAME) with temp_images_dir.
  rewrite makedirs_return by apply images_dir_nonempty.
  rewrite makedirs_return.
  2:{ unfold temp_dir. rewrite join_no_sep by apply temp_name_facts.
      destruct (os_path.dir_prefix out_dir); discriminate. }
  unfold reader_read, read_text. cbn [files]. rewrite Hpdf, Hengine.
  match goal with |- context [write_images _ _ ?fs0] =>
    destruct (write_images_spec temp_images_dir images fs0) as (fs' & Hw & Hdirs & _ & Hnew)
  end.
  rewrite Hw.
  unfold writer_write, write_text, io_return. eexists. split; [reflexivity |].
  cbn [files dirs]. split; [apply lookup_insert_eq |]. split.
  - rewrite Hdirs. cbn [dirs]. clear. set_solver.
  - intros name data Hin.
    destruct (decide (os_path.join temp_dir (output_name +:+ ".md")
                      = os_path.join temp_images_dir name)) as [-> | Hne].
    + rewrite lookup_insert_eq. eauto.
    + rewrite lookup_insert_ne by assumption. eauto.
Qed.

Lemma relocated_not_in_temp image_file :
  os_path.has_sep image_file = false ->
  ~ in_temp_dir out_dir i (relocated_image out_dir pdf_id image_file).
Proof.
  intros Hs H. eapply temp_not_under_images; [exact H |].
  apply under_join, no_sep_not_abs, prefixed_image_no_sep, Hs.
Qed.

Lemma relocated_not_final image_file :
  os_path.has_sep image_file = false ->
  relocated_image out_dir pdf_id image_file <> final_md_path.
Proof.
  intros Hs E.
  pose proof (output_not_under_images out_dir pdf_path pdf_id) as H.
  fold final_md_path in H. rewrite <- E in H.
  unfold relocated_image in H.
  rewrite under_join in H; [discriminate |].
  apply no_sep_not_abs, prefixed_image_no_sep, Hs.
Qed.

Lemma temp_image_not_final image_file :
  os_path.has_sep image_file = false ->
  os_path.join temp_images_dir image_file <> final_md_path.
Proof.
  intros Hs E. apply (final_not_in_temp out_dir i pdf_path pdf_id).
  fold final_md_path. rewrite <- E.
  apply temp_image_in_temp, no_sep_not_abs, Hs.
Qed.

(** The loop over the listing, when it raises nothing. *)
Lemma relocate_loop_ok image_files : forall fs content fs',
  (forall name, name ∈ image_files -> os_path.has_sep name = false) ->
  files fs !! final_md_path = Some content ->
  for_each image_files
    (relocate_image images_dir temp_images_dir final_md_path (Py.str_int pdf_id)) fs
  = (Return tt, fs') ->
  files fs' !! final_md_path = Some (rewrite_references pdf_id image_files content) /\
  (forall name, name ∈ image_files -> has_image_extension name = true ->
     is_Some (files fs' !! relocated_image out_dir pdf_id name)) /\
  (forall p, ~ in_temp_dir out_dir i p -> is_Some (files fs !! p) -> is_Some (files fs' !! p)).
Proof.
  induction image_files as [|name image_files IH]; intros fs content fs' Hsep Hfinal Hrun.
  - cbn in Hrun. injection Hrun as <-. repeat split; auto. intros name H. inversion H.
  - cbn [for_each] in Hrun. unfold io_bind in Hrun.
    assert (Hn : os_path.has_sep name = false) by (apply Hsep; left).
    assert (Hk : forall p, ~ in_temp_dir out_dir i p -> is_Some (files fs !! p) ->
      is_Some (files (relocate_image images_dir temp_images_dir final_md_path
                        (Py.str_int pdf_id) name fs).2 !! p)).
    { intros p Hp Hs.
      destruct (footprint_relocate_image out_dir i pdf_path pdf_id (fun _ => True) I
                  (fun _ _ => I) name Hn fs) as (Hkeep & _).
      destruct (Hkeep p Hs); tauto. }
    destruct (relocate_image _ _ _ _ name fs) as [[[] | msg] fs1] eqn:Ebody; [|discriminate].
    cbn [snd] in Hk.
    assert (Hbody : files fs1 !! final_md_path
                    = Some (rewrite_references pdf_id [name] content) /\
                    (has_image_extension name = true ->
                     is_Some (files fs1 !! relocated_image out_dir pdf_id name)) /\
                    (forall p, ~ in_temp_dir out_dir i p -> is_Some (files fs !! p) ->
                               is_Some (files fs1 !! p))).
    {
      unfold relocate_image in Ebody. cbn [rewrite_references fold_left].
      destruct (has_image_extension name).
      - unfold io_bind, shutil.move in Ebody.
        destruct (files fs !! os_path.join temp_images_dir name) as [data |]; [|discriminate].
        unfold read_text in Ebody. cbn [files] in Ebody.
        change (os_path.join images_dir (Py.str_int pdf_id +:+ "_" +:+ name))
          with (relocated_image out_dir pdf_id name) in Ebody.
        rewrite lookup_insert_ne, lookup_delete_ne, Hfinal in Ebody
          by auto using relocated_not_final, temp_image_not_final.
        unfold write_text in Ebody. cbn [files dirs] in Ebody. injection Ebody as <-.
        cbn [files]. split; [apply lookup_insert_eq |]. split; [|exact Hk].
        intros _. rewrite lookup_insert_ne by (apply not_eq_sym, relocated_not_final, Hn).
        rewrite lookup_insert_eq. eauto.
      - injection Ebody as <-. split; [exact Hfinal |]. split; [discriminate | exact Hk]. }
    destruct Hbody as (Hf1 & Hdst & Hk1).
    destruct (IH fs1 _ fs' ltac:(intros; apply Hsep; now right) Hf1 Hrun) as (Hf & Hall & Hk2).
    split; [exact Hf |]. split.
    + intros name' Hin Hext. apply elem_of_cons in Hin as [-> | Hin]; [|now apply Hall].
      apply Hk2; [apply relocated_not_in_temp, Hn | now apply Hdst].
    + intros p Hp Hs. now apply Hk2, Hk1.
Qed.


End Relocation.



(** ** The order of the annotations *)

Section Ordering.

Context {label : Type}.
Implicit Types (rows : list (annotation label)) (idx : list nat).

Lemma filter_partition {A} (f : A -> bool) (l : list A) :
  List.filter f l ++ List.filter (fun x => negb (f x)) l ≡ₚ l.
Proof.
  induction l as [|x l IH]; [reflexivity |]. cbn [List.filter].
  destruct (f x); cbn [negb app].
  - now constructor.
  - rewrite <- Permutation_middle. now constructor.
Qed.

Lemma omap_lookup_seq {A} (pre l : list A) :
  omap (fun i => (pre ++ l) !! i) (seq (length pre) (length l)) = l.
Proof.
  revert pre. induction l as [|x l IH]; intros pre; [reflexivity |].
  cbn [length seq omap list_omap].
  rewrite (list_lookup_middle pre l x (length pre) eq_refl). f_equal.
  specialize (IH (pre ++ [x])). rewrite <- app_assoc, length_app in IH. cbn in IH.
  now replace (length pre + 1)%nat with (S (length pre)) in IH by lia.
Qed.

Lemma filter_has_label rows : Forall (fun row => has_label row = true) (List.filter has_label rows).
Proof.
  induction rows as [|row rows IH]; cbn [List.filter]; [constructor |].
  destruct (has_label row) eqn:E; [now constructor | exact IH].
Qed.

Lemma labels_lookup rows i :
  Forall (fun row => has_label row = true) rows ->
  omap page_label rows !! i = rows !! i ≫= page_label.
Proof.
  intros H. revert i. induction H as [|row rows Hrow _ IH]; intros i; [now destruct i |].
  unfold has_label in Hrow. cbn [omap list_omap].
  destruct (page_label row) as [l |] eqn:E; [|discriminate].
  destruct i as [|i]; cbn; [now rewrite E | apply IH].
Qed.

Lemma labels_length rows :
  Forall (fun row => has_label row = true) rows -> length (omap page_label rows) = length rows.
Proof.
  induction 1 as [|row rows Hrow _ IH]; [reflexivity |].
  unfold has_label in Hrow. cbn [omap list_omap].
  destruct (page_label row); [cbn; now rewrite IH | discriminate].
Qed.

Lemma labels_of_selection rows idx :
  Forall (fun row => has_label row = true) rows ->
  omap page_label (omap (fun i => rows !! i) idx)
  = omap (fun i => omap page_label rows !! i) idx.
Proof.
  intros H. induction idx as [|i idx IH]; [reflexivity |].
  cbn [omap list_omap]. rewrite (labels_lookup rows i H).
  destruct (rows !! i) as [row |] eqn:E; cbn [mbind option_bind].
  - pose proof (proj1 (Forall_forall _ _) H row (list_elem_of_lookup_2 _ _ _ E)) as Hrow.
    unfold has_label in Hrow.
    destruct (page_label row) as [l |] eqn:El; [|discriminate].
    cbn [omap list_omap mbind option_bind]. rewrite El. f_equal. exact IH.
  - exact IH.
Qed.

Context (label_le : relation label) (argsort : list label -> list nat).
Hypothesis argsort_ok : argsort_sorts label_le argsort.

(** The rows in the order in which they are rendered. *)
Lemma sort_values_spec rows :
  let labelled := List.filter has_label rows in
  let missing := List.filter (fun row => negb (has_label row)) rows in
  exists front,
    sort_values argsort rows = front ++ missing /\
    front ≡ₚ labelled /\
    Forall (fun row => has_label row = true) front /\
    Sorted label_le (omap page_label front) /\
    sort_values argsort rows ≡ₚ rows.
Proof.
  intros labelled missing.
  set (front := omap (fun i => labelled !! i) (argsort (omap page_label labelled))).
  pose proof (filter_has_label rows) as Hl. fold labelled in Hl.
  destruct (argsort_ok (omap page_label labelled)) as [Hperm Hsorted].
  assert (Hfront : front ≡ₚ labelled).
  { subst front. rewrite Hperm, labels_length by assumption.
    pose proof (omap_lookup_seq [] labelled) as E. cbn [app length] in E. now rewrite E. }
  exists front. split; [reflexivity |]. split; [exact Hfront |]. split; [|split].
  - now rewrite Hfront.
  - subst front. now rewrite labels_of_selection.
  - change (front ++ missing ≡ₚ rows). rewrite Hfront. apply filter_partition.
Qed.

End Ordering.

(** ** The sample annotations *)

Lemma before_total values : Total (Pages.before values).
Proof.
  intros i j. unfold Pages.before, Pages.before_b.
  destruct (Z.ltb_spec (Pages.key values i) (Pages.key values j)); [now left |].
  destruct (Z.ltb_spec (Pages.key values j) (Pages.key values i)); [now right |].
  replace (Pages.key values j) with (Pages.key values i) by lia. rewrite Z.eqb_refl. cbn.
  destruct (Nat.leb_spec j i); [now left | right].
  destruct (Nat.leb_spec i j); [reflexivity | lia].
Qed.

Lemma before_le values i j :
  Pages.before values i j -> (Pages.key values i <= Pages.key values j)%Z.
Proof.
  unfold Pages.before, Pages.before_b. intros H. apply orb_true_iff in H as [H | H].
  - apply Z.ltb_lt in H. lia.
  - apply andb_true_iff in H as [H _]. apply Z.eqb_eq in H. lia.
Qed.

Lemma argsort_ties_reversed_sorts : argsort_sorts Z.le Pages.argsort_ties_reversed.
Proof.
  intros values. unfold Pages.argsort_ties_reversed.
  pose proof (merge_sort_Permutation (Pages.before values) (seq 0 (length values))) as Hperm.
  split; [exact Hperm |].
  pose proof (@Sorted_merge_sort _ (Pages.before values) _ (before_total values)
                (seq 0 (length values))) as Hsorted.
  assert (Hin : Forall (fun i => (i < length values)%nat)
                  (merge_sort (Pages.before values) (seq 0 (length values)))).
  { rewrite Hperm. apply Forall_forall. intros i Hi. apply elem_of_seq in Hi. lia. }
  revert Hsorted Hin. generalize (merge_sort (Pages.before values) (seq 0 (length values))).
  intros idx Hsorted Hin.
  assert (E : omap (fun i => values !! i) idx = Pages.key values <$> idx).
  { induction Hin as [|i idx Hi _ IH]; [reflexivity |].
    cbn [omap list_omap fmap list_fmap]. unfold Pages.key at 1.
    destruct (lookup_lt_is_Some_2 values i Hi) as [v ->]. cbn. f_equal.
    apply IH. now inversion Hsorted. }
  rewrite E. eapply Sorted_fmap; [|exact Hsorted]. apply before_le.
Qed.

Example sample_markdown :
  render_markdown Z.eqb Py.str_int 42 Pages.r0
    (sort_values Pages.argsort_ties_reversed Pages.rows)
  = Return (Py.concat
      [ "# A paper"; nl; nl;
        "**Attachment ID:** 42  "; nl;
        "**Paper ID:** 7  "; nl;
        "**File Path:** storage:paper.pdf  "; nl; nl;
        "---"; nl; nl;
        "## Page 1"; nl; nl;
        "### Highlight `#ffd400`"; nl; nl; "**Text:** second on page one"; nl; nl; "---"; nl; nl;
        "### Highlight `#ffd400`"; nl; nl; "**Text:** first on page one"; nl; nl; "---"; nl; nl;
        nl; "## Page 3"; nl; nl;
        "### Highlight `#ffd400`"; nl; nl; "**Text:** on page three"; nl; nl; "---"; nl; nl;
        nl; "## Page nan"; nl; nl;
        "### Highlight `#ffd400`"; nl; nl; "**Text:** without page"; nl; nl; "---"; nl; nl ]).
Proof. vm_compute. reflexivity. Qed.

Lemma sorted_three (front : list (annotation Z)) :
  front ≡ₚ [Pages.r0; Pages.r1; Pages.r3] ->
  Sorted Z.le (omap page_label front) ->
  front = [Pages.r1; Pages.r3; Pages.r0] \/ front = [Pages.r3; Pages.r1; Pages.r0].
Proof.
  intros Hperm Hsorted. symmetry in Hperm. apply permutations_Permutation in Hperm.
  vm_compute in Hperm.
  repeat (apply elem_of_cons in Hperm as [-> | Hperm]); try (now inversion Hperm).
  all: try (left; reflexivity).
  all: try (right; reflexivity).
  all: exfalso; cbv [omap list_omap page_label] in Hsorted;
    repeat match goal with
    | H : Sorted _ (_ :: _) |- _ => inversion H; clear H; subst
    | H : HdRel _ _ (_ :: _) |- _ => inversion H; clear H; subst
    end; lia.
Qed.




(** ** Attachments without annotations *)

Section NoAnnotations.

Context {label : Type}.
Context (label_eqb : label -> label -> bool) (str_label : label -> string).
Context (argsort : list label -> list nat) (parse_csv : string -> list (annotation label)).

(** Every attachment id of the batch comes from a row. *)
Lemma sorted_attachment_ids_have_rows (annot : list (annotation label)) id :
  id ∈ sorted_attachment_ids annot -> query_attachment annot id <> [].
Proof.
  unfold sorted_attachment_ids. rewrite merge_sort_Permutation, elem_of_remove_dups.
  intros H. apply list_elem_of_fmap in H as (row & -> & Hin).
  unfold query_attachment. intros E.
  assert (Hrow : In row (List.filter (fun r => (attachment_id r =? attachment_id row)%Z) annot)).
  { apply List.filter_In. split; [now apply list_elem_of_In | apply Z.eqb_refl]. }
  rewrite E in Hrow. destruct Hrow.
Qed.


End NoAnnotations.



(** ** Names that cannot collide *)

Lemma length_append s t :
  String.length (s +:+ t) = (String.length s + String.length t)%nat.
Proof. induction s as [|c s IH]; cbn; [reflexivity | now rewrite IH]. Qed.

Lemma append_inv_tail s t u : s +:+ u = t +:+ u -> s = t.
Proof.
  revert t. induction s as [|c s IH]; intros [|d t] H; cbn in H.
  - reflexivity.
  - exfalso. apply (f_equal String.length) in H. cbn in H.
    rewrite length_append in H. lia.
  - exfalso. apply (f_equal String.length) in H. cbn in H.
    rewrite length_append in H. lia.
  - injection H as -> H. f_equal. now apply IH.
Qed.

(** Two strings cut at the first occurrence of a character. *)
Lemma split_at_char c s1 t1 s2 t2 :
  Py.contains_char c s1 = false -> Py.contains_char c s2 = false ->
  s1 +:+ String c t1 = s2 +:+ String c t2 -> s1 = s2 /\ t1 = t2.
Proof.
  revert s2. induction s1 as [|a s1 IH]; intros [|b s2] H1 H2 H; cbn in H.
  - injection H as ->. auto.
  - injection H as <- _. cbn [Py.contains_char] in H2. unfold Py.ascii_eqb in H2.
    rewrite Ascii.eqb_refl in H2. discriminate.
  - injection H as -> _. cbn [Py.contains_char] in H1. unfold Py.ascii_eqb in H1.
    rewrite Ascii.eqb_refl in H1. discriminate.
  - injection H as -> H. cbn [Py.contains_char] in H1, H2.
    apply orb_false_iff in H1 as [_ H1]. apply orb_false_iff in H2 as [_ H2].
    destruct (IH _ H1 H2 H) as [-> ->]. auto.
Qed.

Lemma uint_chars (u : Decimal.uint) c :
  Py.contains_char c (NilEmpty.string_of_uint u) = true -> sign_or_digit c = true.
Proof.
  induction u; cbn [NilEmpty.string_of_uint Py.contains_char]; intros H;
    try discriminate;
    (apply orb_true_iff in H as [H|H]; [|now apply IHu]);
    unfold Py.ascii_eqb in H; apply Ascii.eqb_eq in H; subst c; reflexivity.
Qed.

(** [str(n)] holds digits and a sign, nothing else. *)
Lemma str_int_chars z c :
  Py.contains_char c (Py.str_int z) = true -> sign_or_digit c = true.
Proof.
  unfold Py.str_int, NilZero.string_of_int, NilZero.string_of_uint.
  assert (Hu : forall u, Py.contains_char c
                 match u with Decimal.Nil => "0" | _ => NilEmpty.string_of_uint u end = true ->
               sign_or_digit c = true).
  { intros u H. destruct u; try exact (uint_chars _ c H).
    cbn [Py.contains_char] in H. apply orb_true_iff in H as [H|H]; [|discriminate].
    unfold Py.ascii_eqb in H. apply Ascii.eqb_eq in H. subst c. reflexivity. }
  destruct (Z.to_int z) as [u|u]; [exact (Hu u)|].
  cbn [Py.contains_char]. intros H. apply orb_true_iff in H as [H|H]; [|exact (Hu u H)].
  unfold Py.ascii_eqb in H. apply Ascii.eqb_eq in H. subst c. reflexivity.
Qed.

Lemma str_int_without c z : sign_or_digit c = false -> Py.contains_char c (Py.str_int z) = false.
Proof.
  intros Hc. destruct (Py.contains_char c (Py.str_int z)) eqn:H; [|reflexivity].
  apply str_int_chars in H. congruence.
Qed.

(** [str] is injective on the integers. *)
Lemma str_int_inj a b : Py.str_int a = Py.str_int b -> a = b.
Proof.
  unfold Py.str_int. intros H. apply to_int_inj.
  assert (Hn : forall z, Z.to_int z <> Decimal.Pos Decimal.Nil /\
                         Z.to_int z <> Decimal.Neg Decimal.Nil).
  { intros [|p|p]; cbn; split; try discriminate; intros E; injection E as E;
      now apply Unsigned.to_uint_nonnil in E. }
  apply (f_equal NilZero.int_of_string) in H.
  rewrite !NilZero.isi in H by apply Hn. now injection H.
Qed.

Lemma prefixed_not_abs pdf_id s : Py.startswith "/" (Py.str_int pdf_id +:+ s) = false.
Proof.
  destruct (str_int_head pdf_id) as (c & rest & -> & Hc). cbn.
  destruct c as [[] [] [] [] [] [] [] []]; try discriminate; reflexivity.
Qed.

(** The identifier and the rest of a prefixed name can be read back. *)
Lemma prefixed_inj id1 s1 id2 s2 :
  Py.str_int id1 +:+ "_" +:+ s1 = Py.str_int id2 +:+ "_" +:+ s2 -> id1 = id2 /\ s1 = s2.
Proof.
  intros H. change ("_" +:+ s1) with (String "_" s1) in H.
  change ("_" +:+ s2) with (String "_" s2) in H.
  apply split_at_char in H as [H ->]; try (now apply str_int_without).
  split; [now apply str_int_inj | reflexivity].
Qed.

(** X1: two requests get the same output markdown path exactly when they
    have the same identifier and the same file name without extension: the
    identifier in front of the name is read back without ambiguity, since
    [str(pdf_id)] holds no underscore. *)
Theorem output_paths_collide_only_for_same_id_and_stem out_dir pdf_path1 pdf_id1
    pdf_path2 pdf_id2 :
  final_md_path_of out_dir pdf_path1 pdf_id1 = final_md_path_of out_dir pdf_path2 pdf_id2
  <-> pdf_id1 = pdf_id2 /\
      (os_path.splitext (os_path.basename pdf_path1)).1
      = (os_path.splitext (os_path.basename pdf_path2)).1.
Proof.
  split.
  - unfold final_md_path_of, output_name_of. intros H.
    rewrite !append_assoc in H.
    rewrite !join_relative in H by apply prefixed_not_abs.
    apply append_inv_head in H. rewrite <- !append_assoc in H.
    apply append_inv_tail in H. rewrite !append_assoc in H. now apply prefixed_inj in H.
  - intros [-> H]. unfold final_md_path_of, output_name_of. now rewrite H.
Qed.

(** X2: in the shared images directory, the relocated images of two
    requests have the same path only for the same identifier and the same
    image file name: images of requests with different identifiers never
    overwrite one another. *)
Theorem relocated_images_collide_only_for_same_id_and_name out_dir pdf_id1 image_file1
    pdf_id2 image_file2 :
  os_path.join (os_path.join out_dir config.IMAGES_DIR_NAME)
    (Py.str_int pdf_id1 +:+ "_" +:+ image_file1)
  = os_path.join (os_path.join out_dir config.IMAGES_DIR_NAME)
      (Py.str_int pdf_id2 +:+ "_" +:+ image_file2)
  <-> pdf_id1 = pdf_id2 /\ image_file1 = image_file2.
Proof.
  split.
  - intros H.
    rewrite (join_relative _ (Py.str_int pdf_id1 +:+ _)),
      (join_relative _ (Py.str_int pdf_id2 +:+ _)) in H by apply prefixed_not_abs.
    apply append_inv_head in H. now apply prefixed_inj in H.
  - now intros [-> ->].
Qed.

(** ** The directory helpers and the conversion of one document *)

Lemma join_nonempty d name : name <> "" -> os_path.join d name <> "".
Proof.
  intros Hne. unfold os_path.join. destruct (Py.startswith "/" name); [assumption|].
  unfold os_path.dir_prefix. destruct (String.eqb_spec d "") as [->|Hd]; cbn [orb].
  - cbn. assumption.
  - destruct (Py.endswith "/" d); destruct d; cbn; congruence.
Qed.

Lemma makedirs_twice p fs : os.makedirs p (os.makedirs p fs).2 = os.makedirs p fs.
Proof.
  unfold os.makedirs. destruct (String.eqb p ""); cbn [snd]; [reflexivity|].
  cbn [files dirs].
  apply (f_equal (fun d => (Return tt, FileSystem (files fs) d))).
  apply set_eq. intros x. rewrite !elem_of_union. tauto.
Qed.

(** What [write_images] creates. *)
Lemma write_images_created d images fs p :
  is_Some (files (write_images d images fs).2 !! p) ->
  is_Some (files fs !! p) \/
  exists name data, (name, data) ∈ images /\ p = os_path.join d name.
Proof.
  revert fs. induction images as [|[name data] images IH]; intros fs H.
  - left. exact H.
  - unfold write_images in *. cbn [for_each] in H. unfold io_bind in H.
    cbn [writer_write write_text fst snd] in H.
    apply IH in H as [H|(name' & data' & Hin & ->)].
    + cbn [files] in H. destruct (decide (p = os_path.join d name)) as [->|Hne].
      * right. exists name, data. split; [left|reflexivity].
      * rewrite lookup_insert_ne in H by congruence. now left.
    + right. exists name', data'. split; [now right|reflexivity].
Qed.

Section Single.

Context (doc_analyze : string -> engine_result).


(** X4: when the source file cannot be read, [convert_single_pdf_to_md]
    raises the reader's [FileNotFoundError], but only after it has made the
    output directory and its images directory: both exist afterwards, and no
    file was written. *)
Theorem missing_source_raises_after_directories pdf_path output_dir output_name fs :
  output_dir <> "" ->
  files fs !! pdf_path = None ->
  exists fs',
    convert_single_pdf_to_md doc_analyze pdf_path output_dir output_name fs
    = (Raise (file_not_found pdf_path), fs') /\
    files fs' = files fs /\
    output_dir ∈ dirs fs' /\
    os_path.join output_dir config.IMAGES_DIR_NAME ∈ dirs fs' /\
    dirs fs ⊆ dirs fs'.
Proof.
  intros Hout Hmissing. unfold convert_single_pdf_to_md, io_bind.
  rewrite makedirs_return by (apply join_nonempty; discriminate).
  rewrite makedirs_return by assumption.
  unfold reader_read, read_text. cbn [files]. rewrite Hmissing.
  eexists. split; [reflexivity|]. cbn [files dirs]. repeat split.
  - rewrite !elem_of_union, !elem_of_singleton. auto.
  - rewrite !elem_of_union, !elem_of_singleton. auto.
  - intros p Hp. rewrite !elem_of_union. auto.
Qed.

(** X5: without an output name, [convert_single_pdf_to_md] names the
    markdown after the source file: it returns
    [output_dir/{name of the PDF without extension}.md], that file holds the
    engine's markdown, no file is deleted, and the only other files that
    appear are the engine's images below [output_dir/images]. *)
Theorem single_conversion_names_markdown_after_source pdf_path output_dir fs pdf_bytes
    md images :
  output_dir <> "" ->
  files fs !! pdf_path = Some pdf_bytes ->
  doc_analyze pdf_bytes = EngineOk md images ->
  let md_path :=
    os_path.join output_dir ((os_path.splitext (os_path.basename pdf_path)).1 +:+ ".md") in
  exists fs',
    convert_single_pdf_to_md doc_analyze pdf_path output_dir None fs = (Return md_path, fs') /\
    files fs' !! md_path = Some md /\
    (forall p, is_Some (files fs !! p) -> is_Some (files fs' !! p)) /\
    (forall p, is_Some (files fs' !! p) ->
       is_Some (files fs !! p) \/ p = md_path \/
       exists name data, (name, data) ∈ images /\
         p = os_path.join (os_path.join output_dir config.IMAGES_DIR_NAME) name).
Proof.
  intros Hout Hfile Hengine md_path. unfold convert_single_pdf_to_md, io_bind.
  rewrite makedirs_return by (apply join_nonempty; discriminate).
  rewrite makedirs_return by assumption.
  unfold reader_read, read_text. cbn [files]. rewrite Hfile, Hengine.
  match goal with |- context [write_images ?d images ?fs0] =>
    destruct (write_images_spec d images fs0) as (fs1 & Hw & _ & Hkeep & _);
    pose proof (write_images_created d images fs0) as Hcreated
  end.
  rewrite Hw in *. cbn [snd] in Hcreated. unfold writer_write, write_text, io_return.
  eexists. split; [reflexivity|]. cbn [files]. fold md_path.
  split; [apply lookup_insert_eq|]. split.
  - intros p Hp. destruct (decide (p = md_path)) as [->|Hne].
    + rewrite lookup_insert_eq. eauto.
    + rewrite lookup_insert_ne by congruence. apply Hkeep. exact Hp.
  - intros p Hp. destruct (decide (p = md_path)) as [->|Hne]; [auto|].
    rewrite lookup_insert_ne in Hp by congruence.
    apply Hcreated in Hp as [Hp|Hp]; [left; exact Hp | right; right; exact Hp].
Qed.

End Single.

Lemma missing_source_raises_after_directories_witness :
  ("out" <> "" /\ files Sample.library !! "/src/none.pdf" = None) /\
  exists fs',
    convert_single_pdf_to_md Sample.doc_analyze "/src/none.pdf" "out" None Sample.library
    = (Raise (file_not_found "/src/none.pdf"), fs') /\
    files fs' = files Sample.library /\
    "out" ∈ dirs fs'.
Proof.
  split; [split; [discriminate | reflexivity]|].
  destruct (missing_source_raises_after_directories Sample.doc_analyze "/src/none.pdf" "out"
              None Sample.library ltac:(discriminate) eq_refl)
    as (fs' & Hrun & Hfiles & Hout & _).
  exists fs'. auto.
Defined.

Lemma single_conversion_names_markdown_after_source_witness :
  ("out" <> "" /\
   files Sample.library !! "/src/doc_A.pdf" = Some "A" /\
   Sample.doc_analyze "A"
   = EngineOk "# A ![](images/f1.jpg) ![](images/f2.webp)"
       [("f1.jpg", "JPG"); ("f2.webp", "WEBP")]) /\
  exists fs',
    convert_single_pdf_to_md Sample.doc_analyze "/src/doc_A.pdf" "out" None Sample.library
    = (Return (os_path.join "out" ((os_path.splitext (os_path.basename "/src/doc_A.pdf")).1
                                   +:+ ".md")), fs') /\
    os_path.join "out" ((os_path.splitext (os_path.basename "/src/doc_A.pdf")).1 +:+ ".md")
    = "out/doc_A.md".
Proof.
  split; [split; [discriminate | split; reflexivity]|].
  destruct (single_conversion_names_markdown_after_source Sample.doc_analyze "/src/doc_A.pdf"
              "out" Sample.library "A" "# A ![](images/f1.jpg) ![](images/f2.webp)"
              [("f1.jpg", "JPG"); ("f2.webp", "WEBP")] ltac:(discriminate) eq_refl eq_refl)
    as (fs' & Hrun & _).
  exists fs'. split; [exact Hrun | reflexivity].
Defined.

(** ** What the batch leaves alone *)

Section Outside.

Context (T : string -> bool).

Lemma unchanged_refl fs : unchanged_outside T fs fs.
Proof. split; auto. Qed.

Lemma unchanged_trans fs1 fs2 fs3 :
  unchanged_outside T fs1 fs2 -> unchanged_outside T fs2 fs3 -> unchanged_outside T fs1 fs3.
Proof.
  intros [Hf Hd] [Hf' Hd']. split; intros p Hp.
  - now rewrite Hf', Hf.
  - auto.
Qed.

Lemma leaves_return {A} (a : A) : leaves_outside T (io_return a).
Proof. intros fs. apply unchanged_refl. Qed.

Lemma leaves_raise {A} msg : leaves_outside T (@io_raise A msg).
Proof. intros fs. apply unchanged_refl. Qed.

Lemma leaves_bind {A B} (m : io A) (k : A -> io B) :
  leaves_outside T m ->
  (forall fs a, (m fs).1 = Return a -> leaves_outside T (k a)) ->
  leaves_outside T (io_bind m k).
Proof.
  intros Hm Hk fs. unfold io_bind.
  specialize (Hm fs). specialize (Hk fs).
  destruct (m fs) as [[a | msg] fs1]; [|exact Hm].
  eapply unchanged_trans; [exact Hm | apply (Hk a eq_refl)].
Qed.

Lemma leaves_for_each {A} (l : list A) (body : A -> io unit) :
  (forall x, x ∈ l -> leaves_outside T (body x)) -> leaves_outside T (for_each l body).
Proof.
  induction l as [|x l IH]; intros H; cbn [for_each].
  - apply leaves_return.
  - apply leaves_bind.
    + apply H. left.
    + intros _ _ _. apply IH. intros y Hy. apply H. now right.
Qed.

Lemma leaves_makedirs p : leaves_outside T (os.makedirs p).
Proof.
  intros fs. unfold os.makedirs. destruct (String.eqb p ""); [apply unchanged_refl |].
  split; cbn; auto. intros q _ Hq. rewrite !elem_of_union. auto.
Qed.

Lemma leaves_read_text p : leaves_outside T (read_text p).
Proof.
  intros fs. unfold read_text. destruct (files fs !! p); apply unchanged_refl.
Qed.

Lemma leaves_listdir d : leaves_outside T (os.listdir d).
Proof. intros fs. apply unchanged_refl. Qed.

Lemma leaves_write_text p data : T p = true -> leaves_outside T (write_text p data).
Proof.
  intros HT fs. split; cbn; auto. intros q Hq.
  apply lookup_insert_ne. congruence.
Qed.

Lemma leaves_move src dst :
  T src = true -> T dst = true -> leaves_outside T (shutil.move src dst).
Proof.
  intros Hs Hd fs. unfold shutil.move.
  destruct (files fs !! src) as [data |]; [|apply unchanged_refl].
  split; cbn; auto. intros q Hq.
  rewrite lookup_insert_ne, lookup_delete_ne; congruence.
Qed.

Lemma leaves_rmtree d :
  (forall p, os.in_tree d p = true -> T p = true) -> leaves_outside T (shutil.rmtree d).
Proof.
  intros HT fs.
  assert (Hout : forall q, T q = false -> os.in_tree d q = false).
  { intros q Hq. destruct (os.in_tree d q) eqn:E; [|reflexivity].
    apply HT in E. congruence. }
  split; intros q Hq.
  - apply rmtree_outside. auto.
  - intros Hin. cbn. apply elem_of_filter. auto.
Qed.

End Outside.

Section KeepsDirs.

Lemma keeps_return {A} (a : A) : keeps_dirs (io_return a).
Proof. intros fs p H. exact H. Qed.

Lemma keeps_raise {A} msg : keeps_dirs (@io_raise A msg).
Proof. intros fs p H. exact H. Qed.

Lemma keeps_bind {A B} (m : io A) (k : A -> io B) :
  keeps_dirs m -> (forall a, keeps_dirs (k a)) -> keeps_dirs (io_bind m k).
Proof.
  intros Hm Hk fs p Hp. unfold io_bind. specialize (Hm fs p Hp).
  destruct (m fs) as [[a | msg] fs1]; [|exact Hm]. now apply Hk.
Qed.

Lemma keeps_for_each {A} (l : list A) (body : A -> io unit) :
  (forall x, keeps_dirs (body x)) -> keeps_dirs (for_each l body).
Proof.
  intros H. induction l as [|x l IH]; cbn [for_each].
  - apply keeps_return.
  - apply keeps_bind; [apply H | intros _; exact IH].
Qed.

Lemma keeps_makedirs p : keeps_dirs (os.makedirs p).
Proof.
  intros fs q Hq. unfold os.makedirs. destruct (String.eqb p ""); [exact Hq|].
  cbn. rewrite !elem_of_union. auto.
Qed.

Lemma keeps_read_text p : keeps_dirs (read_text p).
Proof. intros fs q Hq. unfold read_text. now destruct (files fs !! p). Qed.

Lemma keeps_write_text p data : keeps_dirs (write_text p data).
Proof. intros fs q Hq. exact Hq. Qed.

Lemma keeps_move src dst : keeps_dirs (shutil.move src dst).
Proof. intros fs q Hq. unfold shutil.move. now destruct (files fs !! src). Qed.

Lemma keeps_listdir d : keeps_dirs (os.listdir d).
Proof. intros fs q Hq. exact Hq. Qed.

End KeepsDirs.

(** What lies in the tree of a directory below [d] lies in the tree of [d]. *)
Lemma in_tree_nested d sub p :
  os.under d sub = true -> os.in_tree sub p = true -> os.in_tree d p = true.
Proof.
  unfold os.in_tree, os.under. intros Hsub Hp.
  apply orb_true_iff. right.
  apply orb_true_iff in Hp as [Hp|Hp].
  - apply String.eqb_eq in Hp. now subst p.
  - apply prefix_split in Hsub as [y ->]. apply prefix_split in Hp as [rest ->].
    unfold os_path.dir_prefix at 2.
    destruct (_ || _); rewrite ?append_assoc; apply prefix_app_self.
Qed.

(** ** The batch works inside its output directory *)

Section Inside.

Context (pdf_pages : string -> result nat) (doc_analyze : string -> engine_result).
Context (out_dir : string).

Let images_dir := os_path.join out_dir config.IMAGES_DIR_NAME.

#[local] Abbreviation temp_dir_of i := (os_path.join out_dir (TEMP_DIR_PREFIX +:+ Py.str_nat i)).
#[local] Abbreviation inside := (os.in_tree out_dir).

Lemma temp_tree_inside i p : os.in_tree (temp_dir_of i) p = true -> inside p = true.
Proof.
  apply in_tree_nested, under_join, no_sep_not_abs, temp_name_facts.
Qed.

Lemma final_inside pdf_path pdf_id : inside (final_md_path_of out_dir pdf_path pdf_id) = true.
Proof. apply in_tree_under, under_join, no_sep_not_abs, output_name_no_sep. Qed.

Lemma relocated_inside pdf_id image_file :
  inside (os_path.join images_dir (Py.str_int pdf_id +:+ "_" +:+ image_file)) = true.
Proof.
  destruct images_name_facts.
  apply in_tree_under, under_join_join; auto using prefixed_not_abs.
Qed.

Lemma leaves_write_images i (images : list (string * string)) :
  (forall name data, (name, data) ∈ images -> os_path.isabs name = false) ->
  leaves_outside inside
    (write_images (os_path.join (temp_dir_of i) config.IMAGES_DIR_NAME) images).
Proof.
  intros H. apply leaves_for_each. intros [name data] Hin.
  apply leaves_write_text, (temp_tree_inside i), temp_image_in_temp, (H name data Hin).
Qed.

Lemma keeps_write_images d (images : list (string * string)) :
  keeps_dirs (write_images d images).
Proof. apply keeps_for_each. intros x. apply keeps_write_text. Qed.

Lemma convert_single_returns i pdf_path output_name fs md fs' :
  convert_single_pdf_to_md doc_analyze pdf_path (temp_dir_of i) (Some output_name) fs
  = (Return md, fs') ->
  md = os_path.join (temp_dir_of i) (output_name +:+ ".md").
Proof.
  unfold convert_single_pdf_to_md, io_bind. intros H.
  repeat match type of H with
  | context [match ?x with _ => _ end] => destruct x; try discriminate H
  end.
  cbn in H. now injection H as <-.
Qed.

Lemma keeps_relocate_images a b c d : keeps_dirs (relocate_images a b c d).
Proof.
  intros fs p Hp. unfold relocate_images.
  destruct (os.path_exists fs b); [|exact Hp].
  revert fs p Hp. apply keeps_bind; [apply keeps_listdir|]. intros l.
  apply keeps_for_each. intros x. unfold relocate_image.
  destruct (has_image_extension x); [|apply keeps_return].
  apply keeps_bind; [apply keeps_move|intros _].
  apply keeps_bind; [apply keeps_read_text|intros content]. apply keeps_write_text.
Qed.

(** The temporary directory is there when the [try] block is left. *)
Lemma temp_dir_made i pdf_path output_name image_prefix fs :
  temp_dir_of i ∈ dirs (convert_and_relocate doc_analyze pdf_path out_dir images_dir
                          (temp_dir_of i) output_name image_prefix fs).2.
Proof.
  unfold convert_and_relocate.
  assert (Hsingle : forall fs0,
    temp_dir_of i ∈ dirs (convert_single_pdf_to_md doc_analyze pdf_path (temp_dir_of i)
                            (Some output_name) fs0).2).
  { intros fs0. unfold convert_single_pdf_to_md. unfold io_bind at 1.
    rewrite makedirs_return by (apply join_nonempty; discriminate).
    unfold io_bind at 1.
    rewrite makedirs_return by (apply join_nonempty, temp_name_facts).
    cbn [snd].
    match goal with |- _ ∈ dirs (?m ?fs2).2 => assert (Hk : keeps_dirs m) end.
    { apply keeps_bind; [apply keeps_read_text|intros pdf_bytes].
      destruct (doc_analyze pdf_bytes).
      - apply keeps_bind; [apply keeps_write_images|intros _].
        apply keeps_bind; [apply keeps_write_text|intros _]. apply keeps_return.
      - apply keeps_bind; [apply keeps_write_images|intros _]. apply keeps_raise. }
    apply Hk. cbn [dirs]. rewrite !elem_of_union, !elem_of_singleton. auto. }
  unfold io_bind at 1. specialize (Hsingle fs).
  destruct (convert_single_pdf_to_md _ _ _ _ fs) as [[md|msg] fs1]; [|exact Hsingle].
  cbn [snd] in Hsingle.
  match goal with |- _ ∈ dirs (?m fs1).2 => assert (Hk : keeps_dirs m) end.
  { apply keeps_bind; [apply keeps_move|intros _].
    apply keeps_bind; [apply keeps_relocate_images|intros _]. apply keeps_return. }
  apply Hk, Hsingle.
Qed.

Section Relative.

Hypothesis relative : engine_names_relative doc_analyze.

Lemma leaves_convert_single i pdf_path pdf_id :
  leaves_outside inside
    (convert_single_pdf_to_md doc_analyze pdf_path (temp_dir_of i)
       (Some (output_name_of pdf_path pdf_id))).
Proof.
  unfold convert_single_pdf_to_md.
  apply leaves_bind; [apply leaves_makedirs | intros _ _ _].
  apply leaves_bind; [apply leaves_makedirs | intros _ _ _].
  apply leaves_bind; [apply leaves_read_text | intros _ pdf_bytes _].
  pose proof (relative pdf_bytes) as Hrel.
  pose proof (temp_tree_inside i _ (md_file_in_temp out_dir i pdf_path pdf_id)) as Hmd.
  destruct (doc_analyze pdf_bytes) as [md images | msg images]; cbn [engine_images] in Hrel.
  - apply leaves_bind; [now apply leaves_write_images | intros _ _ _].
    apply leaves_bind; [apply leaves_write_text, Hmd | intros _ _ _].
    apply leaves_return.
  - apply leaves_bind; [now apply leaves_write_images | intros _ _ _].
    apply leaves_raise.
Qed.

Lemma leaves_relocate_images i pdf_path pdf_id :
  leaves_outside inside
    (relocate_images images_dir (os_path.join (temp_dir_of i) config.IMAGES_DIR_NAME)
       (final_md_path_of out_dir pdf_path pdf_id) (Py.str_int pdf_id)).
Proof.
  intros fs. unfold relocate_images.
  destruct (os.path_exists fs _); [|apply unchanged_refl].
  apply leaves_bind; [apply leaves_listdir |].
  intros fs0 l Hl. apply leaves_for_each. intros name Hname.
  assert (Hsep : os_path.has_sep name = false).
  { match type of Hl with (os.listdir ?d fs0).1 = _ =>
      destruct (listdir_spec d fs0) as (l' & E & _ & Hsep & _) end.
    rewrite E in Hl. injection Hl as ->. auto. }
  unfold relocate_image.
  destruct (has_image_extension name); [|apply leaves_return].
  apply leaves_bind; [|intros _ _ _].
  { apply leaves_move; [|apply relocated_inside].
    apply (temp_tree_inside i), temp_image_in_temp, no_sep_not_abs, Hsep. }
  apply leaves_bind; [apply leaves_read_text | intros _ content _].
  apply leaves_write_text, final_inside.
Qed.

Lemma leaves_convert_and_relocate i pdf_path pdf_id :
  leaves_outside inside
    (convert_and_relocate doc_analyze pdf_path out_dir images_dir (temp_dir_of i)
       (output_name_of pdf_path pdf_id) (Py.str_int pdf_id)).
Proof.
  unfold convert_and_relocate.
  apply leaves_bind; [apply leaves_convert_single | intros fs md Hmd].
  apply leaves_bind; [|intros _ _ _].
  { apply leaves_move; [|apply final_inside].
    destruct (convert_single_pdf_to_md _ _ _ _ fs) as [r fs'] eqn:E.
    cbn [fst] in Hmd. subst r. apply convert_single_returns in E as ->.
    apply (temp_tree_inside i), md_file_in_temp. }
  apply leaves_bind; [apply leaves_relocate_images | intros _ _ _].
  apply leaves_return.
Qed.

Lemma unchanged_cleanup i fs : unchanged_outside inside fs (cleanup (temp_dir_of i) fs).
Proof.
  unfold cleanup. destruct (os.path_exists fs _); [|apply unchanged_refl].
  apply (leaves_rmtree inside). apply temp_tree_inside.
Qed.

Lemma unchanged_convert_request i pdf_path pdf_id st :
  unchanged_outside inside (disk st)
    (disk (convert_request doc_analyze out_dir images_dir i pdf_path pdf_id st)).
Proof.
  unfold convert_request.
  pose proof (leaves_convert_and_relocate i pdf_path pdf_id (disk st)) as H.
  destruct (convert_and_relocate _ _ _ _ _ _ _ _) as [[p | msg] fs']; cbn [disk];
    (eapply unchanged_trans; [exact H | apply unchanged_cleanup]).
Qed.

Lemma unchanged_process_request n pages_max force_rebuild i pdf_path pdf_id st :
  unchanged_outside inside (disk st)
    (disk (process_request pdf_pages doc_analyze n out_dir images_dir pages_max
             force_rebuild i pdf_path pdf_id st)).
Proof.
  unfold process_request.
  destruct (negb force_rebuild && _); [apply unchanged_refl |].
  destruct pages_max as [m |]; [|apply (unchanged_convert_request _ _ _ (print _ st))].
  destruct (get_pdf_page_count _ _ _) as [page_count warning].
  destruct (m <? _)%Z; [apply unchanged_refl |].
  destruct (page_count =? 0)%nat; [apply unchanged_refl |].
  apply (unchanged_convert_request _ _ _ (print _ st)).
Qed.

Lemma unchanged_process_requests n pages_max force_rebuild requests : forall i st,
  unchanged_outside inside (disk st)
    (disk (process_requests pdf_pages doc_analyze n out_dir images_dir pages_max
             force_rebuild i requests st)).
Proof.
  induction requests as [|[pdf_path pdf_id] requests IH]; intros i st; cbn [process_requests].
  - apply unchanged_refl.
  - eapply unchanged_trans; [apply unchanged_process_request | apply IH].
Qed.

End Relative.

Lemma unchanged_prepare_output force_rebuild fs r fs' out :
  prepare_output out_dir force_rebuild fs = (r, fs', out) ->
  unchanged_outside inside fs fs'.
Proof.
  unfold prepare_output. intros H.
  assert (H1 : unchanged_outside inside fs
                 (if force_rebuild && os.path_exists fs out_dir
                  then ((shutil.rmtree out_dir fs).2, [ForceRebuildLine out_dir])
                  else (fs, [])).1).
  { destruct (force_rebuild && _); cbn [fst]; [|apply unchanged_refl].
    apply (leaves_rmtree inside). auto. }
  destruct (if force_rebuild && _ then _ else _) as [fs1 printed]. cbn [fst] in H1.
  assert (H2 : leaves_outside inside
                 (os.makedirs (os_path.join out_dir config.IMAGES_DIR_NAME) >>
                  os.makedirs out_dir)).
  { apply leaves_bind; [apply leaves_makedirs | intros _ _ _; apply leaves_makedirs]. }
  specialize (H2 fs1).
  destruct ((_ >> _) fs1) as [[[]|msg] fs2]; injection H as _ <- _;
    eapply unchanged_trans; eauto.
Qed.

(** X6: when the engine names its image files relative to the directory it
    is given, a batch changes nothing outside the tree of its output
    directory: every file there keeps its content (no file appears, none is
    deleted or rewritten) and every directory stays.  The source documents
    are among them when they lie outside the output directory. *)
Theorem batch_leaves_outside_untouched fullpath_list id_list pages_max force_rebuild fs p :
  engine_names_relative doc_analyze ->
  os.in_tree out_dir p = false ->
  let r := convert_multiple_pdfs_to_md pdf_pages doc_analyze fullpath_list id_list out_dir
             pages_max force_rebuild fs in
  files (final_disk r) !! p = files fs !! p /\ (p ∈ dirs fs -> p ∈ dirs (final_disk r)).
Proof.
  intros relative Hp r.
  assert (H : unchanged_outside inside fs (final_disk r)).
  { subst r. unfold convert_multiple_pdfs_to_md.
    destruct (negb _); [apply unchanged_refl|].
    destruct (prepare_output out_dir force_rebuild fs) as [[[images|msg] fs1] out] eqn:E;
      apply unchanged_prepare_output in E as H1; cbn [final_disk]; [|exact H1].
    eapply unchanged_trans; [exact H1|].
    apply prepare_output_return in E as [_ ->].
    apply (unchanged_process_requests relative _ _ _ _ _ (State fs1 [] [] [] out)). }
  destruct H as [Hf Hd]. auto.
Qed.

(** X7: when the conversion of a request is over, whether it succeeded or
    raised, nothing is left of its temporary directory: no file and no
    directory in the tree of [out_dir/temp_{i}]. *)
Theorem temporary_directory_is_removed i pdf_path pdf_id st p :
  os.in_tree (os_path.join out_dir (TEMP_DIR_PREFIX +:+ Py.str_nat i)) p = true ->
  let st' := convert_request doc_analyze out_dir (os_path.join out_dir config.IMAGES_DIR_NAME)
               i pdf_path pdf_id st in
  files (disk st') !! p = None /\ p ∉ dirs (disk st').
Proof.
  intros Hp st'.
  assert (H : exists fs', disk st' = cleanup (temp_dir_of i) fs' /\ temp_dir_of i ∈ dirs fs').
  { subst st'. unfold convert_request.
    pose proof (temp_dir_made i pdf_path (output_name_of pdf_path pdf_id)
                  (Py.str_int pdf_id) (disk st)) as Hmade.
    fold images_dir.
    destruct (convert_and_relocate _ _ _ _ _ _ _ _) as [[q | msg] fs']; cbn [disk];
      exists fs'; auto. }
  destruct H as (fs' & -> & Hdir). unfold cleanup, os.path_exists.
  rewrite (bool_decide_eq_true_2 (_ ∈ dirs fs')), orb_true_r by exact Hdir.
  split; [now apply rmtree_clears|].
  cbn [shutil.rmtree snd dirs]. rewrite elem_of_filter. intros [Hout _].
  cbn beta in Hout. congruence.
Qed.

End Inside.

(** The source document of the sample batch, outside the output directory. *)
Lemma batch_leaves_outside_untouched_witness :
  engine_names_relative Sample.doc_analyze /\
  os.in_tree "out" "/src/doc_A.pdf" = false /\
  files (final_disk (Sample.convert ["/src/doc_A.pdf"; "/src/doc_B.pdf"] [5; 6]%Z "out" None
                       true stale_library)) !! "/src/doc_A.pdf"
  = files stale_library !! "/src/doc_A.pdf".
Proof.
  split; [exact sample_names_relative|]. split; [reflexivity|].
  apply (batch_leaves_outside_untouched Sample.pdf_pages Sample.doc_analyze "out"
           ["/src/doc_A.pdf"; "/src/doc_B.pdf"] [5; 6]%Z None true stale_library
           "/src/doc_A.pdf" sample_names_relative eq_refl).
Defined.

(** The image the relocation left behind in the temporary directory. *)
Lemma temporary_directory_is_removed_witness :
  os.in_tree (os_path.join "out" (TEMP_DIR_PREFIX +:+ Py.str_nat 0)) "out/temp_0/images/f2.webp"
  = true /\
  files (disk (convert_request Sample.doc_analyze "out" "out/images" 0 "/src/doc_A.pdf" 5 fresh))
    !! "out/temp_0/images/f2.webp" = None.
Proof.
  split; [reflexivity|].
  apply (temporary_directory_is_removed Sample.doc_analyze "out" 0 "/src/doc_A.pdf" 5 fresh
           "out/temp_0/images/f2.webp" eq_refl).
Defined.

(** ** Counting the requests *)

Section Accounting.

Context (pdf_pages : string -> result nat) (doc_analyze : string -> engine_result).
Context (n : nat) (out_dir : string) (pages_max : option Z) (force_rebuild : bool).

Let images_dir := os_path.join out_dir config.IMAGES_DIR_NAME.

#[local] Abbreviation step1 :=
  (process_request pdf_pages doc_analyze n out_dir images_dir pages_max force_rebuild).
#[local] Abbreviation loop1 :=
  (process_requests pdf_pages doc_analyze n out_dir images_dir pages_max force_rebuild).

(** After [k] requests: every request has printed one line that tells how
    it ended, and the lists agree with these lines. *)
#[local] Abbreviation accounted k st :=
  (let out := console st in
   k = (count_lines is_already out + count_lines is_too_large out
        + count_lines is_undetermined out + count_lines is_success_line out
        + count_lines is_error out)%nat /\
   length (generated_files st)
   = (count_lines is_already out + count_lines is_success_line out)%nat /\
   length (already_converted_files st) = count_lines is_already out /\
   length (skipped_files st)
   = (count_lines is_too_large out + count_lines is_undetermined out)%nat /\
   conversions out = (count_lines is_success_line out + count_lines is_error out)%nat).

Lemma warning_not_counted f pdf_path fs :
  (forall p msg, f (PageCountWarningLine p msg) = false) ->
  count_lines f (get_pdf_page_count pdf_pages pdf_path fs).2 = 0%nat.
Proof.
  intros Hf. unfold get_pdf_page_count.
  destruct (read_text pdf_path fs) as [[pdf_bytes|msg] fs']; [destruct (pdf_pages pdf_bytes)|];
    unfold count_lines; cbn [snd List.filter]; rewrite ?Hf; reflexivity.
Qed.

Lemma summary_not_counted f pm st :
  (forall l, is_summary l = true -> f l = false) -> count_lines f (summary pm st) = 0%nat.
Proof.
  intros Hf. unfold summary.
  rewrite !count_lines_app.
  destruct (bool_decide _); destruct (bool_decide _ && _);
    unfold count_lines; cbn [List.filter app]; rewrite ?Hf by reflexivity; reflexivity.
Qed.

Lemma step_accounted k i pdf_path pdf_id st :
  accounted k st -> accounted (S k) (step1 i pdf_path pdf_id st).
Proof.
  cbn zeta. intros (Hk & Hgen & Halready & Hskipped & Hconv).
  unfold process_request.
  destruct (negb force_rebuild && _).
  { cbn [console generated_files already_converted_files skipped_files].
    unfold conversions in *. rewrite !count_lines_app, !length_app.
    unfold count_lines in *.
    cbn [List.filter is_already is_too_large is_undetermined is_success_line
         is_error is_converting length]. lia. }
  assert (Hconvert : forall warning page_count,
    (forall f, (forall p msg, f (PageCountWarningLine p msg) = false) ->
               count_lines f warning = 0%nat) ->
    accounted (S k)
      (convert_request doc_analyze out_dir images_dir i pdf_path pdf_id
         (print (warning ++ [BannerLine; ConvertingLine i n pdf_path page_count
                                           (output_name_of pdf_path pdf_id)]) st))).
  { intros warning page_count Hw. unfold convert_request, print.
    cbn [disk console generated_files already_converted_files skipped_files].
    destruct (convert_and_relocate _ _ _ _ _ _ _ _) as [[p|msg] fs'];
      cbn [console generated_files already_converted_files skipped_files];
      unfold conversions in *; rewrite !count_lines_app, ?length_app, !Hw by reflexivity;
      unfold count_lines in *;
      cbn [List.filter is_already is_too_large is_undetermined is_success_line
           is_error is_converting length]; lia. }
  destruct pages_max as [m|].
  - pose proof (fun f => warning_not_counted f pdf_path (disk st)) as Hw.
    destruct (get_pdf_page_count _ _ _) as [page_count warning]. cbn [snd] in Hw.
    destruct (m <? _)%Z; [|destruct (page_count =? 0)%nat];
      [| |apply (Hconvert warning (Some page_count) Hw)];
      cbn [console generated_files already_converted_files skipped_files];
      unfold conversions in *; rewrite !count_lines_app, ?length_app, !Hw by reflexivity;
      unfold count_lines in *;
      cbn [List.filter is_already is_too_large is_undetermined is_success_line
           is_error is_converting length]; lia.
  - apply (Hconvert [] None). reflexivity.
Qed.

Lemma loop_accounted requests : forall k i st,
  accounted k st -> accounted (length requests + k)%nat (loop1 i requests st).
Proof.
  induction requests as [|[pdf_path pdf_id] requests IH]; intros k i st H;
    cbn [process_requests length].
  - exact H.
  - replace (S (length requests) + k)%nat with (length requests + S k)%nat by lia.
    apply IH. now apply step_accounted.
Qed.

End Accounting.

Lemma prepare_output_printed out_dir force_rebuild fs r fs' out :
  prepare_output out_dir force_rebuild fs = (r, fs', out) ->
  out = [] \/ out = [ForceRebuildLine out_dir].
Proof.
  unfold prepare_output.
  destruct (force_rebuild && _); destruct ((_ >> _) _) as [[[]|msg] fs2];
    intros [= _ _ <-]; auto.
Qed.

Lemma summary_line_not_counted f :
  f = is_already \/ f = is_too_large \/ f = is_undetermined \/ f = is_success_line \/
  f = is_error \/ f = is_converting ->
  forall l, is_summary l = true -> f l = false.
Proof.
  intros Hf l Hl. destruct l; try discriminate Hl;
    destruct Hf as [->|[->|[->|[->|[->| ->]]]]]; reflexivity.
Qed.

Section AccountingTheorems.

Context (pdf_pages : string -> result nat) (doc_analyze : string -> engine_result).

(** X8: when the batch returns, every request has been resolved in exactly
    one of five ways, each with a line of its own: already converted,
    skipped as too large, skipped for an undetermined page count,
    successfully converted, or failed with an error.  The returned list has
    one path for each request of the first and the fourth kind, every
    conversion that was started ended as a success or as an error, and the
    "Successfully converted" number of the summary is the number of
    "Successfully converted to" lines. *)
Theorem every_request_is_accounted_for fullpath_list id_list out_dir pages_max force_rebuild
    fs gen :
  let r := convert_multiple_pdfs_to_md pdf_pages doc_analyze fullpath_list id_list out_dir
             pages_max force_rebuild fs in
  returned r = Return gen ->
  let out := printed r in
  length fullpath_list
  = (count_lines is_already out + count_lines is_too_large out
     + count_lines is_undetermined out + count_lines is_success_line out
     + count_lines is_error out)%nat /\
  length gen = (count_lines is_already out + count_lines is_success_line out)%nat /\
  conversions out = (count_lines is_success_line out + count_lines is_error out)%nat /\
  SummaryConvertedLine (Z.of_nat (count_lines is_success_line out)) ∈ out.
Proof.
  intros r Hret out.
  apply convert_multiple_return in Hret as (fs1 & out1 & Hlen & Hne & Hprep & Hrun & ->).
  subst out r. rewrite Hrun. cbn [printed].
  pose proof (loop_accounted pdf_pages doc_analyze (length fullpath_list) out_dir pages_max
                force_rebuild (zip fullpath_list id_list) 0 0 (State fs1 [] [] [] out1))
    as Hloop.
  cbn zeta in Hloop.
  destruct Hloop as (Hk & Hgen & Halready & _ & Hconv).
  { apply prepare_output_printed in Hprep as [-> | ->]; repeat split. }
  rewrite length_zip_with, Nat.add_0_r in Hk.
  unfold conversions in *. rewrite !count_lines_app.
  rewrite !summary_not_counted by (apply summary_line_not_counted; tauto).
  rewrite !Nat.add_0_r.
  split; [lia|]. split; [exact Hgen|]. split; [exact Hconv|].
  apply elem_of_app. right. unfold summary. cbn [app].
  apply elem_of_cons. right. apply elem_of_cons. left. f_equal. lia.
Qed.


(** X10: the returned paths follow the order of the requests, with at most
    one path for each request, and each of them exists when the call
    returns. *)
Theorem returned_paths_follow_requests fullpath_list id_list out_dir pages_max force_rebuild
    fs gen :
  let r := convert_multiple_pdfs_to_md pdf_pages doc_analyze fullpath_list id_list out_dir
             pages_max force_rebuild fs in
  returned r = Return gen ->
  gen `sublist_of` (final_of out_dir <$> zip fullpath_list id_list) /\
  forall p, p ∈ gen -> os.path_exists (final_disk r) p = true.
Proof.
  intros r Hret.
  apply convert_multiple_return in Hret as (fs1 & out1 & Hlen & Hne & Hprep & Hrun & ->).
  subst r. rewrite Hrun. cbn [final_disk].
  destruct (loop_generated pdf_pages doc_analyze (length fullpath_list) out_dir pages_max
              force_rebuild (zip fullpath_list id_list) 0 (State fs1 [] [] [] out1))
    as (g & -> & Hsub & Hex).
  cbn [generated_files app]. auto.
Qed.

End AccountingTheorems.

Lemma every_request_is_accounted_for_witness :
  let r := Sample.convert ["/src/doc_A.pdf"; "/src/doc_B.pdf"; "/src/c.pdf"; "/src/d.pdf"]
             [5; 6; 7; 8]%Z "out" (Some 100%Z) false Sample.library in
  returned r = Return ["out/5_doc_A.md"] /\
  length ["/src/doc_A.pdf"; "/src/doc_B.pdf"; "/src/c.pdf"; "/src/d.pdf"]
  = (count_lines is_already (printed r) + count_lines is_too_large (printed r)
     + count_lines is_undetermined (printed r) + count_lines is_success_line (printed r)
     + count_lines is_error (printed r))%nat.
Proof.
  cbn zeta. split; [vm_compute; reflexivity|].
  apply (every_request_is_accounted_for Sample.pdf_pages Sample.doc_analyze
           ["/src/doc_A.pdf"; "/src/doc_B.pdf"; "/src/c.pdf"; "/src/d.pdf"] [5; 6; 7; 8]%Z
           "out" (Some 100%Z) false Sample.library ["out/5_doc_A.md"]).
  vm_compute. reflexivity.
Defined.


Lemma returned_paths_follow_requests_witness :
  let r := Sample.convert ["/src/doc_A.pdf"; "/src/doc_B.pdf"; "/src/c.pdf"; "/src/d.pdf"]
             [5; 6; 7; 8]%Z "out" (Some 100%Z) false Sample.library in
  returned r = Return ["out/5_doc_A.md"] /\
  ["out/5_doc_A.md"] `sublist_of`
    (final_of "out" <$> zip ["/src/doc_A.pdf"; "/src/doc_B.pdf"; "/src/c.pdf"; "/src/d.pdf"]
                           [5; 6; 7; 8]%Z).
Proof.
  cbn zeta. split; [vm_compute; reflexivity|].
  apply (returned_paths_follow_requests Sample.pdf_pages Sample.doc_analyze
           ["/src/doc_A.pdf"; "/src/doc_B.pdf"; "/src/c.pdf"; "/src/d.pdf"] [5; 6; 7; 8]%Z
           "out" (Some 100%Z) false Sample.library ["out/5_doc_A.md"]).
  vm_compute. reflexivity.
Defined.

(** ** A negative page limit *)

Section NegativeLimit.

Context (pdf_pages : string -> result nat) (doc_analyze : string -> engine_result).

Lemma step_negative n out_dir images_dir m force_rebuild i pdf_path pdf_id st :
  (m < 0)%Z ->
  let st' := process_request pdf_pages doc_analyze n out_dir images_dir (Some m) force_rebuild
               i pdf_path pdf_id st in
  disk st' = disk st /\
  conversions (console st') = conversions (console st) /\
  count_lines is_undetermined (console st') = count_lines is_undetermined (console st).
Proof.
  intros Hm. cbn zeta. unfold process_request.
  destruct (negb force_rebuild && _).
  { cbn [disk console]. unfold conversions. rewrite !count_lines_app.
    unfold count_lines. cbn. repeat split; lia. }
  pose proof (fun f => warning_not_counted pdf_pages f pdf_path (disk st)) as Hw.
  destruct (get_pdf_page_count _ _ _) as [page_count warning]. cbn [snd] in Hw.
  destruct (Z.ltb_spec m (Z.of_nat page_count)); [|lia].
  cbn [disk console]. unfold conversions. rewrite !count_lines_app, !Hw by reflexivity.
  unfold count_lines. cbn. repeat split; lia.
Qed.

Lemma loop_negative n out_dir images_dir m force_rebuild requests : forall i st,
  (m < 0)%Z ->
  let st' := process_requests pdf_pages doc_analyze n out_dir images_dir (Some m) force_rebuild
               i requests st in
  disk st' = disk st /\
  conversions (console st') = conversions (console st) /\
  count_lines is_undetermined (console st') = count_lines is_undetermined (console st).
Proof.
  induction requests as [|[pdf_path pdf_id] requests IH]; intros i st Hm;
    cbn [process_requests]; [auto|].
  cbn zeta.
  destruct (IH (S i) (process_request pdf_pages doc_analyze n out_dir images_dir (Some m)
                        force_rebuild i pdf_path pdf_id st) Hm) as (-> & -> & ->).
  now apply step_negative.
Qed.

(** X11: with a negative max_pages no request is converted: every request
    that is not already converted is skipped as too large, also when its
    page count could not be read, so that no conversion is started, no
    request is reported with an undetermined page count, and no file is
    created; without force_rebuild the files are left exactly as they
    were. *)
Theorem negative_page_limit_converts_nothing fullpath_list id_list out_dir m force_rebuild
    fs gen :
  (m < 0)%Z ->
  let r := convert_multiple_pdfs_to_md pdf_pages doc_analyze fullpath_list id_list out_dir
             (Some m) force_rebuild fs in
  returned r = Return gen ->
  conversions (printed r) = 0%nat /\
  count_lines is_undetermined (printed r) = 0%nat /\
  (forall p, is_Some (files (final_disk r) !! p) -> is_Some (files fs !! p)) /\
  (force_rebuild = false -> files (final_disk r) = files fs).
Proof.
  intros Hm r Hret.
  apply convert_multiple_return in Hret as (fs1 & out1 & Hlen & Hne & Hprep & Hrun & ->).
  subst r. rewrite Hrun. cbn [printed final_disk].
  destruct (loop_negative (length fullpath_list) out_dir
              (os_path.join out_dir config.IMAGES_DIR_NAME) m force_rebuild
              (zip fullpath_list id_list) 0 (State fs1 [] [] [] out1) Hm) as (-> & Hc & Hu).
  cbn [disk console] in *.
  unfold conversions in *. rewrite !count_lines_app.
  rewrite !summary_not_counted by (apply summary_line_not_counted; tauto).
  rewrite Hc, Hu.
  assert (Hout : count_lines is_converting out1 = 0%nat /\
                 count_lines is_undetermined out1 = 0%nat).
  { apply prepare_output_printed in Hprep as [-> | ->]; split; reflexivity. }
  destruct Hout as [-> ->].
  split; [reflexivity|]. split; [reflexivity|]. split.
  - now apply (prepare_output_creates _ _ _ _ _ _ Hprep).
  - intros ->. destruct (prepare_output_keep out_dir fs Hne) as (fs' & E & Hfiles & _).
    rewrite E in Hprep. now injection Hprep as <- _.
Qed.

End NegativeLimit.

Lemma negative_page_limit_converts_nothing_witness :
  let r := Sample.convert ["/src/doc_A.pdf"; "/src/d.pdf"] [5; 8]%Z "out" (Some (-1)%Z)
             false Sample.library in
  ((-1 < 0)%Z /\ returned r = Return []) /\
  conversions (printed r) = 0%nat.
Proof.
  cbn zeta. split; [split; [reflexivity | vm_compute; reflexivity]|].
  apply (negative_page_limit_converts_nothing Sample.pdf_pages Sample.doc_analyze
           ["/src/doc_A.pdf"; "/src/d.pdf"] [5; 8]%Z "out" (-1)%Z false Sample.library []).
  - reflexivity.
  - vm_compute. reflexivity.
Defined.

(** ** Rendering the annotations of one attachment *)

#[local] Abbreviation no_title := "'float' object has no attribute 'title'".

Section Rendering.

Context {label : Type}.
Context (label_eqb : label -> label -> bool) (str_label : label -> string).

Lemma render_annotation_typed (row : annotation label) :
  lacks_type row = false -> exists block, render_annotation row = Return block.
Proof.
  unfold lacks_type, render_annotation. destruct (annotation_type_name row); [eauto|discriminate].
Qed.

Lemma render_annotation_untyped (row : annotation label) :
  lacks_type row = true -> render_annotation row = Raise no_title.
Proof.
  unfold lacks_type, render_annotation. destruct (annotation_type_name row); [discriminate|auto].
Qed.

Lemma render_rows_typed rows : forall current_page,
  (forall row : annotation label, row ∈ rows -> lacks_type row = false) ->
  exists pieces, render_rows label_eqb str_label current_page rows = Return pieces.
Proof.
  induction rows as [|row rows IH]; intros current_page H; cbn [render_rows]; [eauto|].
  destruct (render_annotation_typed row) as [block ->]; [apply H; left|].
  edestruct IH as [rest ->]; [|eauto]. intros r Hr. apply H. now right.
Qed.

Lemma render_rows_untyped rows : forall current_page (row : annotation label),
  row ∈ rows -> lacks_type row = true ->
  render_rows label_eqb str_label current_page rows = Raise no_title.
Proof.
  induction rows as [|r rows IH]; intros current_page row Hin Hrow; [inversion Hin|].
  cbn [render_rows]. destruct (lacks_type r) eqn:Er.
  - now rewrite render_annotation_untyped.
  - destruct (render_annotation_typed r Er) as [block ->].
    apply elem_of_cons in Hin as [-> | Hin]; [congruence|].
    now rewrite (IH _ row Hin Hrow).
Qed.

(** No piece of the block of an annotation reads as a page header. *)
Lemma block_has_no_header (row : annotation label) block :
  render_annotation row = Return block -> page_headers block = [].
Proof.
  unfold render_annotation. destruct (annotation_type_name row) as [t|]; [|discriminate].
  intros [= <-]. unfold page_headers.
  destruct (truthy (annotation_color row));
    destruct (truthy (annotation_text row) && notna (annotation_text row));
    destruct (truthy (annotation_comment row) && notna (annotation_comment row));
    reflexivity.
Qed.

Lemma page_headers_app l1 l2 : page_headers (l1 ++ l2) = page_headers l1 ++ page_headers l2.
Proof. unfold page_headers. apply List.filter_app. Qed.

Lemma page_header_headers page current_page :
  page_headers (page_header label_eqb str_label page current_page)
  = if page_differs label_eqb page current_page
    then ["## Page " +:+ str_page str_label page +:+ nl +:+ nl] else [].
Proof.
  unfold page_header. destruct (page_differs _ _ _); [|reflexivity].
  unfold page_headers. rewrite List.filter_app. cbn [List.filter].
  unfold Py.startswith at 2. rewrite prefix_app_self.
  destruct (notna current_page); reflexivity.
Qed.


End Rendering.


(** ** The conversion of one attachment *)

Section SingleConversion.

Context {label : Type}.
Context (label_eqb : label -> label -> bool) (str_label : label -> string).
Context (argsort : list label -> list nat) (parse_csv : string -> list (annotation label)).
Context (label_le : relation label).
Hypothesis argsort_ok : argsort_sorts label_le argsort.

Lemma sort_values_elem_of rows (row : annotation label) :
  row ∈ sort_values argsort rows <-> row ∈ rows.
Proof.
  destruct (sort_values_spec label_le argsort argsort_ok rows) as (_ & _ & _ & _ & _ & H).
  now rewrite H.
Qed.

Lemma sort_values_length (rows : list (annotation label)) :
  length (sort_values argsort rows) = length rows.
Proof.
  destruct (sort_values_spec label_le argsort argsort_ok rows) as (_ & _ & _ & _ & _ & H).
  now rewrite H.
Qed.

(** The two ways the rendering of the rows of an attachment ends. *)
Lemma render_markdown_cases attachment_id paper_info (rows : list (annotation label)) :
  ((exists row, row ∈ rows /\ lacks_type row = true) ->
     render_markdown label_eqb str_label attachment_id paper_info (sort_values argsort rows)
     = Raise no_title) /\
  ((forall row, row ∈ rows -> lacks_type row = false) ->
     exists markdown,
       render_markdown label_eqb str_label attachment_id paper_info (sort_values argsort rows)
       = Return markdown).
Proof.
  unfold render_markdown. split.
  - intros (row & Hin & Hrow). apply sort_values_elem_of in Hin.
    now rewrite (render_rows_untyped _ _ _ _ row Hin Hrow).
  - intros Htyped.
    destruct (render_rows_typed label_eqb str_label (sort_values argsort rows) None)
      as [pieces ->]; [|eauto].
    intros row Hin. apply Htyped. now apply sort_values_elem_of.
Qed.



End SingleConversion.



(** ** The batch over all attachments *)

Lemma annotation_file_inj output_path id1 id2 :
  annotation_file output_path id1 = annotation_file output_path id2 -> id1 = id2.
Proof.
  unfold annotation_file. intros H.
  rewrite !join_relative in H by apply prefixed_not_abs.
  apply append_inv_head, append_inv_tail in H. now apply str_int_inj.
Qed.

Lemma sorted_attachment_ids_spec {label} (annot : list (annotation label)) :
  Sorted Z.le (sorted_attachment_ids annot) /\
  NoDup (sorted_attachment_ids annot) /\
  (forall id, id ∈ sorted_attachment_ids annot
              <-> exists row, row ∈ annot /\ attachment_id row = id).
Proof.
  unfold sorted_attachment_ids. split; [|split].
  - apply Sorted_merge_sort. intros x y. lia.
  - rewrite merge_sort_Permutation. apply NoDup_remove_dups.
  - intros id. rewrite merge_sort_Permutation, elem_of_remove_dups, list_elem_of_fmap.
    split; intros (row & H1 & H2); exists row; auto.
Qed.

Section Batch.

Context {label : Type}.
Context (label_eqb : label -> label -> bool) (str_label : label -> string).
Context (argsort : list label -> list nat) (parse_csv : string -> list (annotation label)).
Context (annot : list (annotation label)) (output_dir : string) (total : nat).

#[local] Abbreviation item := (process_attachment label_eqb str_label argsort annot output_dir total).
#[local] Abbreviation items := (process_attachments label_eqb str_label argsort annot output_dir total).
#[local] Abbreviation failed_count results :=
  (length (List.filter (fun r : Z * attachment_result => is_failed r.2) results)).

(** One item adds one result under its identifier and one to a counter. *)
Lemma item_result i id st :
  exists result lines',
    results (item i id st) = results st ++ [(id, result)] /\
    batch_output (item i id st) = batch_output st ++ lines' /\
    dirs (batch_disk (item i id st)) = dirs (batch_disk st) /\
    successful (item i id st) = ((if is_success result then 1 else 0) + successful st)%nat /\
    failed (item i id st) = ((if is_success result then 0 else 1) + failed st)%nat.
Proof.
  unfold process_attachment.
  destruct (query_attachment annot id) as [|paper_info rest].
  { do 2 eexists. cbn. repeat split. }
  destruct (render_markdown _ _ _ _ _) as [markdown|msg];
    do 2 eexists; cbn; repeat split.
Qed.

Lemma successful_count_app results1 results2 :
  successful_count (results1 ++ results2)
  = (successful_count results1 + successful_count results2)%nat.
Proof. unfold successful_count. now rewrite List.filter_app, length_app. Qed.

Lemma failed_count_app results1 results2 :
  failed_count (results1 ++ results2) = (failed_count results1 + failed_count results2)%nat.
Proof. now rewrite List.filter_app, length_app. Qed.

Lemma items_results ids : forall i st,
  let st' := items i ids st in
  (results st').*1 = (results st).*1 ++ ids /\
  (exists lines', batch_output st' = batch_output st ++ lines') /\
  dirs (batch_disk st') = dirs (batch_disk st) /\
  (successful st = successful_count (results st) ->
   successful st' = successful_count (results st')) /\
  (failed st = failed_count (results st) -> failed st' = failed_count (results st')).
Proof.
  induction ids as [|id ids IH]; intros i st; cbn [process_attachments]; cbn zeta.
  - rewrite app_nil_r. repeat split; auto. exists []. now rewrite app_nil_r.
  - destruct (item_result i id st) as (result & lines' & Hres & Hout & Hdirs & Hs & Hf).
    destruct (IH (S i) (item i id st)) as (Hkeys & [lines'' Hout'] & Hdirs' & Hs' & Hf').
    rewrite Hkeys, Hout', Hdirs', Hres, Hout, Hdirs, fmap_app, <- !app_assoc.
    split; [reflexivity|]. split; [eauto|]. split; [reflexivity|]. split.
    + intros H. apply Hs'. rewrite Hs, Hres, successful_count_app, H.
      unfold successful_count at 3. cbn. destruct (is_success result); cbn; lia.
    + intros H. apply Hf'. rewrite Hf, Hres, failed_count_app, H.
      cbn. unfold is_failed. destruct (is_success result); cbn; lia.
Qed.

(** An item writes no file but its own. *)
Lemma item_untouched i id st p :
  p <> annotation_file output_dir id ->
  files (batch_disk (item i id st)) !! p = files (batch_disk st) !! p.
Proof.
  intros Hp. unfold process_attachment.
  destruct (query_attachment annot id) as [|paper_info rest]; [reflexivity|].
  destruct (render_markdown _ _ _ _ _) as [markdown|msg]; [|reflexivity].
  cbn. apply lookup_insert_ne. unfold annotation_file in Hp. congruence.
Qed.

Lemma items_untouched ids p : forall i st,
  (forall id, id ∈ ids -> p <> annotation_file output_dir id) ->
  files (batch_disk (items i ids st)) !! p = files (batch_disk st) !! p.
Proof.
  induction ids as [|id ids IH]; intros i st Hp; cbn [process_attachments]; [reflexivity|].
  rewrite IH by (intros id' Hid'; apply Hp; now right).
  apply item_untouched, Hp. left.
Qed.

(** No item deletes a file. *)
Lemma items_keep ids p : forall i st,
  is_Some (files (batch_disk st) !! p) -> is_Some (files (batch_disk (items i ids st)) !! p).
Proof.
  induction ids as [|id ids IH]; intros i st Hp; cbn [process_attachments]; [exact Hp|].
  apply IH. unfold process_attachment.
  destruct (query_attachment annot id) as [|paper_info rest]; [exact Hp|].
  destruct (render_markdown _ _ _ _ _) as [markdown|msg]; [|exact Hp].
  cbn. destruct (decide (os_path.join output_dir (Py.str_int id +:+ ".md") = p)) as [->|Hne].
  - rewrite lookup_insert_eq. eauto.
  - now rewrite lookup_insert_ne.
Qed.

Lemma items_results_app ids : forall i st,
  exists more, results (items i ids st) = results st ++ more.
Proof.
  induction ids as [|id ids IH]; intros i st; cbn [process_attachments].
  - exists []. now rewrite app_nil_r.
  - destruct (IH (S i) (item i id st)) as [more ->].
    destruct (item_result i id st) as (result & _ & -> & _).
    rewrite <- app_assoc. eauto.
Qed.

(** An item does what the conversion of that attachment alone does. *)
Lemma item_as_single csv_file fs i id st :
  read_csv parse_csv csv_file fs = Return annot ->
  let single := annotations_to_markdown label_eqb str_label argsort parse_csv id output_dir
                  csv_file fs in
  let st' := item i id st in
  match outcome single with
  | Return (Some path) =>
      files (batch_disk st') !! annotation_file output_dir id
      = files (disk_after single) !! annotation_file output_dir id /\
      exists n title, results st' = results st ++ [(id, Success path n title)]
  | Return None =>
      batch_disk st' = batch_disk st /\ disk_after single = fs /\
      query_attachment annot id = [] /\
      results st' = results st ++ [(id, Failed "No annotations found")]
  | Raise msg =>
      batch_disk st' = batch_disk st /\ disk_after single = fs /\
      results st' = results st ++ [(id, Failed msg)]
  end.
Proof.
  intros Hcsv. cbn zeta. unfold annotations_to_markdown, process_attachment. rewrite Hcsv.
  destruct (query_attachment annot id) as [|paper_info rest]; [cbn; auto|].
  destruct (render_markdown _ _ _ _ _) as [markdown|msg]; cbn; [|auto].
  unfold annotation_file. rewrite !lookup_insert_eq. eauto.
Qed.

Lemma items_as_single csv_file fs ids : forall i st id,
  read_csv parse_csv csv_file fs = Return annot ->
  NoDup ids -> id ∈ ids ->
  let single := annotations_to_markdown label_eqb str_label argsort parse_csv id output_dir
                  csv_file fs in
  let st' := items i ids st in
  match outcome single with
  | Return (Some path) =>
      files (batch_disk st') !! annotation_file output_dir id
      = files (disk_after single) !! annotation_file output_dir id /\
      exists n title, (id, Success path n title) ∈ results st'
  | Return None =>
      files (batch_disk st') !! annotation_file output_dir id
      = files (batch_disk st) !! annotation_file output_dir id /\
      disk_after single = fs /\ query_attachment annot id = []
  | Raise msg =>
      files (batch_disk st') !! annotation_file output_dir id
      = files (batch_disk st) !! annotation_file output_dir id /\
      disk_after single = fs /\ (id, Failed msg) ∈ results st'
  end.
Proof.
  induction ids as [|id0 ids IH]; intros i st id Hcsv Hnodup Hin; [inversion Hin|].
  apply NoDup_cons in Hnodup as [Hfresh Hnodup]. cbn [process_attachments]. cbn zeta.
  destruct (decide (id = id0)) as [->|Hne].
  - pose proof (item_as_single csv_file fs i id0 st Hcsv) as Hitem. cbn zeta in Hitem.
    destruct (items_results_app ids (S i) (item i id0 st)) as [more Hmore].
    rewrite (items_untouched ids (annotation_file output_dir id0))
      by (intros id' Hid' E; apply annotation_file_inj in E; congruence).
    rewrite Hmore.
    destruct (outcome (annotations_to_markdown _ _ _ _ id0 _ _ _)) as [[path|]|msg].
    + destruct Hitem as [Hfile (n & title & Hres)]. split; [exact Hfile|].
      exists n, title. rewrite Hres, !elem_of_app, list_elem_of_singleton. auto.
    + destruct Hitem as (-> & Hsingle & Hq & _). auto.
    + destruct Hitem as (-> & Hsingle & Hres). split; [reflexivity|]. split; [exact Hsingle|].
      rewrite Hres, !elem_of_app, list_elem_of_singleton. auto.
  - apply elem_of_cons in Hin as [?|Hin]; [congruence|].
    specialize (IH (S i) (item i id0 st) id Hcsv Hnodup Hin). cbn zeta in IH.
    rewrite (item_untouched i id0 st (annotation_file output_dir id)) in IH
      by (intros E; apply annotation_file_inj in E; congruence).
    exact IH.
Qed.

End Batch.

Section BatchTheorems.

Context {label : Type}.
Context (label_eqb : label -> label -> bool) (str_label : label -> string).
Context (argsort : list label -> list nat) (parse_csv : string -> list (annotation label)).

#[local] Abbreviation batch_of output_path csv_file fs :=
  (process_all_attachments label_eqb str_label argsort parse_csv output_path csv_file fs).

(** What a batch that returns has done. *)
Lemma batch_return output_path csv_file fs res :
  outcome (batch_of output_path csv_file fs) = Return res ->
  exists annot,
    read_csv parse_csv csv_file fs = Return annot /\
    let ids := sorted_attachment_ids annot in
    let st := process_attachments label_eqb str_label argsort annot output_path (length ids) 1
                ids (BatchState (path_mkdir output_path fs) [] 0 0
                       [StartLine (length ids); OutputDirectoryLine output_path; RuleLine]) in
    res = results st /\
    disk_after (batch_of output_path csv_file fs) = batch_disk st /\
    output (batch_of output_path csv_file fs)
    = batch_output st
      ++ [RuleLine; CompletedLine; SuccessfulLine (successful st) (length ids);
          FailedCountLine (failed st) (length ids)]
      ++ (if (0 <? failed st)%nat then FailedHeaderLine :: failed_items (results st) else []).
Proof.
  unfold process_all_attachments.
  destruct (read_csv parse_csv csv_file fs) as [annot|msg]; [|discriminate].
  cbn [outcome disk_after output]. intros [= <-]. exists annot. auto.
Qed.

(** The keys of the results are the sorted identifiers. *)
Lemma batch_keys output_path csv_file fs res :
  outcome (batch_of output_path csv_file fs) = Return res ->
  exists annot,
    read_csv parse_csv csv_file fs = Return annot /\
    res.*1 = sorted_attachment_ids annot.
Proof.
  intros Hret. apply batch_return in Hret as (annot & Hcsv & Hres & _).
  exists annot. split; [exact Hcsv|]. cbn zeta in Hres.
  match type of Hres with res = results (process_attachments _ _ _ _ _ ?t ?i ?ids ?st) =>
    destruct (items_results label_eqb str_label argsort annot output_path t ids i st)
      as (Hkeys & _) end.
  rewrite Hres, Hkeys. reflexivity.
Qed.

(** X15: the batch returns one result for every attachment identifier of
    the table and no other, in ascending order of the identifiers and
    without repetition. *)
Theorem batch_results_follow_sorted_ids output_path csv_file fs res :
  outcome (batch_of output_path csv_file fs) = Return res ->
  exists annot,
    read_csv parse_csv csv_file fs = Return annot /\
    res.*1 = sorted_attachment_ids annot /\
    Sorted Z.le res.*1 /\
    NoDup res.*1 /\
    (forall id, id ∈ res.*1 <-> exists row, row ∈ annot /\ attachment_id row = id).
Proof.
  intros Hret. apply batch_keys in Hret as (annot & Hcsv & Hkeys).
  exists annot. split; [exact Hcsv|]. rewrite Hkeys.
  destruct (sorted_attachment_ids_spec annot) as (Hsorted & Hnodup & Hin). auto.
Qed.

(** X16: the two counters of the batch are the numbers of successful and of
    failed results it returns; together they are the number of attachments,
    and these are the numbers of its final report, which lists the failed
    attachments when there is one. *)
Theorem batch_counters_match_results output_path csv_file fs res :
  outcome (batch_of output_path csv_file fs) = Return res ->
  let succeeded := successful_count res in
  let failures := length (List.filter (fun r : Z * attachment_result => is_failed r.2) res) in
  (succeeded + failures)%nat = length res /\
  exists progress,
    output (batch_of output_path csv_file fs)
    = progress
      ++ [RuleLine; CompletedLine; SuccessfulLine succeeded (length res);
          FailedCountLine failures (length res)]
      ++ (if (0 <? failures)%nat then FailedHeaderLine :: failed_items res else []).
Proof.
  intros Hret. apply batch_return in Hret as (annot & Hcsv & Hres & _ & Hout).
  cbn zeta in *.
  match type of Hres with res = results (process_attachments _ _ _ _ _ ?t ?i ?ids ?st) =>
    destruct (items_results label_eqb str_label argsort annot output_path t ids i st)
      as (Hkeys & _ & _ & Hs & Hf) end.
  cbn [results successful failed] in Hkeys, Hs, Hf.
  specialize (Hs eq_refl). specialize (Hf eq_refl).
  rewrite <- Hres in *. rewrite Hs, Hf in Hout.
  assert (Hlen : length res = length (sorted_attachment_ids annot)).
  { rewrite <- (length_fmap fst res). cbn [fmap list_fmap app] in Hkeys. now rewrite Hkeys. }
  rewrite <- Hlen in Hout. split; [|eauto].
  unfold successful_count, is_failed. clear.
  induction res as [|[id [| ]] res IH]; cbn; lia.
Qed.

(** X17: for every attachment of the table, the batch leaves the file that
    [annotations_to_markdown] for this attachment alone would leave, and
    records the outcome of that call: a success with the same path when it
    returns one, a failure with the message of its exception when it
    raises. *)
Theorem batch_agrees_with_single_conversion output_path csv_file fs res id :
  let single := annotations_to_markdown label_eqb str_label argsort parse_csv id output_path
                  csv_file fs in
  outcome (batch_of output_path csv_file fs) = Return res ->
  id ∈ res.*1 ->
  files (disk_after (batch_of output_path csv_file fs)) !! annotation_file output_path id
  = files (disk_after single) !! annotation_file output_path id /\
  match outcome single with
  | Return (Some path) => exists n title, (id, Success path n title) ∈ res
  | Return None => False
  | Raise msg => (id, Failed msg) ∈ res
  end.
Proof.
  intros single Hret Hid.
  destruct (batch_keys _ _ _ _ Hret) as (annot & Hcsv & Hkeys).
  destruct (sorted_attachment_ids_spec annot) as (_ & Hnodup & _).
  apply batch_return in Hret as (annot' & Hcsv' & Hres & Hdisk & _).
  assert (annot' = annot) by congruence. subst annot'. cbn zeta in *.
  rewrite Hkeys in Hid.
  match type of Hres with res = results (process_attachments _ _ _ _ _ ?t ?i ?ids ?st) =>
    pose proof (items_as_single label_eqb str_label argsort parse_csv annot output_path t
                  csv_file fs ids i st id Hcsv Hnodup Hid) as H end.
  cbn zeta in H. rewrite Hdisk, Hres. subst single.
  destruct (outcome (annotations_to_markdown _ _ _ _ id _ _ _)) as [[path|]|msg].
  - exact H.
  - destruct H as (_ & _ & Hq). now apply sorted_attachment_ids_have_rows in Hid.
  - destruct H as (-> & -> & Hin). auto.
Qed.


End BatchTheorems.

(** The batch over the table with two attachments. *)
Lemma notes_batch_returns : outcome Notes.batch = Return Notes.results.
Proof. vm_compute. reflexivity. Qed.

Lemma batch_results_follow_sorted_ids_witness :
  outcome Notes.batch = Return Notes.results /\
  exists annot,
    read_csv Notes.parse_csv "zotero_annotations.csv" Pages.library = Return annot /\
    Notes.results.*1 = sorted_attachment_ids annot.
Proof.
  split; [exact notes_batch_returns|].
  destruct (batch_results_follow_sorted_ids Z.eqb Py.str_int Pages.argsort_ties_reversed
              Notes.parse_csv "annotations" "zotero_annotations.csv" Pages.library
              Notes.results notes_batch_returns) as (annot & Hcsv & Hkeys & _).
  exists annot. auto.
Defined.

Lemma batch_counters_match_results_witness :
  outcome Notes.batch = Return Notes.results /\
  (successful_count Notes.results
   + length (List.filter (fun r : Z * attachment_result => is_failed r.2) Notes.results))%nat
  = length Notes.results.
Proof.
  split; [exact notes_batch_returns|].
  apply (batch_counters_match_results Z.eqb Py.str_int Pages.argsort_ties_reversed
           Notes.parse_csv "annotations" "zotero_annotations.csv" Pages.library
           Notes.results notes_batch_returns).
Defined.

Lemma batch_agrees_with_single_conversion_witness :
  (outcome Notes.batch = Return Notes.results /\ 42%Z ∈ Notes.results.*1) /\
  files (disk_after Notes.batch) !! annotation_file "annotations" 42
  = files (disk_after (annotations_to_markdown Z.eqb Py.str_int Pages.argsort_ties_reversed
                         Notes.parse_csv 42 "annotations" "zotero_annotations.csv"
                         Pages.library)) !! annotation_file "annotations" 42.
Proof.
  assert (H : 42%Z ∈ Notes.results.*1) by (right; left).
  split; [split; [exact notes_batch_returns | exact H]|].
  apply (batch_agrees_with_single_conversion Z.eqb Py.str_int Pages.argsort_ties_reversed
           Notes.parse_csv "annotations" "zotero_annotations.csv" Pages.library
           Notes.results 42 notes_batch_returns H).
Defined.


(** ** The successes of the batch and the script around it *)

Section Successes.

Context {label : Type}.
Context (label_eqb : label -> label -> bool) (str_label : label -> string).
Context (argsort : list label -> list nat) (parse_csv : string -> list (annotation label)).
Context (label_le : relation label).
Hypothesis argsort_ok : argsort_sorts label_le argsort.

(** What a success records, and that its file is there. *)
#[local] Abbreviation recorded annot output_dir st :=
  (forall id path n title,
     (id, Success path n title) ∈ results st ->
     path = annotation_file output_dir id /\
     is_Some (files (batch_disk st) !! path) /\
     n = length (query_attachment annot id) /\
     exists paper_info rest,
       query_attachment annot id = paper_info :: rest /\ title = paper_title paper_info).

Lemma items_recorded annot output_dir total ids : forall i st,
  recorded annot output_dir st ->
  recorded annot output_dir
    (process_attachments label_eqb str_label argsort annot output_dir total i ids st).
Proof.
  induction ids as [|id0 ids IH]; intros i st Hst; cbn [process_attachments]; [exact Hst|].
  apply IH. clear IH. intros id path n title Hin. unfold process_attachment in *.
  destruct (query_attachment annot id0) as [|paper_info rest] eqn:Hq.
  { cbn [results batch_disk] in *. apply elem_of_app in Hin as [Hin|Hin]; [now apply Hst|].
    apply list_elem_of_singleton in Hin. discriminate. }
  destruct (render_markdown _ _ _ _ _) as [markdown|msg]; cbn [results batch_disk] in *.
  - apply elem_of_app in Hin as [Hin|Hin].
    + destruct (Hst _ _ _ _ Hin) as (Hpath & Hfile & Hrest). split; [exact Hpath|].
      split; [|exact Hrest]. cbn [write_text snd files].
      destruct (decide (os_path.join output_dir (Py.str_int id0 +:+ ".md") = path)) as [->|Hne].
      * rewrite lookup_insert_eq. eauto.
      * now rewrite lookup_insert_ne.
    + apply list_elem_of_singleton in Hin. injection Hin as -> -> -> ->.
      split; [reflexivity|]. split.
      { cbn [write_text snd files]. rewrite lookup_insert_eq. eauto. }
      rewrite Hq. split; [apply (sort_values_length argsort label_le argsort_ok)|eauto].
  - apply elem_of_app in Hin as [Hin|Hin]; [now apply Hst|].
    apply list_elem_of_singleton in Hin. discriminate.
Qed.


End Successes.


Lemma annotations_file_name id :
  annotation_file config.DEFAULT_ANNOTATIONS_OUTPUT_DIR id
  = "annotations/" +:+ Py.str_int id +:+ ".md".
Proof.
  unfold annotation_file. rewrite join_relative by apply prefixed_not_abs. reflexivity.
Qed.

Section ConvertAll.

Context {label : Type}.
Context (label_eqb : label -> label -> bool) (str_label : label -> string).
Context (argsort : list label -> list nat) (parse_csv : string -> list (annotation label)).

#[local] Abbreviation convert_all :=
  (convert_all_annotations label_eqb str_label argsort parse_csv).
#[local] Abbreviation batch_run :=
  (process_all_attachments label_eqb str_label argsort parse_csv).

Lemma remove_dups_length (annot : list (annotation label)) :
  length (remove_dups (attachment_id <$> annot)) = length (sorted_attachment_ids annot).
Proof. unfold sorted_attachment_ids. now rewrite merge_sort_Permutation. Qed.

(** The three ways [convert_all_annotations] ends. *)
Lemma convert_all_cases output_path csv_file fs :
  let r := convert_all output_path csv_file fs in
  (files fs !! csv_file = None ->
     r = Conversion [] fs
           [ConverterLine (CsvMissingLine csv_file); ConverterLine RunExtractionLine]) /\
  (forall annot,
     read_csv parse_csv csv_file fs = Return annot ->
     (annot = [] -> r = Conversion [] fs [NoAttachmentsLine]) /\
     (annot <> [] ->
        exists res,
          outcome (batch_run output_path csv_file fs) = Return res /\
          r = Conversion res (disk_after (batch_run output_path csv_file fs))
                ([FoundAttachmentsLine (length (sorted_attachment_ids annot));
                  ConverterLine (OutputDirectoryLine output_path)]
                 ++ (ConverterLine <$> output (batch_run output_path csv_file fs))))).
Proof.
  intros r. subst r. unfold convert_all_annotations. split.
  - intros Hmissing. unfold read_csv. now rewrite Hmissing.
  - intros annot Hcsv. rewrite Hcsv. split; [now intros ->|]. intros Hne.
    assert (Hret : exists res, outcome (batch_run output_path csv_file fs) = Return res).
    { unfold process_all_attachments. rewrite Hcsv. cbn [outcome]. eauto. }
    destruct Hret as [res Hret]. rewrite Hret, remove_dups_length.
    assert (Hpos : length (sorted_attachment_ids annot) <> 0%nat).
    { destruct annot as [|row annot]; [congruence|].
      assert (Hin : attachment_id row ∈ sorted_attachment_ids (row :: annot)).
      { apply sorted_attachment_ids_spec. exists row. split; [left|reflexivity]. }
      destruct (sorted_attachment_ids _); [inversion Hin | discriminate]. }
    destruct (Nat.eqb_spec (length (sorted_attachment_ids annot)) 0); [congruence|].
    exists res. auto.
Qed.


(** The file of every success is there. *)
Lemma items_written annot output_dir total ids : forall i st,
  (forall id path n title, (id, Success path n title) ∈ results st ->
     path = annotation_file output_dir id /\ is_Some (files (batch_disk st) !! path)) ->
  forall id path n title,
    (id, Success path n title)
    ∈ results (process_attachments label_eqb str_label argsort annot output_dir total i ids st) ->
    path = annotation_file output_dir id /\
    is_Some (files (batch_disk (process_attachments label_eqb str_label argsort annot
                                  output_dir total i ids st)) !! path).
Proof.
  induction ids as [|id0 ids IH]; intros i st Hst; cbn [process_attachments]; [exact Hst|].
  apply IH. clear IH. intros id path n title Hin. unfold process_attachment in *.
  destruct (query_attachment annot id0) as [|paper_info rest] eqn:Hq.
  { cbn [results batch_disk] in *. apply elem_of_app in Hin as [Hin|Hin]; [exact (Hst _ _ _ _ Hin)|].
    apply list_elem_of_singleton in Hin. discriminate. }
  destruct (render_markdown _ _ _ _ _) as [markdown|msg]; cbn [results batch_disk] in *.
  - apply elem_of_app in Hin as [Hin|Hin].
    + destruct (Hst _ _ _ _ Hin) as (Hpath & Hfile). split; [exact Hpath|].
      cbn [write_text snd files].
      destruct (decide (os_path.join output_dir (Py.str_int id0 +:+ ".md") = path)) as [->|Hne].
      * rewrite lookup_insert_eq. eauto.
      * now rewrite lookup_insert_ne.
    + apply list_elem_of_singleton in Hin. injection Hin as -> -> -> ->.
      split; [reflexivity|]. cbn [write_text snd files]. rewrite lookup_insert_eq. eauto.
  - apply elem_of_app in Hin as [Hin|Hin]; [exact (Hst _ _ _ _ Hin)|].
    apply list_elem_of_singleton in Hin. discriminate.
Qed.

(** X21: run as a script, [convert_annotations.py] writes its markdown
    files to [annotations/{id}.md], one for every success it counts, and
    changes nothing below [all_annotations_output]; yet, when it has a
    result, the last line it prints is "Files saved to:
    all_annotations_output", after the number of successes and the sum of
    their annotation counts. *)
Theorem annotation_script_saves_under_annotations fs c :
  convert_annotations_script label_eqb str_label argsort parse_csv fs = Return c ->
  (forall id path n title,
     (id, Success path n title) ∈ converted c ->
     path = "annotations/" +:+ Py.str_int id +:+ ".md" /\
     is_Some (files (disk_left c) !! path)) /\
  (forall p, os.under "all_annotations_output" p = true ->
     files (disk_left c) !! p = files fs !! p) /\
  (converted c <> [] ->
     exists before,
       lines c
       = before ++ [BatchDoneLine;
                    CreatedCountLine (successful_count (converted c))
                      (total_annotations (converted c));
                    FilesSavedLine] /\
       show_script_line FilesSavedLine = "📁 Files saved to: all_annotations_output").
Proof.
  unfold convert_annotations_script.
  destruct (from_import _ _ _) as [values|msg] eqn:Himport;
    [|vm_compute in Himport; discriminate].
  intros [= <-]. cbn [converted disk_left lines]. clear Himport values.
  set (out := config.DEFAULT_ANNOTATIONS_OUTPUT_DIR).
  set (csv := config.ANNOTATIONS_CSV_FILENAME).
  destruct (convert_all_cases out csv fs) as [Hmissing Hread]. cbn zeta in Hmissing, Hread.
  assert (Htrivial : forall l, convert_all out csv fs = Conversion [] fs l ->
    (forall id path n title,
       (id, Success path n title) ∈ converted (convert_all out csv fs) ->
       path = "annotations/" +:+ Py.str_int id +:+ ".md" /\
       is_Some (files (disk_left (convert_all out csv fs)) !! path)) /\
    (forall p, os.under "all_annotations_output" p = true ->
       files (disk_left (convert_all out csv fs)) !! p = files fs !! p) /\
    (converted (convert_all out csv fs) <> [] ->
       exists before,
         [TitleLine; ConverterLine RuleLine] ++ lines (convert_all out csv fs)
         ++ match converted (convert_all out csv fs) with
            | [] => []
            | _ :: _ =>
                [BatchDoneLine;
                 CreatedCountLine (successful_count (converted (convert_all out csv fs)))
                   (total_annotations (converted (convert_all out csv fs)));
                 FilesSavedLine]
            end
         = before ++ [BatchDoneLine;
                      CreatedCountLine (successful_count (converted (convert_all out csv fs)))
                        (total_annotations (converted (convert_all out csv fs)));
                      FilesSavedLine] /\
         show_script_line FilesSavedLine = "📁 Files saved to: all_annotations_output")).
  { intros l ->. cbn [converted disk_left lines]. split; [|split].
    - intros ? ? ? ? H. inversion H.
    - reflexivity.
    - congruence. }
  destruct (read_csv parse_csv csv fs) as [annot|msg] eqn:Hcsv.
  2: { apply (Htrivial _ (Hmissing ltac:(unfold read_csv in Hcsv;
                                           destruct (files fs !! csv); congruence))). }
  destruct (Hread annot eq_refl) as [Hempty Hrows].
  destruct annot as [|row annot]; [apply (Htrivial _ (Hempty eq_refl))|].
  destruct Hrows as (res & Hret & ->); [discriminate|].
  cbn [converted disk_left lines].
  destruct (batch_keys _ _ _ _ _ _ _ _ Hret) as (annot' & Hcsv' & Hkeys).
  apply batch_return in Hret as (annot'' & Hcsv'' & Hres & Hdisk & _).
  assert (annot'' = annot') by congruence. subst annot''. cbn zeta in Hres, Hdisk.
  rewrite Hdisk. split; [|split].
  - intros id path n title Hin. rewrite Hres in Hin.
    apply (items_written annot' out) in Hin as [-> Hfile].
    + split; [apply annotations_file_name|exact Hfile].
    + intros ? ? ? ? H. inversion H.
  - intros p Hp. rewrite items_untouched; [reflexivity|].
    intros id _ ->. rewrite annotations_file_name in Hp. vm_compute in Hp. discriminate.
  - intros Hne. destruct res as [|item res]; [congruence|].
    eexists (TitleLine :: ConverterLine RuleLine :: _). split; reflexivity.
Qed.

End ConvertAll.

Lemma annotation_script_saves_under_annotations_witness :
  exists c,
    convert_annotations_script Z.eqb Py.str_int Pages.argsort_ties_reversed Notes.parse_csv
      Pages.library = Return c /\
    converted c = Notes.results /\
    forall p, os.under "all_annotations_output" p = true ->
      files (disk_left c) !! p = files Pages.library !! p.
Proof.
  eexists. split; [vm_compute; reflexivity|]. split; [reflexivity|].
  refine (proj1 (proj2 (annotation_script_saves_under_annotations Z.eqb Py.str_int
                          Pages.argsort_ties_reversed Notes.parse_csv Pages.library _ _))).
  vm_compute. reflexivity.
Defined.

(** ** The full path of an attachment *)

Section Split.

(** A separator that is not empty. *)
Context (c0 : ascii) (sep' : string).

#[local] Abbreviation sep := (String c0 sep').

Lemma prefix_empty_r s : String.prefix (String c0 s) "" = false.
Proof. reflexivity. Qed.

(** A string that holds the separator splits into two pieces at least. *)
Lemma split_from_contains s :
  PyStr.contains sep s = true ->
  exists piece piece' pieces, PyStr.split_from sep 0 s = (piece, piece' :: pieces).
Proof.
  induction s as [|a s IH]; cbn [PyStr.contains PyStr.split_from].
  - rewrite prefix_empty_r. discriminate.
  - destruct (String.prefix sep (String a s)).
    + intros _. clear IH.
      destruct (PyStr.split_from sep (String.length sep - 1) s) as [piece pieces].
      do 3 eexists. reflexivity.
    + cbn [orb]. intros H. destruct (IH H) as (piece & piece' & pieces & ->).
      do 3 eexists. reflexivity.
Qed.

(** A string without the separator is one piece. *)
Lemma split_from_without s :
  PyStr.contains sep s = false -> PyStr.split_from sep 0 s = (s, []).
Proof.
  induction s as [|a s IH]; cbn [PyStr.contains PyStr.split_from]; [reflexivity|].
  intros H. apply orb_false_iff in H as [-> H]. now rewrite IH.
Qed.

(** Passing over the rest of an occurrence. *)
Lemma split_from_skip t s :
  PyStr.split_from sep (String.length t) (t +:+ s) = PyStr.split_from sep 0 s.
Proof.
  induction t as [|a t IH]; cbn [String.length String.append].
  - destruct s; reflexivity.
  - exact IH.
Qed.

Lemma split_from_occurrence s :
  PyStr.split_from sep 0 (sep +:+ s)
  = let (piece, pieces) := PyStr.split_from sep 0 s in (EmptyString, piece :: pieces).
Proof.
  cbn [String.append]. cbn [PyStr.split_from].
  change (String c0 (sep' +:+ s)) with (sep +:+ s). rewrite prefix_app_self.
  replace (String.length sep - 1) with (String.length sep') by (cbn [String.length]; lia).
  now rewrite split_from_skip.
Qed.

Lemma contains_occurrence pre s : PyStr.contains sep (pre +:+ sep +:+ s) = true.
Proof.
  induction pre as [|a pre IH].
  - cbn [String.append PyStr.contains].
    change (String c0 (sep' +:+ s)) with (sep +:+ s). now rewrite prefix_app_self.
  - change (String a pre +:+ sep +:+ s) with (String a (pre +:+ sep +:+ s)).
    cbn [PyStr.contains]. rewrite IH. apply orb_true_r.
Qed.

(** Whether [s] starts a string depends on its first [length s]
    characters only. *)
Lemma prefix_long_enough s : forall a b,
  String.length s <= String.length a ->
  String.prefix s (a +:+ b) = String.prefix s a.
Proof.
  induction s as [|c s IH]; intros a b Hlen; [now rewrite !prefix_nil|].
  destruct a as [|d a]; cbn [String.length] in Hlen; [lia|].
  cbn [String.append String.prefix]. destruct (ascii_dec c d); [|reflexivity].
  apply IH. lia.
Qed.

(** The first occurrence of the separator, after a text in which no
    occurrence starts. *)
Lemma split_from_first init l pre name :
  sep = init +:+ String l "" ->
  PyStr.contains sep (pre +:+ init) = false ->
  PyStr.contains sep name = false ->
  PyStr.split_from sep 0 (pre +:+ sep +:+ name) = (pre, [name]).
Proof.
  intros Hsep Hpre Hname. induction pre as [|a pre IH].
  - change ("" +:+ sep +:+ name) with (sep +:+ name).
    now rewrite split_from_occurrence, split_from_without.
  - change (String a pre +:+ init) with (String a (pre +:+ init)) in Hpre.
    cbn [PyStr.contains] in Hpre. apply orb_false_iff in Hpre as [Hhere Hpre].
    change (String a pre +:+ sep +:+ name) with (String a (pre +:+ sep +:+ name)).
    cbn [PyStr.split_from].
    assert (E : String a (pre +:+ sep +:+ name)
                = String a (pre +:+ init) +:+ String l name).
    { rewrite Hsep. cbn [String.append]. f_equal.
      now rewrite !append_assoc. }
    rewrite E, prefix_long_enough, Hhere.
    + now rewrite IH.
    + rewrite Hsep. cbn [String.length]. rewrite !length_append. cbn [String.length]. lia.
Qed.

End Split.

(** X22: [get_fullpath] never raises: whenever the path holds "storage:",
    [split] yields the second piece the function takes.  A path without
    "storage:" is returned as it is, and the [prefix] argument plays no
    part. *)
Theorem full_path_never_raises path prefix key :
  exists full,
    get_fullpath path prefix key = Return full /\
    get_fullpath_from_zotero_path path key = Return full /\
    (PyStr.contains "storage:" path = false -> full = path).
Proof.
  unfold get_fullpath, get_fullpath_from_zotero_path.
  destruct (PyStr.contains "storage:" path) eqn:E; [|eauto].
  apply split_from_contains in E as (piece & piece' & pieces & E).
  unfold PyStr.split. rewrite E. eexists. repeat split. discriminate.
Qed.

(** X23: a stored path [storage:{name}] resolves to
    [{ZOTERO_DATA_DIR}\storage\{key}\{name}]; what stands before the first
    "storage:" is dropped.  Here no occurrence of "storage:" starts before
    that first one and [name] holds none. *)
Theorem stored_path_resolves_below_key_directory pre name key :
  PyStr.contains "storage:" (pre +:+ "storage") = false ->
  PyStr.contains "storage:" name = false ->
  get_fullpath_from_zotero_path (pre +:+ "storage:" +:+ name) key
  = Return (config.ZOTERO_DATA_DIR +:+ "\" +:+ config.STORAGE_DIR_NAME +:+ "\" +:+ key
            +:+ "\" +:+ name).
Proof.
  intros Hpre Hname. unfold get_fullpath_from_zotero_path.
  rewrite (contains_occurrence "s" "torage:" pre name).
  unfold PyStr.split.
  now rewrite (split_from_first "s" "torage:" "storage" ":" pre name eq_refl Hpre Hname).
Qed.

Lemma stored_path_resolves_below_key_directory_witness :
  (PyStr.contains "storage:" ("" +:+ "storage") = false /\
   PyStr.contains "storage:" "Smith_2020.pdf" = false) /\
  get_fullpath_from_zotero_path "storage:Smith_2020.pdf" "ABCD1234"
  = Return "D:\AppData\ZoteroData\\storage\ABCD1234\Smith_2020.pdf".
Proof.
  split; [split; reflexivity|].
  exact (stored_path_resolves_below_key_directory "" "Smith_2020.pdf" "ABCD1234"
           eq_refl eq_refl).
Defined.

(** ** The imports of the other scripts *)

(** X24: every name the other scripts import from [config] is defined
    there: [extract_zotero_metadata.py], [extract_zotero_annotations.py],
    [convert_annotations.py], [test_config.py] and [download_models_hf.py]
    all get past their import, and the latter two find [MINERU_DIR]. *)
Theorem other_scripts_import_defined_names :
  Forall (fun names =>
            exists values, from_import "config" config.attributes names = Return values)
    [ extract_zotero_metadata_imports; extract_zotero_annotations_imports;
      convert_annotations_imports; test_config_imports; download_models_hf_imports ] /\
  from_import "config" config.attributes download_models_hf_imports
  = Return [config.Str config.MINERU_DIR].
Proof.
  split; [|vm_compute; reflexivity].
  repeat constructor; eexists; vm_compute; reflexivity.
Qed.
